(** * Orchestration engine of [backend/ai_generator.py]

    A shallow embedding of the conversation state machine
    ([AIGenerator.generate_response_stream] and its state handlers) and of
    the single-shot path ([AIGenerator.generate_response]), followed by the
    properties of the specification that concern them.

    Conventions.
    - Python [str] values are [string]s (byte strings: a non-ASCII character
      of the source is its UTF-8 encoding); Python [int] is [Z].
    - The model service and the tool executor are external collaborators:
      they are parameters acting on an abstract environment [W], and they may
      raise.  Every call made to them is appended to a log kept next to [W].
    - A coroutine is a state-passing function; a raised exception is the
      left injection of a sum. *)

From Stdlib Require Import String Ascii List ZArith Lia Bool DecimalString Sorted.
Import ListNotations.
Local Open Scope string_scope.
Local Open Scope Z_scope.

(** ** Data model *)

(** [class ConversationState(Enum)] *)
Inductive ConversationState : Type :=
| INITIAL
| AWAITING_TOOL_DECISION
| EXECUTING_TOOLS
| AWAITING_FOLLOW_UP
| COMPLETED
| ERROR.

Definition ConversationState_eqb (a b : ConversationState) : bool :=
  match a, b with
  | INITIAL, INITIAL
  | AWAITING_TOOL_DECISION, AWAITING_TOOL_DECISION
  | EXECUTING_TOOLS, EXECUTING_TOOLS
  | AWAITING_FOLLOW_UP, AWAITING_FOLLOW_UP
  | COMPLETED, COMPLETED
  | ERROR, ERROR => true
  | _, _ => false
  end.

(** [state in [ConversationState.COMPLETED, ConversationState.ERROR]] *)
Definition is_terminal (s : ConversationState) : bool :=
  ConversationState_eqb s COMPLETED || ConversationState_eqb s ERROR.

(** The structured input of a tool invocation (a JSON object, passed through
    untouched). *)
Definition ToolInput : Type := list (string * string).

(** A tool declaration, opaque to the orchestrator. *)
Definition ToolDecl : Type := string.

(** Content blocks of a model response.  Only a text block has a [text]
    attribute; only a tool-use block has [type == "tool_use"] (and then
    [id], [name] and [input]). *)
Inductive ContentBlock : Type :=
| TextBlock (text : string)
| ToolUseBlock (id name : string) (input : ToolInput)
| ThinkingBlock (thinking signature : string)
| RedactedThinkingBlock (data : string).

(** [hasattr(content_block, 'text')] *)
Definition has_text (b : ContentBlock) : bool :=
  match b with TextBlock _ => true | _ => false end.

(** [hasattr(content_block, 'type') and content_block.type == "tool_use"] *)
Definition is_tool_use (b : ContentBlock) : bool :=
  match b with ToolUseBlock _ _ _ => true | _ => false end.

Record Response : Type := mkResponse {
  stop_reason : string;
  content : list ContentBlock
}.

(** [{"type": "tool_result", "tool_use_id": ..., "content": ...}] *)
Record ToolResult : Type := mkToolResult {
  tool_use_id : string;
  tool_result_content : string
}.

Inductive Role : Type := user | assistant.

Inductive MessageContent : Type :=
| ContentQuery (query : string)
| ContentBlocks (blocks : list ContentBlock)
| ContentToolResults (results : list ToolResult).

(** [{"role": ..., "content": ...}] *)
Record Message : Type := mkMessage {
  role : Role;
  message_content : MessageContent
}.

(** One entry of [ConversationContext.tool_call_history]. *)
Record ToolCallRecord : Type := mkToolCallRecord {
  index : Z;
  tool_name : string;
  input : ToolInput;
  result : string;
  timestamp : string
}.

(** [@dataclass class ConversationContext] *)
Record ConversationContext : Type := mkContext {
  messages : list Message;
  system_prompt : string;
  tool_call_count : Z;
  tool_call_history : list ToolCallRecord;
  intermediate_responses : list string;
  metadata : list (string * string)
}.

(** The payload [StateTransition.data]: a dictionary whose keys depend on
    the trigger. *)
Inductive TransitionData : Type :=
| DataResponse (response : Response)
| DataToolUse (response : Response) (tool_blocks : list ContentBlock)
| DataFinal (final_text : option string) (response : Response)
| DataTokenLimit (error : string) (partial_text : option string)
| DataError (error : string)
| DataToolResults (tool_results : list ToolResult).

(** [@dataclass class StateTransition] *)
Record StateTransition : Type := mkTransition {
  from_state : ConversationState;
  to_state : ConversationState;
  trigger : string;
  data : TransitionData
}.

(** [transition.data["response"]] when ["response" in transition.data] *)
Definition data_response (d : TransitionData) : option Response :=
  match d with
  | DataResponse r => Some r
  | DataToolUse r _ => Some r
  | DataFinal _ r => Some r
  | DataTokenLimit _ _ => None
  | DataError _ => None
  | DataToolResults _ => None
  end.

(** The request built from [base_params] and the per-call keys. *)
Record Request : Type := mkRequest {
  req_model : string;
  req_temperature : Z;
  req_max_tokens : Z;
  req_messages : list Message;
  req_system : string;
  req_tools : option (list ToolDecl);
  req_tool_choice : option string
}.

Inductive Exn : Type :=
| IndexError
| AttributeError
| ValueError (msg : string)
| PortFailure (what : string).

(** ** Strings of the source *)

Definition dquote : string := String (ascii_of_nat 34) EmptyString.

(** [AIGenerator.SYSTEM_PROMPT] *)
Definition SYSTEM_PROMPT : string :=
  " You are an AI assistant specialized in course materials and educational content with access to tools for searching course content and retrieving course outlines.

Tool Usage:
- **Course Outline Tool**: Use for questions about course structure, curriculum, lesson list, or "
  ++ dquote ++ "what lessons are in [course]" ++ dquote ++ "
  - Returns: Course title, course link, and complete list of lessons with numbers and titles
  - Always present the full outline when retrieved, including the course link and all lesson details

- **Search Content Tool**: Use for questions about specific course content or detailed educational materials
  - **One search per query maximum**
  - Synthesize search results into accurate, fact-based responses
  - If search yields no results, state this clearly without offering alternatives

Response Protocol:
- **General knowledge questions**: Answer using existing knowledge without searching
- **Course outline/structure questions**: Use the outline tool to retrieve course details
- **Course-specific content questions**: Search first, then answer
- **No meta-commentary**:
 - Provide direct answers only — no reasoning process, search explanations, or question-type analysis
 - Do not mention "
  ++ dquote ++ "based on the search results" ++ dquote ++ " or "
  ++ dquote ++ "using the outline tool" ++ dquote ++ "


All responses must be:
1. **Brief, Concise and focused** - Get to the point quickly
2. **Educational** - Maintain instructional value
3. **Clear** - Use accessible language
4. **Example-supported** - Include relevant examples when they aid understanding
Provide only the direct answer to what was asked.
".

(** The literal part of
    [f"{self.SYSTEM_PROMPT}\n\nPrevious conversation:\n{conversation_history}"]. *)
Definition previous_conversation_header : string := "

Previous conversation:
".

(** The truth value of a Python [str]. *)
Definition str_truthy (s : string) : bool :=
  match s with EmptyString => false | String _ _ => true end.

(** [system_content = (f"..." if conversation_history else self.SYSTEM_PROMPT)],
    the same expression in [generate_response] and in
    [generate_response_stream]. *)
Definition build_system_content (conversation_history : option string) : string :=
  match conversation_history with
  | Some h =>
      if str_truthy h
      then SYSTEM_PROMPT ++ previous_conversation_header ++ h
      else SYSTEM_PROMPT
  | None => SYSTEM_PROMPT
  end.

(** [f"{n}"] for an [int]. *)
Definition str_of_int (n : Z) : string := NilZero.string_of_int (Z.to_int n).

(** ** Effects: state passing with exceptions *)

(** A computation over a state [S] that returns an [A] or raises. *)
Definition M (S A : Type) : Type := S -> (Exn + A) * S.

Definition ret {S A : Type} (a : A) : M S A := fun s => (inr a, s).

Definition raise {S A : Type} (e : Exn) : M S A := fun s => (inl e, s).

Definition bind {S A B : Type} (m : M S A) (k : A -> M S B) : M S B :=
  fun s =>
    match m s with
    | (inl e, s') => (inl e, s')
    | (inr a, s') => k a s'
    end.

Declare Scope orch_scope.
Delimit Scope orch_scope with orch.
Notation "x <- m ;; k" := (bind m (fun x => k))
  (at level 61, m at next level, right associativity) : orch_scope.
Notation "m ;;; k" := (bind m (fun _ => k))
  (at level 61, right associativity) : orch_scope.
Local Open Scope orch_scope.

(** A call made to one of the two collaborators. *)
Inductive PortCall : Type :=
| ModelCall (req : Request)
| ToolCall (name : string) (input : ToolInput).

Definition is_tool_call (c : PortCall) : bool :=
  match c with ToolCall _ _ => true | ModelCall _ => false end.

(** ** Conversation context *)

(** [context.messages.append(m)] *)
Definition append_message (self : ConversationContext) (m : Message)
  : ConversationContext :=
  {| messages := (messages self ++ [m])%list;
     system_prompt := system_prompt self;
     tool_call_count := tool_call_count self;
     tool_call_history := tool_call_history self;
     intermediate_responses := intermediate_responses self;
     metadata := metadata self |}.

(** [ConversationContext.add_tool_call]; [now] is the value of
    [datetime.now().isoformat()]. *)
Definition add_tool_call (self : ConversationContext) (now : string)
    (name : string) (tool_input : ToolInput) (res : string)
  : ConversationContext :=
  let count := tool_call_count self + 1 in
  {| messages := messages self;
     system_prompt := system_prompt self;
     tool_call_count := count;
     tool_call_history :=
       (tool_call_history self ++
          [ {| index := count;
               tool_name := name;
               input := tool_input;
               result := res;
               timestamp := now |} ])%list;
     intermediate_responses := intermediate_responses self;
     metadata := metadata self |}.

(** The first text-bearing block:
    [for content_block in response.content:
       if hasattr(content_block, 'text'): text = content_block.text; break],
    starting from [None]. *)
Fixpoint extract_text (blocks : list ContentBlock) : option string :=
  match blocks with
  | [] => None
  | TextBlock t :: _ => Some t
  | _ :: rest => extract_text rest
  end.

(** [[block.name for block in response.content
      if hasattr(block, 'type') and block.type == "tool_use"]] *)
Fixpoint tool_names (blocks : list ContentBlock) : list string :=
  match blocks with
  | [] => []
  | ToolUseBlock _ name _ :: rest => name :: tool_names rest
  | _ :: rest => tool_names rest
  end.

(** [response.content[0].text] *)
Definition first_block_text {S : Type} (r : Response) : M S string :=
  match content r with
  | [] => raise IndexError
  | TextBlock t :: _ => ret t
  | _ :: _ => raise AttributeError
  end.

(** The truth value of [tools : Optional[List]]. *)
Definition tools_truthy (tools : option (list ToolDecl)) : bool :=
  match tools with
  | Some (_ :: _) => true
  | _ => false
  end.

(** The two ways in which the code calls [tool_manager.execute_tool]: the
    state machine passes the input mapping as one positional argument,
    [execute_tool(name, input)]; the single-shot path spreads it into
    keyword arguments, [execute_tool(name, **input)].  For one Python
    object these are different calls. *)
Inductive ToolArguments : Type :=
| PositionalInput (tool_input : ToolInput)
| KeywordInput (tool_input : ToolInput).

(** The input mapping that a call carries. *)
Definition arguments_input (args : ToolArguments) : ToolInput :=
  match args with
  | PositionalInput tool_input => tool_input
  | KeywordInput tool_input => tool_input
  end.

Section Orchestrator.

(** The environment of the collaborators. *)
Variable W : Type.

(** [self.model] and [self.enable_iteration_logging]. *)
Variable model : string.
Variable enable_iteration_logging : bool.

(** The Model Service Port: [client.messages.create] applied to the request, the
    same service behind [self.client] and [self.async_client]. *)
Variable messages_create : Request -> W -> (Exn + Response) * W.

(** [datetime.now().isoformat()] *)
Variable now_isoformat : W -> string.

(** The Tool Executor Port: [tool_manager.execute_tool], called with a
    tool name and the arguments in one of the two ways; it gives a result
    string, or the call raises. *)
Definition ToolManager : Type :=
  string -> ToolArguments -> W -> (Exn + string) * W.

(** The environment, the log of the calls made to the collaborators, and
    what was printed (one entry per
    [print(f"Tool iteration {n}: {tool_names}")]). *)
Record World : Type := mkWorld {
  env : W;
  port_calls : list PortCall;
  stdout : list (Z * list string)
}.

(** The context object of one run together with the world. *)
Record Store : Type := mkStore {
  context : ConversationContext;
  world : World
}.

(** *** Primitive effects *)

Definition call_model (req : Request) : M World Response :=
  fun w =>
    let (r, e) := messages_create req (env w) in
    (r, {| env := e;
           port_calls := (port_calls w ++ [ModelCall req])%list;
           stdout := stdout w |}).

(** [tool_manager.execute_tool(...)]; with [tool_manager=None] the
    attribute access raises before any call.  The log records the tool and
    the input of the call. *)
Definition call_tool (tool_manager : option ToolManager)
    (name : string) (args : ToolArguments) : M World string :=
  match tool_manager with
  | None => raise AttributeError
  | Some execute_tool =>
      fun w =>
        let (r, e) := execute_tool name args (env w) in
        (r, {| env := e;
               port_calls :=
                 (port_calls w ++ [ToolCall name (arguments_input args)])%list;
               stdout := stdout w |})
  end.

Definition print_iteration (n : Z) (names : list string) : M World unit :=
  fun w =>
    (inr tt, {| env := env w;
                port_calls := port_calls w;
                stdout := (stdout w ++ [(n, names)])%list |}).

(** Running a world computation inside a run of the state machine. *)
Definition in_world {A : Type} (m : M World A) : M Store A :=
  fun st =>
    let (r, w) := m (world st) in
    (r, {| context := context st; world := w |}).

Definition get_context : M Store ConversationContext :=
  fun st => (inr (context st), st).

Definition update_context (f : ConversationContext -> ConversationContext)
  : M Store unit :=
  fun st => (inr tt, {| context := f (context st); world := world st |}).

Definition read_clock : M Store string :=
  fun st => (inr (now_isoformat (env (world st))), st).

(** [{**self.base_params, "messages": ..., "system": ...}] plus, when
    [tools] is truthy, ["tools"] and ["tool_choice": {"type": "auto"}]. *)
Definition make_api_params (msgs : list Message) (system : string)
    (tools : option (list ToolDecl)) : Request :=
  {| req_model := model;
     req_temperature := 0;
     req_max_tokens := 800;
     req_messages := msgs;
     req_system := system;
     req_tools := if tools_truthy tools then tools else None;
     req_tool_choice := if tools_truthy tools then Some "auto" else None |}.

(** *** State handlers *)

(** [_handle_initial_state] *)
Definition _handle_initial_state (tools : option (list ToolDecl))
  : M Store StateTransition :=
  ctx <- get_context ;;
  response <- in_world
    (call_model (make_api_params (messages ctx) (system_prompt ctx) tools)) ;;
  ret {| from_state := INITIAL;
         to_state := AWAITING_TOOL_DECISION;
         trigger := "api_call_complete";
         data := DataResponse response |}.

(** The classification by stop reason, shared (textually duplicated in the
    source) by [_handle_tool_decision_state] and [_handle_follow_up_state];
    [from] is the state of the handler. *)
Definition classify_response (from : ConversationState) (response : Response)
  : M Store StateTransition :=
  if (stop_reason response =? "tool_use")%string then
    update_context (fun ctx =>
      append_message ctx {| role := assistant;
                            message_content := ContentBlocks (content response) |}) ;;;
    (if enable_iteration_logging then
       ctx <- get_context ;;
       in_world (print_iteration (tool_call_count ctx + 1)
                                 (tool_names (content response)))
     else ret tt) ;;;
    ret {| from_state := from;
           to_state := EXECUTING_TOOLS;
           trigger := "tool_use";
           data := DataToolUse response (content response) |}
  else if (stop_reason response =? "end_turn")%string then
    let final_text := extract_text (content response) in
    ret {| from_state := from;
           to_state := COMPLETED;
           trigger := "end_turn";
           data := DataFinal final_text response |}
  else if (stop_reason response =? "max_tokens")%string then
    let partial_text := extract_text (content response) in
    ret {| from_state := from;
           to_state := ERROR;
           trigger := "max_tokens";
           data := DataTokenLimit "Token limit reached" partial_text |}
  else
    ret {| from_state := from;
           to_state := ERROR;
           trigger := "unknown_stop_reason";
           data := DataError ("Unexpected stop_reason: " ++ stop_reason response) |}.

(** [_handle_tool_decision_state] *)
Definition _handle_tool_decision_state (response : Response)
  : M Store StateTransition :=
  classify_response AWAITING_TOOL_DECISION response.

(** [_execute_tool_async] *)
Definition _execute_tool_async (name : string) (tool_input : ToolInput)
    (tool_manager : option ToolManager) : M Store string :=
  in_world (call_tool tool_manager name (PositionalInput tool_input)).

(** The [for content_block in tool_blocks] loop of
    [_handle_tool_execution_state]; [tool_results] is the list built so
    far. *)
Fixpoint execute_tool_blocks (tool_manager : option ToolManager)
    (tool_blocks : list ContentBlock) (tool_results : list ToolResult)
  : M Store (list ToolResult) :=
  match tool_blocks with
  | [] => ret tool_results
  | ToolUseBlock id name tool_input :: rest =>
      res <- _execute_tool_async name tool_input tool_manager ;;
      now <- read_clock ;;
      update_context (fun ctx => add_tool_call ctx now name tool_input res) ;;;
      execute_tool_blocks tool_manager rest
        (tool_results ++ [ {| tool_use_id := id; tool_result_content := res |} ])%list
  | _ :: rest => execute_tool_blocks tool_manager rest tool_results
  end.

(** [_handle_tool_execution_state] *)
Definition _handle_tool_execution_state (tool_blocks : list ContentBlock)
    (tool_manager : option ToolManager) : M Store StateTransition :=
  tool_results <- execute_tool_blocks tool_manager tool_blocks [] ;;
  (match tool_results with
   | [] => ret tt
   | _ :: _ =>
       update_context (fun ctx =>
         append_message ctx {| role := user;
                               message_content := ContentToolResults tool_results |})
   end) ;;;
  ret {| from_state := EXECUTING_TOOLS;
         to_state := AWAITING_FOLLOW_UP;
         trigger := "tools_executed";
         data := DataToolResults tool_results |}.

(** [_handle_follow_up_state] *)
Definition _handle_follow_up_state (tools : option (list ToolDecl))
  : M Store StateTransition :=
  ctx <- get_context ;;
  response <- in_world
    (call_model (make_api_params (messages ctx) (system_prompt ctx) tools)) ;;
  classify_response AWAITING_FOLLOW_UP response.

(** [_dispatch_state] *)
Definition _dispatch_state (state : ConversationState)
    (tools : option (list ToolDecl)) (tool_manager : option ToolManager)
    (last_response : option Response) : M Store StateTransition :=
  match state with
  | INITIAL => _handle_initial_state tools
  | AWAITING_TOOL_DECISION =>
      match last_response with
      | Some response => _handle_tool_decision_state response
      | None => raise AttributeError
      end
  | EXECUTING_TOOLS =>
      let tool_blocks :=
        match last_response with
        | Some response => content response
        | None => []
        end in
      _handle_tool_execution_state tool_blocks tool_manager
  | AWAITING_FOLLOW_UP => _handle_follow_up_state tools
  | COMPLETED => raise (ValueError "No handler for state: ConversationState.COMPLETED")
  | ERROR => raise (ValueError "No handler for state: ConversationState.ERROR")
  end.

(** *** The driving loop *)

(** One yielded transition, with the context and the world as they are
    when the consumer receives it. *)
Record Yield : Type := mkYield {
  yield_transition : StateTransition;
  yield_store : Store
}.

(** How the [while] loop of [generate_response_stream] is left: by its
    condition or by [break], with the values of [current_state] and
    [iteration] at that point; by an exception; or because the recursion
    budget of the embedding ran out. *)
Inductive LoopExit : Type :=
| LoopDone (current_state : ConversationState) (iteration : Z)
| LoopRaised (e : Exn)
| LoopOutOfFuel.

(** [while current_state not in [COMPLETED, ERROR] and iteration < max_iterations] *)
Fixpoint stream_loop (fuel : nat)
    (tools : option (list ToolDecl)) (tool_manager : option ToolManager)
    (max_iterations : Z)
    (current_state : ConversationState) (iteration : Z)
    (last_response : option Response) (st : Store)
  : list Yield * LoopExit * Store :=
  if negb (is_terminal current_state) && (iteration <? max_iterations) then
    match fuel with
    | O => ([], LoopOutOfFuel, st)
    | S fuel' =>
        let iteration := iteration + 1 in
        match _dispatch_state current_state tools tool_manager last_response st with
        | (inl e, st') => ([], LoopRaised e, st')
        | (inr transition, st') =>
            let y := {| yield_transition := transition; yield_store := st' |} in
            if is_terminal (to_state transition) then
              ([y], LoopDone current_state iteration, st')
            else
              let current_state' := to_state transition in
              let last_response' :=
                match data_response (data transition) with
                | Some r => Some r
                | None => last_response
                end in
              let '(ys, ex, st'') :=
                stream_loop fuel' tools tool_manager max_iterations
                  current_state' iteration last_response' st' in
              (y :: ys, ex, st'')
        end
    end
  else ([], LoopDone current_state iteration, st).

(** How the generator ends once driven to exhaustion. *)
Inductive Completion : Type :=
| Exhausted
| Raised (e : Exn)
| OutOfFuel.

Record StreamRun : Type := mkStreamRun {
  yielded : list Yield;
  completion : Completion;
  final_store : Store
}.

(** The transition synthesized after the loop. *)
Definition max_iterations_transition (current_state : ConversationState)
    (max_iterations : Z) : StateTransition :=
  {| from_state := current_state;
     to_state := ERROR;
     trigger := "max_iterations_exceeded";
     data := DataError ("Exceeded " ++ str_of_int max_iterations
                          ++ " iterations without completion") |}.

(** The context created by [generate_response_stream]. *)
Definition initial_context (query : string)
    (conversation_history : option string) : ConversationContext :=
  {| messages := [ {| role := user; message_content := ContentQuery query |} ];
     system_prompt := build_system_content conversation_history;
     tool_call_count := 0;
     tool_call_history := [];
     intermediate_responses := [];
     metadata := [] |}.

(** [generate_response_stream], driven until the generator is exhausted. *)
Definition generate_response_stream (query : string)
    (conversation_history : option string)
    (tools : option (list ToolDecl)) (tool_manager : option ToolManager)
    (max_iterations : Z) (w : World) : StreamRun :=
  let ctx := initial_context query conversation_history in
  let '(ys, ex, st) :=
    stream_loop (Z.to_nat max_iterations) tools tool_manager max_iterations
      INITIAL 0 None {| context := ctx; world := w |} in
  match ex with
  | LoopDone current_state iteration =>
      if (iteration >=? max_iterations) && negb (is_terminal current_state) then
        {| yielded :=
             (ys ++ [ {| yield_transition :=
                           max_iterations_transition current_state max_iterations;
                         yield_store := st |} ])%list;
           completion := Exhausted;
           final_store := st |}
      else {| yielded := ys; completion := Exhausted; final_store := st |}
  | LoopRaised e => {| yielded := ys; completion := Raised e; final_store := st |}
  | LoopOutOfFuel => {| yielded := ys; completion := OutOfFuel; final_store := st |}
  end.

(** The transitions of a run, in the order they are yielded. *)
Definition transitions (r : StreamRun) : list StateTransition :=
  map yield_transition (yielded r).

(** *** The single-shot path *)

(** The [for content_block in initial_response.content] loop of
    [_handle_tool_execution]. *)
Fixpoint execute_tool_blocks_sync (tool_manager : option ToolManager)
    (blocks : list ContentBlock) (tool_results : list ToolResult)
  : M World (list ToolResult) :=
  match blocks with
  | [] => ret tool_results
  | ToolUseBlock id name tool_input :: rest =>
      tool_result <- call_tool tool_manager name (KeywordInput tool_input) ;;
      execute_tool_blocks_sync tool_manager rest
        (tool_results ++ [ {| tool_use_id := id; tool_result_content := tool_result |} ])%list
  | _ :: rest => execute_tool_blocks_sync tool_manager rest tool_results
  end.

(** [_handle_tool_execution] *)
Definition _handle_tool_execution (initial_response : Response)
    (base_params : Request) (tool_manager : option ToolManager)
  : M World string :=
  let msgs := req_messages base_params in
  let msgs :=
    (msgs ++ [ {| role := assistant;
                  message_content := ContentBlocks (content initial_response) |} ])%list in
  tool_results <- execute_tool_blocks_sync tool_manager (content initial_response) [] ;;
  let msgs :=
    match tool_results with
    | [] => msgs
    | _ :: _ =>
        (msgs ++ [ {| role := user;
                      message_content := ContentToolResults tool_results |} ])%list
    end in
  let final_params :=
    {| req_model := model;
       req_temperature := 0;
       req_max_tokens := 800;
       req_messages := msgs;
       req_system := req_system base_params;
       req_tools := None;
       req_tool_choice := None |} in
  final_response <- call_model final_params ;;
  first_block_text final_response.

(** [generate_response] *)
Definition generate_response (query : string)
    (conversation_history : option string)
    (tools : option (list ToolDecl)) (tool_manager : option ToolManager)
  : M World string :=
  let system_content := build_system_content conversation_history in
  let api_params :=
    make_api_params [ {| role := user; message_content := ContentQuery query |} ]
      system_content tools in
  response <- call_model api_params ;;
  if (stop_reason response =? "tool_use")%string
     && (match tool_manager with Some _ => true | None => false end)
  then _handle_tool_execution response api_params tool_manager
  else first_block_text response.

End Orchestrator.

Arguments mkWorld {W}.
Arguments env {W}.
Arguments port_calls {W}.
Arguments stdout {W}.
Arguments mkStore {W}.
Arguments context {W}.
Arguments world {W}.
Arguments yield_transition {W}.
Arguments yield_store {W}.
Arguments yielded {W}.
Arguments completion {W}.
Arguments final_store {W}.
Arguments transitions {W}.

(** ** Concrete collaborators

    A scripted model service (the environment is the list of the responses
    still to be given, whatever the request), a tool executor that echoes
    the tool name, and a fixed clock. *)
Module Scripted.

Definition W : Type := list Response.

Definition messages_create (_ : Request) (w : W) : (Exn + Response) * W :=
  match w with
  | [] => (inl (PortFailure "no scripted response left"), [])
  | r :: rest => (inr r, rest)
  end.

Definition now_isoformat (_ : W) : string := "2025-01-01T00:00:00".

Definition execute_tool : ToolManager W :=
  fun name _ w => (inr ("result-" ++ name), w).

Definition answer : Response :=
  {| stop_reason := "end_turn"; content := [TextBlock "4"] |}.

Definition thought_then_answer : Response :=
  {| stop_reason := "end_turn";
     content := [ThinkingBlock "adding" "sig"; TextBlock "4"; TextBlock "four"] |}.

Definition empty_answer : Response :=
  {| stop_reason := "end_turn"; content := [] |}.

Definition truncated : Response :=
  {| stop_reason := "max_tokens"; content := [TextBlock "The answer is"] |}.

Definition search_request : Response :=
  {| stop_reason := "tool_use";
     content := [TextBlock "Let me search.";
                 ToolUseBlock "toolu_1" "search" [("q", "x")];
                 ToolUseBlock "toolu_2" "outline" [("course", "MCP")]] |}.

Definition bare_search_request : Response :=
  {| stop_reason := "tool_use";
     content := [ToolUseBlock "toolu_1" "search" [("q", "x")]] |}.

Definition toolless_request : Response :=
  {| stop_reason := "tool_use"; content := [TextBlock "I would search."] |}.

Definition start (script : list Response) : World W :=
  {| env := script; port_calls := []; stdout := [] |}.

Definition stream :=
  generate_response_stream W "claude" true messages_create now_isoformat.

Definition single_shot :=
  generate_response W "claude" messages_create.

End Scripted.

(** ** Auxiliary notions used by the statements *)

(** The last character of a string. *)
Fixpoint last_ascii (s : string) : option ascii :=
  match s with
  | EmptyString => None
  | String c EmptyString => Some c
  | String _ rest => last_ascii rest
  end.

(** [t] is the text of the first text-bearing block of [blocks]. *)
Definition first_text_bearing (blocks : list ContentBlock) (t : string) : Prop :=
  exists pre post,
    blocks = (pre ++ TextBlock t :: post)%list
    /\ forallb (fun b => negb (has_text b)) pre = true.

(** No block of [blocks] bears text. *)
Definition no_text_bearing (blocks : list ContentBlock) : Prop :=
  forallb (fun b => negb (has_text b)) blocks = true.

(** The tool-invocation blocks of a response content, in order. *)
Definition tool_use_blocks (blocks : list ContentBlock) : list ContentBlock :=
  filter is_tool_use blocks.

(** The call to the Tool Executor Port that a tool-invocation block asks
    for. *)
Definition tool_call_of (b : ContentBlock) : PortCall :=
  match b with
  | ToolUseBlock _ name tool_input => ToolCall name tool_input
  | _ => ToolCall "" []
  end.

Definition block_name (b : ContentBlock) : string :=
  match b with ToolUseBlock _ name _ => name | _ => "" end.

Definition block_input (b : ContentBlock) : ToolInput :=
  match b with ToolUseBlock _ _ tool_input => tool_input | _ => [] end.

Definition block_id (b : ContentBlock) : string :=
  match b with ToolUseBlock id _ _ => id | _ => "" end.

(** Once a transition into a terminal state occurs in [ts], nothing follows
    it. *)
Definition terminal_is_last (ts : list StateTransition) : Prop :=
  forall pre t post,
    ts = (pre ++ t :: post)%list ->
    is_terminal (to_state t) = true ->
    post = [].

(** [R] relates each element of [st :: l] to the next one. *)
Fixpoint chain {A : Type} (R : A -> A -> Prop) (st : A) (l : list A) : Prop :=
  match l with
  | [] => True
  | s :: l' => R st s /\ chain R s l'
  end.

(** The invariant of the context: the counter is the length of the log. *)
Definition count_matches_history (ctx : ConversationContext) : Prop :=
  tool_call_count ctx = Z.of_nat (length (tool_call_history ctx)).

(** [ctx'] is a later value of the context object [ctx]: the messages have
    only been appended to and the system prompt is the same. *)
Definition context_grows (ctx ctx' : ConversationContext) : Prop :=
  (exists more, messages ctx' = (messages ctx ++ more)%list)
  /\ system_prompt ctx' = system_prompt ctx
  /\ (exists more, tool_call_history ctx' = (tool_call_history ctx ++ more)%list)
  /\ tool_call_count ctx <= tool_call_count ctx'
  /\ metadata ctx' = metadata ctx.

(** The final text carried by the COMPLETED transition of a run, if the run
    has one: [Some None] is a completion without text. *)
Fixpoint completed_final_text (ts : list StateTransition)
  : option (option string) :=
  match ts with
  | [] => None
  | t :: rest =>
      match to_state t, data t with
      | COMPLETED, DataFinal final_text _ => Some final_text
      | _, _ => completed_final_text rest
      end
  end.

(** The single-shot entry point the specification describes: drive the state
    machine to completion and return only the final text. *)
Definition drive_to_completion {W : Type} (run : StreamRun W)
  : option (option string) :=
  completed_final_text (transitions run).

(** The system prompt carried by a call to the model service is [sp]. *)
Definition sent_system (sp : string) (c : PortCall) : Prop :=
  match c with
  | ModelCall req => req_system req = sp
  | ToolCall _ _ => True
  end.

(** [st'] is a later store of the run that was in [st]: the context has
    grown and kept its invariant, the log of calls has only been appended to,
    and every model call added carries the system prompt of the context. *)
Definition store_evolves {W : Type} (st st' : Store W) : Prop :=
  context_grows (context st) (context st')
  /\ (count_matches_history (context st) -> count_matches_history (context st'))
  /\ exists calls,
       port_calls (world st') = (port_calls (world st) ++ calls)%list
       /\ Forall (sent_system (system_prompt (context st))) calls.

(** The tool-invocation blocks of [blocks] are executed one after the other,
    in the order of [blocks], each in the environment the previous one left:
    from [e] they return [results] and leave [e']. *)
Inductive tools_run {W : Type} (execute_tool : ToolManager W)
  : list ContentBlock -> W -> list string -> W -> Prop :=
| tools_run_nil (e : W) : tools_run execute_tool [] e [] e
| tools_run_tool (id name : string) (tool_input : ToolInput)
    (rest : list ContentBlock) (e e1 e' : W) (res : string) (results : list string) :
    execute_tool name (PositionalInput tool_input) e = (inr res, e1) ->
    tools_run execute_tool rest e1 results e' ->
    tools_run execute_tool (ToolUseBlock id name tool_input :: rest) e (res :: results) e'
| tools_run_skip (b : ContentBlock) (rest : list ContentBlock) (e e' : W)
    (results : list string) :
    is_tool_use b = false ->
    tools_run execute_tool rest e results e' ->
    tools_run execute_tool (b :: rest) e results e'.

(** The executor returns a result on every call made the way the state
    machine makes it. *)
Definition executor_returns {W : Type} (execute_tool : ToolManager W) : Prop :=
  forall name tool_input e,
    exists res e',
      execute_tool name (PositionalInput tool_input) e = (inr res, e').

(** The model service answers every request, always asking for tools. *)
Definition always_requests_tools {W : Type}
    (messages_create : Request -> W -> (Exn + Response) * W) : Prop :=
  forall req e, exists r e',
    messages_create req e = (inr r, e') /\ stop_reason r = "tool_use".

(** On the calls that the state machine makes for [blocks] from the
    environment [e] (one per tool-invocation block, each in the environment
    left by the one before, up to the first that raises), the executor
    answers as it would have, had the input been passed as keyword
    arguments. *)
Fixpoint conventions_agree_from {W : Type} (execute_tool : ToolManager W)
    (blocks : list ContentBlock) (e : W) : Prop :=
  match blocks with
  | [] => True
  | ToolUseBlock _ name tool_input :: rest =>
      execute_tool name (PositionalInput tool_input) e
      = execute_tool name (KeywordInput tool_input) e
      /\ match execute_tool name (PositionalInput tool_input) e with
         | (inr _, e') => conventions_agree_from execute_tool rest e'
         | (inl _, _) => True
         end
  | _ :: rest => conventions_agree_from execute_tool rest e
  end.

Definition conventions_agree {W : Type} (tool_manager : option (ToolManager W))
    (blocks : list ContentBlock) (e : W) : Prop :=
  match tool_manager with
  | None => True
  | Some execute_tool => conventions_agree_from execute_tool blocks e
  end.

(** The request [req] with its tool declarations left out, as the second
    call of the single-shot path sends it. *)
Definition without_tools (req : Request) : Request :=
  {| req_model := req_model req;
     req_temperature := req_temperature req;
     req_max_tokens := req_max_tokens req;
     req_messages := req_messages req;
     req_system := req_system req;
     req_tools := None;
     req_tool_choice := None |}.

(** The integers [start + 1, ..., start + n]. *)
Fixpoint count_from (start : Z) (n : nat) : list Z :=
  match n with
  | O => []
  | S n' => (start + 1) :: count_from (start + 1) n'
  end.

(** ** The stores and the runs that the statements speak of *)

Section RunSemantics.

Context {W : Type}.
Variable model : string.
Variable logging : bool.
Variable messages_create : Request -> W -> (Exn + Response) * W.
Variable now_isoformat : W -> string.

(** The store after the tool-use branch of the classification. *)
Definition after_tool_use (response : Response) (st : Store W) : Store W :=
  let ctx := append_message (context st)
               {| role := assistant;
                  message_content := ContentBlocks (content response) |} in
  {| context := ctx;
     world :=
       if logging then
         {| env := env (world st);
            port_calls := port_calls (world st);
            stdout := (stdout (world st)
                         ++ [(tool_call_count ctx + 1, tool_names (content response))])%list |}
       else world st |}.

(** The rows of the transition table that the classification can take. *)
Definition classified (from : ConversationState) (tr : StateTransition) : Prop :=
  from_state tr = from
  /\ ((to_state tr = EXECUTING_TOOLS /\ trigger tr = "tool_use")
      \/ (to_state tr = COMPLETED /\ trigger tr = "end_turn")
      \/ (to_state tr = ERROR /\ trigger tr = "max_tokens")
      \/ (to_state tr = ERROR /\ trigger tr = "unknown_stop_reason")).

(** The request of [_handle_initial_state] and [_handle_follow_up_state]. *)
Definition request_of (tools : option (list ToolDecl)) (st : Store W) : Request :=
  make_api_params model (messages (context st)) (system_prompt (context st)) tools.

(** The store once the model service has been called with that request and
    has left the environment [e]. *)
Definition after_model_call (tools : option (list ToolDecl)) (st : Store W) (e : W)
  : Store W :=
  {| context := context st;
     world := {| env := e;
                 port_calls := (port_calls (world st) ++ [ModelCall (request_of tools st)])%list;
                 stdout := stdout (world st) |} |}.

(** The store once a tool has been called, has returned [res] and left the
    environment [e], and the call has been recorded in the context. *)
Definition after_tool_call (name : string) (tool_input : ToolInput) (res : string)
    (e : W) (st : Store W) : Store W :=
  {| context := add_tool_call (context st) (now_isoformat e) name tool_input res;
     world := {| env := e;
                 port_calls := (port_calls (world st) ++ [ToolCall name tool_input])%list;
                 stdout := stdout (world st) |} |}.

(** The store after the tool loop has returned [tool_results] in [st]. *)
Definition after_tool_results (tool_results : list ToolResult) (st : Store W)
  : Store W :=
  match tool_results with
  | [] => st
  | _ :: _ =>
      {| context := append_message (context st)
                      {| role := user;
                         message_content := ContentToolResults tool_results |};
         world := world st |}
  end.

(** [last_response] after a transition that does not end the run. *)
Definition next_response (transition : StateTransition)
    (last_response : option Response) : option Response :=
  match data_response (data transition) with
  | Some r => Some r
  | None => last_response
  end.

Section LoopRelation.

Variable tools : option (list ToolDecl).
Variable tool_manager : option (ToolManager W).
Variable max_iterations : Z.

(** The runs of the [while] loop, as a relation: from [current_state],
    [iteration], [last_response] and a store, the transitions yielded, the
    way the loop is left and the store at that point. *)
Inductive loop_run
  : ConversationState -> Z -> option Response -> Store W ->
    list (Yield W) -> LoopExit -> Store W -> Prop :=
| loop_stop cs it last st :
    negb (is_terminal cs) && (it <? max_iterations) = false ->
    loop_run cs it last st [] (LoopDone cs it) st
| loop_raise cs it last st e st' :
    negb (is_terminal cs) && (it <? max_iterations) = true ->
    _dispatch_state W model logging messages_create now_isoformat
      cs tools tool_manager last st = (inl e, st') ->
    loop_run cs it last st [] (LoopRaised e) st'
| loop_break cs it last st tr st' :
    negb (is_terminal cs) && (it <? max_iterations) = true ->
    _dispatch_state W model logging messages_create now_isoformat
      cs tools tool_manager last st = (inr tr, st') ->
    is_terminal (to_state tr) = true ->
    loop_run cs it last st
      [ {| yield_transition := tr; yield_store := st' |} ]
      (LoopDone cs (it + 1)) st'
| loop_continue cs it last st tr st' ys ex st'' :
    negb (is_terminal cs) && (it <? max_iterations) = true ->
    _dispatch_state W model logging messages_create now_isoformat
      cs tools tool_manager last st = (inr tr, st') ->
    is_terminal (to_state tr) = false ->
    loop_run (to_state tr) (it + 1) (next_response tr last) st' ys ex st'' ->
    loop_run cs it last st
      ({| yield_transition := tr; yield_store := st' |} :: ys) ex st''.

End LoopRelation.

(** The store in which [generate_response_stream] starts its loop. *)
Definition initial_store (query : string) (conversation_history : option string)
    (w : World W) : Store W :=
  {| context := initial_context query conversation_history; world := w |}.

(** What the generator does after the loop. *)
Definition after_loop (max_iterations : Z) (ys : list (Yield W)) (ex : LoopExit)
    (st : Store W) : StreamRun W :=
  match ex with
  | LoopDone current_state iteration =>
      if (iteration >=? max_iterations) && negb (is_terminal current_state) then
        {| yielded :=
             (ys ++ [ {| yield_transition :=
                           max_iterations_transition current_state max_iterations;
                         yield_store := st |} ])%list;
           completion := Exhausted;
           final_store := st |}
      else {| yielded := ys; completion := Exhausted; final_store := st |}
  | LoopRaised e => {| yielded := ys; completion := Raised e; final_store := st |}
  | LoopOutOfFuel => {| yielded := ys; completion := OutOfFuel; final_store := st |}
  end.

End RunSemantics.

(** The rows of the transition table that a dispatch can take. *)
Definition table_row (tr : StateTransition) : Prop :=
  (from_state tr = INITIAL /\ to_state tr = AWAITING_TOOL_DECISION
   /\ trigger tr = "api_call_complete")
  \/ (from_state tr = EXECUTING_TOOLS /\ to_state tr = AWAITING_FOLLOW_UP
      /\ trigger tr = "tools_executed")
  \/ ((from_state tr = AWAITING_TOOL_DECISION \/ from_state tr = AWAITING_FOLLOW_UP)
      /\ classified (from_state tr) tr).

(** What the loop over the tool blocks does to the store when the executor
    returns on every call: [results] are the values returned, in order,
    [new] the entries added to the log and [tool_results] the payload
    built. *)
Definition tool_round {W : Type} (now_isoformat : W -> string)
    (execute_tool : ToolManager W) (blocks : list ContentBlock)
    (st st' : Store W) (results : list string) (new : list ToolCallRecord)
    (tool_results : list ToolResult) : Prop :=
  let requested := tool_use_blocks blocks in
  tools_run execute_tool blocks (env (world st)) results (env (world st'))
  /\ port_calls (world st')
     = (port_calls (world st) ++ map tool_call_of requested)%list
  /\ stdout (world st') = stdout (world st)
  /\ messages (context st') = messages (context st)
  /\ tool_call_history (context st') = (tool_call_history (context st) ++ new)%list
  /\ tool_call_count (context st')
     = tool_call_count (context st) + Z.of_nat (length requested)
  /\ map index new = count_from (tool_call_count (context st)) (length requested)
  /\ map tool_name new = map block_name requested
  /\ map input new = map block_input requested
  /\ map result new = results
  /\ Forall (fun entry => exists e, timestamp entry = now_isoformat e) new
  /\ map tool_use_id tool_results = map block_id requested
  /\ map tool_result_content tool_results = results.

(** What the loop needs to dispatch [cs]: in AWAITING_TOOL_DECISION the last
    response is there, and it asks for tools. *)
Definition loop_ready (cs : ConversationState) (last : option Response) : Prop :=
  match cs with
  | INITIAL | EXECUTING_TOOLS | AWAITING_FOLLOW_UP => True
  | AWAITING_TOOL_DECISION =>
      exists r, last = Some r /\ stop_reason r = "tool_use"
  | COMPLETED | ERROR => False
  end.

(** ** Notions used by the further properties *)

(** The turns that a transition stands for in the message history: the
    assistant turn of a request for tools, the user turn of a non-empty
    batch of tool results. *)
Definition turns_of (tr : StateTransition) : list Message :=
  match data tr with
  | DataToolUse _ blocks =>
      [ {| role := assistant; message_content := ContentBlocks blocks |} ]
  | DataToolResults (r :: rs) =>
      [ {| role := user; message_content := ContentToolResults (r :: rs) |} ]
  | _ => []
  end.

(** The number of tool results that a transition carries. *)
Definition results_of (tr : StateTransition) : nat :=
  match data tr with
  | DataToolResults rs => length rs
  | _ => 0%nat
  end.

(** The call that an entry of the tool-call history records. *)
Definition entry_call (entry : ToolCallRecord) : PortCall :=
  ToolCall (tool_name entry) (input entry).

(** The calls to the tool executor in a log, in order. *)
Definition tool_calls (calls : list PortCall) : list PortCall :=
  filter is_tool_call calls.

(** The requests sent to the model service in a log, in order. *)
Definition model_requests (calls : list PortCall) : list Request :=
  flat_map (fun c => match c with ModelCall req => [req] | ToolCall _ _ => [] end)
           calls.

(** The fixed part of a request: the model, temperature 0, at most 800
    tokens, and the tools with automatic tool choice exactly when [tools] is
    a non-empty list. *)
Definition base_request (model : string) (tools : option (list ToolDecl))
    (req : Request) : Prop :=
  req_model req = model
  /\ req_temperature req = 0
  /\ req_max_tokens req = 800
  /\ req_tools req = (if tools_truthy tools then tools else None)
  /\ req_tool_choice req = (if tools_truthy tools then Some "auto" else None).

(** The transitions [ts] follow one another from the state [s]: each starts
    in the state the one before it led to. *)
Fixpoint path_from (s : ConversationState) (ts : list StateTransition) : Prop :=
  match ts with
  | [] => True
  | t :: rest => from_state t = s /\ path_from (to_state t) rest
  end.

(** The state reached from [s] along [ts]. *)
Definition end_state (s : ConversationState) (ts : list StateTransition)
  : ConversationState :=
  fold_left (fun _ t => to_state t) ts s.

(** An account of what happened between two stores of a run: the turns
    appended to the messages, the entries [new] appended to the tool-call
    history and the calls appended to the log of the collaborators.  The
    entries are numbered on from the previous count; the tool calls of the
    log are those of the entries, followed by at most the one call that
    raised ([closed] says that none did, and then [results] is the number of
    entries); at most [steps] requests went to the model service, each with
    the fixed part of its request and with messages that extend those of
    [st]. *)
Definition ledger {W : Type} (model : string) (tools : option (list ToolDecl))
    (st st' : Store W) (turns : list Message) (results steps : nat)
    (closed : bool) : Prop :=
  messages (context st') = (messages (context st) ++ turns)%list
  /\ system_prompt (context st') = system_prompt (context st)
  /\ metadata (context st') = metadata (context st)
  /\ intermediate_responses (context st') = intermediate_responses (context st)
  /\ exists new calls extra,
       tool_call_history (context st')
         = (tool_call_history (context st) ++ new)%list
       /\ tool_call_count (context st')
          = tool_call_count (context st) + Z.of_nat (length new)
       /\ map index new = count_from (tool_call_count (context st)) (length new)
       /\ port_calls (world st') = (port_calls (world st) ++ calls)%list
       /\ tool_calls calls = (map entry_call new ++ extra)%list
       /\ (length extra <= 1)%nat
       /\ (closed = true -> extra = [] /\ length new = results)
       /\ (length (model_requests calls) <= steps)%nat
       /\ Forall (fun req =>
                    base_request model tools req
                    /\ req_system req = system_prompt (context st)
                    /\ exists more,
                         req_messages req = (messages (context st) ++ more)%list)
                 (model_requests calls).

(** Whether the loop was left without an exception. *)
Definition left_normally (ex : LoopExit) : bool :=
  match ex with LoopDone _ _ => true | _ => false end.

(** Whether the generator was exhausted without an exception. *)
Definition exhausted (c : Completion) : bool :=
  match c with Exhausted => true | _ => false end.

(** The turns and the number of tool results of a list of transitions. *)
Definition all_turns (ts : list StateTransition) : list Message :=
  flat_map turns_of ts.

Definition all_results (ts : list StateTransition) : nat :=
  list_sum (map results_of ts).

(** The state that the loop dispatches at its step [k] (counted from 0):
    INITIAL, then AWAITING_TOOL_DECISION, then EXECUTING_TOOLS and
    AWAITING_FOLLOW_UP in turn. *)
Definition state_at (k : nat) : ConversationState :=
  match k with
  | O => INITIAL
  | S O => AWAITING_TOOL_DECISION
  | S (S n) => if Nat.even n then EXECUTING_TOOLS else AWAITING_FOLLOW_UP
  end.

(** The number of tool rounds among transitions: the [tools_executed]
    ones. *)
Definition tool_rounds (ts : list StateTransition) : nat :=
  length (filter (fun t => (trigger t =? "tools_executed")%string) ts).

(** ** Collaborators that fail *)
Module Faulty.

(** A model service that is down. *)
Definition unreachable (_ : Request) (e : unit) : (Exn + Response) * unit :=
  (inl (PortFailure "connection refused"), e).

(** A model service that gives one fixed response. *)
Definition constant (r : Response) (_ : Request) (e : unit)
  : (Exn + Response) * unit :=
  (inr r, e).

(** A tool executor that searches but has no outline tool. *)
Definition search_only : ToolManager unit :=
  fun name _ e =>
    if (name =? "search")%string
    then (inr "result-search", e)
    else (inl (PortFailure "unknown tool"), e).

Definition clock (_ : unit) : string := "2025-01-01T00:00:00".

Definition start : World unit :=
  {| env := tt; port_calls := []; stdout := [] |}.

Definition refusal : Response :=
  {| stop_reason := "refusal"; content := [TextBlock "I cannot help."] |}.

(** A model service that looks at the tools declared in the request: it
    asks for a search on its first call; afterwards it answers from the
    search when the request declares tools and says that it has none when
    the request declares none.  The environment counts the calls. *)
Definition tool_aware (req : Request) (calls : nat) : (Exn + Response) * nat :=
  match calls with
  | O => (inr Scripted.bare_search_request, S calls)
  | S _ =>
      match req_tools req with
      | Some _ =>
          (inr {| stop_reason := "end_turn";
                  content := [TextBlock "Found it."] |}, S calls)
      | None =>
          (inr {| stop_reason := "end_turn";
                  content := [TextBlock "I have no tools."] |}, S calls)
      end
  end.

(** A tool executor that takes the input as one positional mapping and
    rejects keyword arguments, beside a scripted model service. *)
Definition positional_only : ToolManager Scripted.W :=
  fun name args e =>
    match args with
    | PositionalInput _ => (inr ("result-" ++ name), e)
    | KeywordInput _ =>
        (inl (PortFailure "TypeError: unexpected keyword argument"), e)
    end.

(** A tool executor that always returns. *)
Definition echo : ToolManager unit :=
  fun name _ e => (inr ("result-" ++ name), e).

End Faulty.

(** The triggers of the dispatched transitions of a run: those of all its
    transitions but the synthesized one. *)
Definition dispatched_triggers {W : Type} (run : StreamRun W) : list string :=
  filter (fun s => negb (s =? "max_iterations_exceeded")%string)
         (map trigger (transitions run)).

(** Unfolding the operations of the monad. *)
Ltac run_monad :=
  unfold bind, ret, raise, in_world, get_context, update_context, read_clock,
    call_model, call_tool, print_iteration in *; simpl in *.

(** * Properties *)

(** ** The system prompt *)

Lemma last_ascii_append (a b : string) :
  b <> EmptyString -> last_ascii (a ++ b) = last_ascii b.
Proof.
  intros Hb. induction a as [|c a IH]; simpl; [reflexivity|].
  rewrite IH. destruct (a ++ b)%string eqn:E; [|reflexivity].
  destruct a; simpl in E; [congruence | discriminate].
Qed.

Lemma SYSTEM_PROMPT_last : last_ascii SYSTEM_PROMPT = Some (ascii_of_nat 10).
Proof. vm_compute. reflexivity. Qed.

(** The literal has the length of the source's (in bytes of its UTF-8
    encoding). *)
Lemma SYSTEM_PROMPT_length : String.length SYSTEM_PROMPT = 1567%nat.
Proof. vm_compute. reflexivity. Qed.

Lemma str_truthy_nonempty (s : string) : s <> EmptyString -> str_truthy s = true.
Proof. destruct s; [congruence | reflexivity]. Qed.

Lemma prefix_append (a b : string) : String.prefix a (a ++ b) = true.
Proof.
  induction a as [|c a IH]; simpl; [destruct b; reflexivity|].
  destruct (ascii_dec c c); [exact IH | congruence].
Qed.

(** The system prompt of the run that [generate_response_stream] starts. *)
Lemma initial_context_system_prompt (query : string) (h : option string) :
  system_prompt (initial_context query h) = build_system_content h.
Proof. reflexivity. Qed.

(** ** Text extraction *)

Lemma extract_text_some (blocks : list ContentBlock) (t : string) :
  extract_text blocks = Some t <-> first_text_bearing blocks t.
Proof.
  unfold first_text_bearing. split.
  - induction blocks as [|b blocks IH]; simpl; [discriminate|].
    destruct b; intros H;
      try (destruct (IH H) as (pre & post & -> & Hpre);
           eexists (_ :: pre), post; split; [reflexivity | simpl; exact Hpre]).
    injection H as ->. exists [], blocks. split; reflexivity.
  - intros (pre & post & -> & Hpre).
    induction pre as [|b pre IH]; simpl in *; [reflexivity|].
    apply andb_true_iff in Hpre as [Hb Hpre].
    destruct b; simpl in Hb; try discriminate; apply IH; exact Hpre.
Qed.

Lemma extract_text_none (blocks : list ContentBlock) :
  extract_text blocks = None <-> no_text_bearing blocks.
Proof.
  unfold no_text_bearing.
  induction blocks as [|b blocks IH]; simpl; [tauto|].
  destruct b; simpl; try exact IH. split; discriminate.
Qed.

(** ** The context operations *)

Lemma add_tool_call_count (ctx : ConversationContext) now name tool_input res :
  count_matches_history ctx ->
  count_matches_history (add_tool_call ctx now name tool_input res).
Proof.
  unfold count_matches_history. simpl. intros ->.
  rewrite length_app. simpl. lia.
Qed.

Lemma append_message_count (ctx : ConversationContext) (m : Message) :
  count_matches_history ctx -> count_matches_history (append_message ctx m).
Proof. unfold count_matches_history. simpl. tauto. Qed.

Lemma context_grows_refl (ctx : ConversationContext) : context_grows ctx ctx.
Proof.
  unfold context_grows. repeat split; try lia; exists []; rewrite app_nil_r; reflexivity.
Qed.

Lemma context_grows_trans (a b c : ConversationContext) :
  context_grows a b -> context_grows b c -> context_grows a c.
Proof.
  intros ((m1 & H1) & S1 & (h1 & T1) & C1 & D1) ((m2 & H2) & S2 & (h2 & T2) & C2 & D2).
  unfold context_grows. repeat split.
  - exists (m1 ++ m2)%list. rewrite H2, H1, app_assoc. reflexivity.
  - congruence.
  - exists (h1 ++ h2)%list. rewrite T2, T1, app_assoc. reflexivity.
  - lia.
  - congruence.
Qed.

Lemma context_grows_append (ctx : ConversationContext) (m : Message) :
  context_grows ctx (append_message ctx m).
Proof.
  unfold context_grows. simpl. repeat split; try lia.
  - exists [m]. reflexivity.
  - exists []. rewrite app_nil_r. reflexivity.
Qed.

Lemma context_grows_add_tool_call (ctx : ConversationContext) now name tool_input res :
  context_grows ctx (add_tool_call ctx now name tool_input res).
Proof.
  unfold context_grows. simpl. repeat split; try lia.
  - exists []. rewrite app_nil_r. reflexivity.
  - eexists. reflexivity.
Qed.

(** ** The state handlers *)

Lemma store_evolves_refl {W : Type} (st : Store W) : store_evolves st st.
Proof.
  split; [apply context_grows_refl|]. split; [tauto|].
  exists []. rewrite app_nil_r. split; [reflexivity | constructor].
Qed.

Lemma store_evolves_trans {W : Type} (a b c : Store W) :
  store_evolves a b -> store_evolves b c -> store_evolves a c.
Proof.
  intros (G1 & I1 & l1 & P1 & F1) (G2 & I2 & l2 & P2 & F2).
  split; [eapply context_grows_trans; eassumption|]. split; [tauto|].
  exists (l1 ++ l2)%list. split.
  - rewrite P2, P1, app_assoc. reflexivity.
  - apply Forall_app. split; [exact F1|].
    destruct G1 as (_ & S1 & _). rewrite <- S1. exact F2.
Qed.

Section HandlerFacts.

Context {W : Type}.
Variable model : string.
Variable logging : bool.
Variable messages_create : Request -> W -> (Exn + Response) * W.
Variable now_isoformat : W -> string.

Local Abbreviation classify := (classify_response W logging).
Local Abbreviation follow_up := (_handle_follow_up_state W model logging messages_create).
Local Abbreviation initial := (_handle_initial_state W model messages_create).
Local Abbreviation run_blocks := (execute_tool_blocks W now_isoformat).
Local Abbreviation tool_execution := (_handle_tool_execution_state W now_isoformat).
Local Abbreviation dispatch :=
  (_dispatch_state W model logging messages_create now_isoformat).

Lemma classify_tool_use (from : ConversationState) (r : Response) (st : Store W) :
  stop_reason r = "tool_use" ->
  classify from r st =
    (inr {| from_state := from; to_state := EXECUTING_TOOLS;
            trigger := "tool_use"; data := DataToolUse r (content r) |},
     after_tool_use logging r st).
Proof.
  intros H. unfold classify_response, after_tool_use. rewrite H. simpl.
  destruct logging; run_monad; reflexivity.
Qed.

Lemma classify_end_turn (from : ConversationState) (r : Response) (st : Store W) :
  stop_reason r = "end_turn" ->
  classify from r st =
    (inr {| from_state := from; to_state := COMPLETED;
            trigger := "end_turn";
            data := DataFinal (extract_text (content r)) r |}, st).
Proof. intros H. unfold classify_response. rewrite H. reflexivity. Qed.

Lemma classify_max_tokens (from : ConversationState) (r : Response) (st : Store W) :
  stop_reason r = "max_tokens" ->
  classify from r st =
    (inr {| from_state := from; to_state := ERROR;
            trigger := "max_tokens";
            data := DataTokenLimit "Token limit reached"
                      (extract_text (content r)) |}, st).
Proof. intros H. unfold classify_response. rewrite H. reflexivity. Qed.

Lemma classify_cases (from : ConversationState) (r : Response) (st : Store W) :
  exists tr st',
    classify from r st = (inr tr, st')
    /\ classified from tr
    /\ (st' = st \/ (stop_reason r = "tool_use" /\ st' = after_tool_use logging r st)).
Proof.
  destruct (String.eqb_spec (stop_reason r) "tool_use") as [E|N1].
  { rewrite (classify_tool_use _ _ _ E). do 2 eexists. split; [reflexivity|].
    split; [split; [reflexivity | left; split; reflexivity] | right; tauto]. }
  destruct (String.eqb_spec (stop_reason r) "end_turn") as [E|N2].
  { rewrite (classify_end_turn _ _ _ E). do 2 eexists. split; [reflexivity|].
    split; [split; [reflexivity | right; left; split; reflexivity] | left; reflexivity]. }
  destruct (String.eqb_spec (stop_reason r) "max_tokens") as [E|N3].
  { rewrite (classify_max_tokens _ _ _ E). do 2 eexists. split; [reflexivity|].
    split; [split; [reflexivity | right; right; left; split; reflexivity] | left; reflexivity]. }
  unfold classify_response.
  apply String.eqb_neq in N1, N2, N3. rewrite N1, N2, N3.
  do 2 eexists. split; [reflexivity|].
  split; [split; [reflexivity | right; right; right; split; reflexivity] | left; reflexivity].
Qed.

Lemma after_tool_use_evolves (r : Response) (st : Store W) :
  store_evolves st (after_tool_use logging r st).
Proof.
  unfold after_tool_use. split; [apply context_grows_append|].
  split; [apply append_message_count|].
  exists []. rewrite app_nil_r. split; [|constructor].
  destruct logging; reflexivity.
Qed.

Lemma classify_evolves (from : ConversationState) (r : Response) (st : Store W) res st' :
  classify from r st = (res, st') -> store_evolves st st'.
Proof.
  destruct (classify_cases from r st) as (tr & st1 & E & _ & [->|[_ ->]]);
    rewrite E; intros [= _ <-].
  - apply store_evolves_refl.
  - apply after_tool_use_evolves.
Qed.

Lemma after_model_call_evolves tools (st : Store W) (e : W) :
  store_evolves st (after_model_call model tools st e).
Proof.
  split; [apply context_grows_refl|]. split; [tauto|].
  eexists. split; [reflexivity|]. constructor; [reflexivity | constructor].
Qed.

Lemma initial_returns tools (st : Store W) (r : Response) (e : W) :
  messages_create (request_of model tools st) (env (world st)) = (inr r, e) ->
  initial tools st =
    (inr {| from_state := INITIAL; to_state := AWAITING_TOOL_DECISION;
            trigger := "api_call_complete"; data := DataResponse r |},
     after_model_call model tools st e).
Proof.
  intros H. unfold _handle_initial_state, after_model_call, request_of in *.
  run_monad. rewrite H. reflexivity.
Qed.

Lemma initial_raises tools (st : Store W) (x : Exn) (e : W) :
  messages_create (request_of model tools st) (env (world st)) = (inl x, e) ->
  initial tools st = (inl x, after_model_call model tools st e).
Proof.
  intros H. unfold _handle_initial_state, after_model_call, request_of in *.
  run_monad. rewrite H. reflexivity.
Qed.

Lemma follow_up_returns tools (st : Store W) (r : Response) (e : W) :
  messages_create (request_of model tools st) (env (world st)) = (inr r, e) ->
  follow_up tools st = classify AWAITING_FOLLOW_UP r (after_model_call model tools st e).
Proof.
  intros H. unfold _handle_follow_up_state, after_model_call, request_of in *.
  run_monad. rewrite H. reflexivity.
Qed.

Lemma follow_up_raises tools (st : Store W) (x : Exn) (e : W) :
  messages_create (request_of model tools st) (env (world st)) = (inl x, e) ->
  follow_up tools st = (inl x, after_model_call model tools st e).
Proof.
  intros H. unfold _handle_follow_up_state, after_model_call, request_of in *.
  run_monad. rewrite H. reflexivity.
Qed.

(** *** Tool execution *)

Lemma run_blocks_tool (execute_tool : ToolManager W) id name tool_input rest acc
    (st : Store W) (res : string) (e : W) :
  execute_tool name (PositionalInput tool_input) (env (world st)) = (inr res, e) ->
  run_blocks (Some execute_tool) (ToolUseBlock id name tool_input :: rest) acc st =
  run_blocks (Some execute_tool) rest
    (acc ++ [ {| tool_use_id := id; tool_result_content := res |} ])%list
    (after_tool_call now_isoformat name tool_input res e st).
Proof.
  intros H. simpl. unfold _execute_tool_async, after_tool_call.
  run_monad. rewrite H. reflexivity.
Qed.

Lemma after_tool_call_evolves name tool_input res e (st : Store W) :
  store_evolves st (after_tool_call now_isoformat name tool_input res e st).
Proof.
  split; [apply context_grows_add_tool_call|].
  split; [apply add_tool_call_count|].
  eexists. split; [reflexivity|]. constructor; [exact I | constructor].
Qed.

Lemma run_blocks_evolves tool_manager blocks :
  forall acc (st : Store W) res st',
    run_blocks tool_manager blocks acc st = (res, st') -> store_evolves st st'.
Proof.
  induction blocks as [|b blocks IH]; intros acc st res st' H.
  - injection H as _ <-. apply store_evolves_refl.
  - destruct b as [t | id name tool_input | t s | d];
      try (simpl in H; eapply IH; exact H).
    destruct tool_manager as [execute_tool|].
    + destruct (execute_tool name (PositionalInput tool_input) (env (world st)))
        as [[x|r] e] eqn:E.
      * simpl in H. unfold _execute_tool_async in H. run_monad. rewrite E in H.
        injection H as _ <-.
        split; [apply context_grows_refl|]. split; [tauto|].
        eexists. split; [reflexivity|]. constructor; [exact I | constructor].
      * rewrite (run_blocks_tool _ _ _ _ _ _ _ _ _ E) in H.
        eapply store_evolves_trans; [apply after_tool_call_evolves|].
        eapply IH. exact H.
    + simpl in H. unfold _execute_tool_async in H. run_monad.
      injection H as _ <-. destruct st as [c [e p o]]. apply store_evolves_refl.
Qed.

Lemma tool_execution_evolves tool_manager blocks (st : Store W) res st' :
  tool_execution blocks tool_manager st = (res, st') -> store_evolves st st'.
Proof.
  unfold _handle_tool_execution_state, bind.
  destruct (run_blocks tool_manager blocks [] st) as [[x|results] st1] eqn:E;
    intros H.
  - injection H as _ <-. eapply run_blocks_evolves. exact E.
  - eapply store_evolves_trans; [eapply run_blocks_evolves; exact E|].
    destruct results; run_monad; injection H as _ <-.
    + destruct st1. apply store_evolves_refl.
    + split; [apply context_grows_append|]. split; [apply append_message_count|].
      exists []. rewrite app_nil_r. split; [reflexivity | constructor].
Qed.

(** Every dispatch, whether it returns or raises, only lets the store
    evolve. *)
Lemma dispatch_evolves state tools tool_manager last (st : Store W) res st' :
  dispatch state tools tool_manager last st = (res, st') -> store_evolves st st'.
Proof.
  destruct state; simpl.
  - destruct (messages_create (request_of model tools st) (env (world st))) as [[x|r] e] eqn:E.
    + rewrite (initial_raises _ _ _ _ E). intros [= _ <-].
      apply after_model_call_evolves.
    + rewrite (initial_returns _ _ _ _ E). intros [= _ <-].
      apply after_model_call_evolves.
  - destruct last as [r|].
    + apply classify_evolves.
    + intros [= _ <-]. apply store_evolves_refl.
  - apply tool_execution_evolves.
  - destruct (messages_create (request_of model tools st) (env (world st))) as [[x|r] e] eqn:E.
    + rewrite (follow_up_raises _ _ _ _ E). intros [= _ <-].
      apply after_model_call_evolves.
    + rewrite (follow_up_returns _ _ _ _ E). intros H.
      eapply store_evolves_trans; [apply after_model_call_evolves|].
      eapply classify_evolves. exact H.
  - intros [= _ <-]. apply store_evolves_refl.
  - intros [= _ <-]. apply store_evolves_refl.
Qed.

End HandlerFacts.

(** ** The driving loop *)

Section LoopFacts.

Context {W : Type}.
Variable model : string.
Variable logging : bool.
Variable messages_create : Request -> W -> (Exn + Response) * W.
Variable now_isoformat : W -> string.
Variable tools : option (list ToolDecl).
Variable tool_manager : option (ToolManager W).
Variable max_iterations : Z.

Local Abbreviation dispatch :=
  (_dispatch_state W model logging messages_create now_isoformat).
Local Abbreviation run_of :=
  (loop_run model logging messages_create now_isoformat tools tool_manager
     max_iterations).
Local Abbreviation loop fuel :=
  (stream_loop W model logging messages_create now_isoformat fuel
     tools tool_manager max_iterations).

(** The loop function follows the relation, and a budget of
    [max_iterations - iteration] steps is enough for it to end. *)
Lemma stream_loop_run (fuel : nat) :
  forall cs it last st,
    max_iterations - it <= Z.of_nat fuel ->
    let '(ys, ex, st') := loop fuel cs it last st in
    run_of cs it last st ys ex st'.
Proof.
  induction fuel as [|fuel IH]; intros cs it last st Hfuel.
  - simpl. destruct (negb (is_terminal cs) && (it <? max_iterations)) eqn:C.
    + apply andb_true_iff in C as [_ C]. apply Z.ltb_lt in C. lia.
    + constructor. exact C.
  - simpl. destruct (negb (is_terminal cs) && (it <? max_iterations)) eqn:C.
    + destruct (dispatch cs tools tool_manager last st) as [[e|tr] st'] eqn:D.
      * apply loop_raise; assumption.
      * destruct (is_terminal (to_state tr)) eqn:T.
        -- apply loop_break; assumption.
        -- specialize (IH (to_state tr) (it + 1) (next_response tr last) st').
           unfold next_response in IH.
           destruct (loop fuel (to_state tr) (it + 1)
                       match data_response (data tr) with
                       | Some r => Some r
                       | None => last
                       end st') as [[ys ex] st''].
           eapply loop_continue; try eassumption. apply IH. lia.
    + constructor. exact C.
Qed.

(** The loop is never left for want of budget. *)
Lemma loop_run_never_out_of_fuel cs it last st ys ex st' :
  run_of cs it last st ys ex st' -> ex <> LoopOutOfFuel.
Proof. induction 1; try discriminate; assumption. Qed.

(** The stores of a loop run, from the first to the last, each evolve from
    the one before. *)
Lemma loop_run_chain cs it last st ys ex st' :
  run_of cs it last st ys ex st' ->
  chain store_evolves st (map yield_store ys ++ [st']).
Proof.
  induction 1; simpl.
  - split; [apply store_evolves_refl | exact I].
  - split; [eapply dispatch_evolves; eassumption | exact I].
  - split; [eapply dispatch_evolves; eassumption|].
    split; [apply store_evolves_refl | exact I].
  - split; [eapply dispatch_evolves; eassumption | assumption].
Qed.

(** Inside the loop a terminal transition is the last one yielded, and the
    store is left as it was when that transition was yielded. *)
Lemma loop_run_terminal cs it last st ys ex st' :
  run_of cs it last st ys ex st' ->
  forall pre y post,
    ys = (pre ++ y :: post)%list ->
    is_terminal (to_state (yield_transition y)) = true ->
    post = [] /\ st' = yield_store y /\ exists cs' it', ex = LoopDone cs' it'.
Proof.
  induction 1; intros pre y post E T.
  - destruct pre; discriminate.
  - destruct pre; discriminate.
  - destruct pre as [|p pre]; [|destruct pre; discriminate].
    injection E as <- <-. simpl. eauto.
  - destruct pre as [|p pre].
    + injection E as <- _. simpl in T. congruence.
    + injection E as _ E. eapply IHloop_run; eassumption.
Qed.

(** When the loop is left normally, [iteration] has counted the transitions
    yielded, and [current_state] is not terminal. *)
Lemma loop_run_done cs it last st ys ex st' :
  run_of cs it last st ys ex st' ->
  is_terminal cs = false ->
  forall cs' it', ex = LoopDone cs' it' ->
    it' = it + Z.of_nat (length ys) /\ is_terminal cs' = false.
Proof.
  induction 1; intros NT cs' it' E; try discriminate.
  - injection E as <- <-. simpl. split; [lia | exact NT].
  - injection E as <- <-. simpl. split; [lia | exact NT].
  - destruct (IHloop_run H1 _ _ E) as [-> ?]. simpl length. split; [lia | assumption].
Qed.

End LoopFacts.

(** ** Runs of [generate_response_stream] *)

Lemma chain_last {A : Type} (R : A -> A -> Prop) :
  (forall a, R a a) -> (forall a b c, R a b -> R b c -> R a c) ->
  forall l a b, chain R a (l ++ [b]) -> R a b.
Proof.
  intros Hrefl Htrans. induction l as [|x l IH]; simpl; intros a b H.
  - tauto.
  - destruct H as [H1 H2]. eapply Htrans; [exact H1 | apply IH; exact H2].
Qed.

Lemma chain_snoc {A : Type} (R : A -> A -> Prop) :
  (forall a, R a a) ->
  forall l a b, chain R a (l ++ [b]) -> chain R a (l ++ [b; b]).
Proof.
  intros Hrefl. induction l as [|x l IH]; simpl; intros a b H.
  - destruct H as [H _]. auto.
  - destruct H as [H1 H2]. split; [exact H1 | apply IH; exact H2].
Qed.

Lemma chain_contexts {W : Type} (l : list (Store W)) :
  forall st,
    chain store_evolves st l ->
    count_matches_history (context st) ->
    chain context_grows (context st) (map context l)
    /\ Forall (fun s => count_matches_history (context s)
                        /\ system_prompt (context s) = system_prompt (context st)) l.
Proof.
  induction l as [|s l IH]; simpl; intros st H Inv.
  - split; [exact I | constructor].
  - destruct H as [(G & P & C) H].
    destruct (IH s H (P Inv)) as [IH1 IH2].
    assert (S : system_prompt (context s) = system_prompt (context st))
      by (destruct G as (_ & S & _); exact S).
    split; [split; assumption|].
    constructor; [split; [exact (P Inv) | exact S]|].
    eapply Forall_impl; [|exact IH2]. simpl. intros a [? ?]. split; congruence.
Qed.

Section RunFacts.

Context {W : Type}.
Variable model : string.
Variable logging : bool.
Variable messages_create : Request -> W -> (Exn + Response) * W.
Variable now_isoformat : W -> string.

Local Abbreviation stream :=
  (generate_response_stream W model logging messages_create now_isoformat).
Local Abbreviation run_of :=
  (loop_run model logging messages_create now_isoformat).

(** A run of the generator is a run of the loop from INITIAL, followed by
    the check made after the loop. *)
Lemma stream_is_loop_run query h tools tool_manager max_iterations (w : World W) :
  exists ys ex st,
    run_of tools tool_manager max_iterations INITIAL 0 None
      (initial_store query h w) ys ex st
    /\ stream query h tools tool_manager max_iterations w
       = after_loop max_iterations ys ex st.
Proof.
  pose proof (stream_loop_run model logging messages_create now_isoformat
                tools tool_manager max_iterations (Z.to_nat max_iterations)
                INITIAL 0 None (initial_store query h w)) as H.
  unfold generate_response_stream, initial_store in *.
  destruct (stream_loop W model logging messages_create now_isoformat
              (Z.to_nat max_iterations) tools tool_manager max_iterations
              INITIAL 0 None _) as [[ys ex] st].
  exists ys, ex, st. split; [apply H; lia | reflexivity].
Qed.

(** The generator always ends: it is exhausted or it raises. *)
Lemma stream_ends query h tools tool_manager max_iterations (w : World W) :
  completion (stream query h tools tool_manager max_iterations w) <> OutOfFuel.
Proof.
  destruct (stream_is_loop_run query h tools tool_manager max_iterations w)
    as (ys & ex & st & R & ->).
  pose proof (loop_run_never_out_of_fuel _ _ _ _ _ _ _ _ _ _ _ _ _ _ R) as N.
  destruct ex as [cs it| |]; simpl; [|discriminate|congruence].
  destruct ((it >=? max_iterations) && negb (is_terminal cs)); discriminate.
Qed.

(** The stores seen along a run, ending with the final one, each evolve from
    the one before. *)
Lemma stream_chain query h tools tool_manager max_iterations (w : World W) :
  let run := stream query h tools tool_manager max_iterations w in
  chain store_evolves (initial_store query h w)
    (map yield_store (yielded run) ++ [final_store run]).
Proof.
  simpl.
  destruct (stream_is_loop_run query h tools tool_manager max_iterations w)
    as (ys & ex & st & R & ->).
  apply loop_run_chain in R.
  destruct ex as [cs it| |]; simpl; try exact R.
  destruct ((it >=? max_iterations) && negb (is_terminal cs)); simpl; try exact R.
  rewrite map_app, <- app_assoc. simpl.
  apply chain_snoc; [apply store_evolves_refl | exact R].
Qed.

End RunFacts.

(** ** The single-shot path *)

Section SingleShotFacts.

Context {W : Type}.
Variable model : string.
Variable messages_create : Request -> W -> (Exn + Response) * W.
Variable now_isoformat : W -> string.

Local Abbreviation sync_blocks := (execute_tool_blocks_sync W).
Local Abbreviation async_blocks := (execute_tool_blocks W now_isoformat).
Local Abbreviation single_shot := (generate_response W model messages_create).

(** Where the executor answers the calls of the state machine as it would
    with keyword arguments, the two tool loops make the same calls and
    collect the same results; the loop of the state machine also records
    them in the context. *)
Lemma sync_blocks_async tool_manager blocks :
  forall acc (st : Store W),
    conventions_agree tool_manager blocks (env (world st)) ->
    sync_blocks tool_manager blocks acc (world st)
    = (fst (async_blocks tool_manager blocks acc st),
       world (snd (async_blocks tool_manager blocks acc st))).
Proof.
  induction blocks as [|b blocks IH]; intros acc st Agree; [reflexivity|].
  destruct b as [t | id name tool_input | t s | d].
  2: {
    destruct tool_manager as [execute_tool|].
    - destruct Agree as [Same Agree].
      destruct (execute_tool name (PositionalInput tool_input) (env (world st)))
        as [[x|r] e] eqn:E.
      + simpl. unfold _execute_tool_async. run_monad. rewrite <- Same, E.
        reflexivity.
      + rewrite (run_blocks_tool now_isoformat _ _ _ _ _ _ _ _ _ E).
        rewrite <- (IH _ (after_tool_call now_isoformat name tool_input r e st)
                      Agree).
        simpl. run_monad. rewrite <- Same. reflexivity.
    - simpl. unfold _execute_tool_async. run_monad. destruct st as [c [e p o]].
      reflexivity. }
  all: simpl; apply IH; destruct tool_manager; exact Agree.
Qed.

Lemma sync_blocks_calls tool_manager blocks :
  forall acc (w : World W) res w',
    sync_blocks tool_manager blocks acc w = (res, w') ->
    exists calls,
      port_calls w' = (port_calls w ++ calls)%list
      /\ Forall (fun c => is_tool_call c = true) calls.
Proof.
  induction blocks as [|b blocks IH]; intros acc w res w' H.
  - injection H as _ <-. exists []. rewrite app_nil_r. split; [reflexivity | constructor].
  - destruct b as [t | id name tool_input | t s | d];
      try (simpl in H; eapply IH; exact H).
    simpl in H. destruct tool_manager as [execute_tool|]; run_monad.
    + destruct (execute_tool name (KeywordInput tool_input) (env w))
        as [[x|r] e] eqn:E.
      * injection H as _ <-. simpl. eexists. split; [reflexivity|].
        constructor; [reflexivity | constructor].
      * apply IH in H. destruct H as (calls & P & F). simpl in P.
        exists (ToolCall name tool_input :: calls). split.
        -- rewrite P, <- app_assoc. reflexivity.
        -- constructor; [reflexivity | exact F].
    + injection H as _ <-. exists []. rewrite app_nil_r.
      split; [reflexivity | constructor].
Qed.

(** Every call that [generate_response] makes to the model service carries
    the system content built from the history, and there is at least one. *)
Lemma single_shot_calls query h tools tool_manager (w : World W) res w' :
  single_shot query h tools tool_manager w = (res, w') ->
  exists calls,
    port_calls w' = (port_calls w ++ calls)%list
    /\ Forall (sent_system (build_system_content h)) calls
    /\ exists req rest,
         calls = ModelCall req :: rest
         /\ req_system req = build_system_content h.
Proof.
  unfold generate_response. run_monad.
  destruct (messages_create _ (env w)) as [[x|r] e] eqn:E.
  { intros [= _ <-]. simpl. eexists. split; [reflexivity|].
    split; [constructor; [reflexivity | constructor]|].
    do 2 eexists. split; reflexivity. }
  destruct ((stop_reason r =? "tool_use")%string
            && match tool_manager with Some _ => true | None => false end).
  - unfold _handle_tool_execution. run_monad.
    match goal with
    | |- context [sync_blocks ?tm ?b ?a ?w0] =>
        destruct (sync_blocks tm b a w0) as [[x|results] w1] eqn:S
    end.
    + intros [= _ <-]. apply sync_blocks_calls in S.
      destruct S as (calls & P & F). simpl in P.
      eexists (_ :: calls). split; [rewrite P, <- app_assoc; reflexivity|].
      split.
      * constructor; [reflexivity|].
        eapply Forall_impl; [|exact F]. intros [?|? ?]; simpl; [discriminate | trivial].
      * do 2 eexists. split; reflexivity.
    + apply sync_blocks_calls in S. destruct S as (calls & P & F). simpl in P.
      match goal with
      | |- context [messages_create ?rq (env w1)] =>
          destruct (messages_create rq (env w1)) as [[x|r2] e2] eqn:E2
      end;
        (intros H;
         assert (Hw : port_calls w'
                      = ((port_calls w ++ [ModelCall _]) ++ calls ++ [ModelCall _])%list)
           by (first [ injection H as _ <- | idtac ];
               first [ reflexivity
                     | unfold first_block_text in H; run_monad;
                       destruct (content r2) as [|[] ?]; injection H as _ <-;
                       simpl; rewrite P, <- !app_assoc; reflexivity
                     | simpl; rewrite P, <- !app_assoc; reflexivity ]);
         eexists (_ :: calls ++ [_])%list;
         split; [rewrite Hw, <- !app_assoc; reflexivity|];
         split; [constructor; [reflexivity|]; apply Forall_app; split;
                 [eapply Forall_impl; [|exact F];
                  intros [?|? ?]; simpl; [discriminate | trivial]
                 | constructor; [reflexivity | constructor]]
                | do 2 eexists; split; reflexivity]).
  - unfold first_block_text. run_monad.
    destruct (content r) as [|[] ?]; intros [= _ <-]; simpl;
      (eexists; split; [reflexivity|];
       split; [constructor; [reflexivity | constructor]
              | do 2 eexists; split; reflexivity]).
Qed.

End SingleShotFacts.

(** ** The transition table *)

Lemma table_row_max_tokens (tr : StateTransition) :
  table_row tr -> trigger tr = "max_tokens" -> to_state tr = ERROR.
Proof.
  intros [(_ & _ & T)|[(_ & _ & T)|(_ & _ & [(_ & T)|[(_ & T)|[(E & _)|(E & _)]]])]] H;
    try exact E; rewrite T in H; discriminate.
Qed.

Lemma table_row_not_synthesized (tr : StateTransition) :
  table_row tr -> trigger tr <> "max_iterations_exceeded".
Proof.
  intros [(_ & _ & T)|[(_ & _ & T)|(_ & _ & [(_ & T)|[(_ & T)|[(_ & T)|(_ & T)]]])]];
    rewrite T; discriminate.
Qed.

Section TableFacts.

Context {W : Type}.
Variable model : string.
Variable logging : bool.
Variable messages_create : Request -> W -> (Exn + Response) * W.
Variable now_isoformat : W -> string.

Local Abbreviation dispatch :=
  (_dispatch_state W model logging messages_create now_isoformat).

Lemma dispatch_row state tools tool_manager last (st : Store W) tr st' :
  dispatch state tools tool_manager last st = (inr tr, st') ->
  from_state tr = state /\ table_row tr.
Proof.
  destruct state; simpl.
  - destruct (messages_create (request_of model tools st) (env (world st)))
      as [[x|r] e] eqn:E.
    + rewrite (initial_raises _ _ _ _ _ _ E). discriminate.
    + rewrite (initial_returns _ _ _ _ _ _ E). intros [= <- _].
      split; [reflexivity | left; repeat split].
  - destruct last as [r|]; [|discriminate].
    unfold _handle_tool_decision_state.
    destruct (classify_cases logging AWAITING_TOOL_DECISION r st)
      as (tr1 & st1 & E & C & _).
    rewrite E. intros [= <- _]. split; [apply C|].
    right; right. destruct C as [F C]. rewrite F. split; [left; reflexivity|].
    split; [exact F | exact C].
  - unfold _handle_tool_execution_state, bind.
    destruct (execute_tool_blocks W now_isoformat tool_manager _ [] st)
      as [[x|results] st1]; [discriminate|].
    destruct results; run_monad; intros [= <- _];
      (split; [reflexivity | right; left; repeat split]).
  - destruct (messages_create (request_of model tools st) (env (world st)))
      as [[x|r] e] eqn:E.
    + rewrite (follow_up_raises _ _ _ _ _ _ _ E). discriminate.
    + rewrite (follow_up_returns _ _ _ _ _ _ _ E).
      destruct (classify_cases logging AWAITING_FOLLOW_UP r
                  (after_model_call model tools st e))
        as (tr1 & st1 & E1 & C & _).
      rewrite E1. intros [= <- _]. split; [apply C|].
      right; right. destruct C as [F C]. rewrite F. split; [right; reflexivity|].
      split; [exact F | exact C].
  - discriminate.
  - discriminate.
Qed.

Lemma loop_run_rows tools tool_manager max_iterations cs it last st ys ex st' :
  loop_run model logging messages_create now_isoformat tools tool_manager
    max_iterations cs it last st ys ex st' ->
  Forall (fun y => table_row (yield_transition y)) ys.
Proof.
  induction 1.
  - constructor.
  - constructor.
  - constructor; [|constructor]. simpl. eapply dispatch_row; eassumption.
  - constructor; [|assumption]. simpl. eapply dispatch_row; eassumption.
Qed.

End TableFacts.

(** ** Terminal transitions along a run *)

Lemma split_snoc {A : Type} (pre : list A) (y : A) (post ys : list A) (z : A) :
  (pre ++ y :: post)%list = (ys ++ [z])%list ->
  (post = [] /\ y = z /\ pre = ys)
  \/ exists post', post = (post' ++ [z])%list /\ ys = (pre ++ y :: post')%list.
Proof.
  pattern post. apply rev_ind.
  - intros H. left. apply app_inj_tail in H. destruct H as [-> ->]. auto.
  - intros l post' _ H. right. exists post'.
    rewrite app_comm_cons, app_assoc in H. apply app_inj_tail in H.
    destruct H as [<- <-]. split; reflexivity.
Qed.

Section TerminalFacts.

Context {W : Type}.
Variable model : string.
Variable logging : bool.
Variable messages_create : Request -> W -> (Exn + Response) * W.
Variable now_isoformat : W -> string.

Local Abbreviation stream :=
  (generate_response_stream W model logging messages_create now_isoformat).

(** Once a dispatched transition into a terminal state has been yielded, no
    handler is dispatched any more: the generator ends without raising, its
    store is the one seen at that transition, and the only transition that
    can still follow is the one synthesized after the loop. *)
Lemma stream_after_terminal query h tools tool_manager max_iterations (w : World W) :
  let run := stream query h tools tool_manager max_iterations w in
  forall pre y post,
    yielded run = (pre ++ y :: post)%list ->
    is_terminal (to_state (yield_transition y)) = true ->
    trigger (yield_transition y) <> "max_iterations_exceeded" ->
    completion run = Exhausted
    /\ final_store run = yield_store y
    /\ (post = []
        \/ exists cs,
             post = [ {| yield_transition := max_iterations_transition cs max_iterations;
                         yield_store := yield_store y |} ]).
Proof.
  simpl.
  destruct (stream_is_loop_run model logging messages_create now_isoformat
              query h tools tool_manager max_iterations w)
    as (ys & ex & st & R & ->).
  intros pre y post E T N.
  pose proof (loop_run_terminal _ _ _ _ _ _ _ _ _ _ _ _ _ _ R) as L.
  destruct ex as [cs it|x|]; simpl in *.
  - destruct ((it >=? max_iterations) && negb (is_terminal cs)); simpl in *.
    + symmetry in E. apply split_snoc in E.
      destruct E as [(_ & -> & _)|(post' & -> & E)].
      * simpl in N. congruence.
      * destruct (L _ _ _ E T) as (-> & -> & _). simpl.
        split; [reflexivity|]. split; [reflexivity|]. right. exists cs. reflexivity.
    + destruct (L _ _ _ E T) as (-> & -> & _). auto.
  - destruct (L _ _ _ E T) as (_ & _ & cs' & it' & D). discriminate.
  - destruct (L _ _ _ E T) as (_ & _ & cs' & it' & D). discriminate.
Qed.

(** A yielded transition is a row of the table or the synthesized one. *)
Lemma stream_rows query h tools tool_manager max_iterations (w : World W) :
  let run := stream query h tools tool_manager max_iterations w in
  Forall (fun y => table_row (yield_transition y)
                   \/ trigger (yield_transition y) = "max_iterations_exceeded")
         (yielded run).
Proof.
  simpl.
  destruct (stream_is_loop_run model logging messages_create now_isoformat
              query h tools tool_manager max_iterations w)
    as (ys & ex & st & R & ->).
  apply loop_run_rows in R.
  assert (F : Forall (fun y : Yield W =>
                        table_row (yield_transition y)
                        \/ trigger (yield_transition y) = "max_iterations_exceeded") ys)
    by (eapply Forall_impl; [|exact R]; simpl; tauto).
  destruct ex as [cs it|x|]; simpl; try exact F.
  destruct ((it >=? max_iterations) && negb (is_terminal cs)); simpl; try exact F.
  apply Forall_app. split; [exact F|]. constructor; [right; reflexivity | constructor].
Qed.

End TerminalFacts.

(** * The claims *)

(** C2, as it is stated, fails.  With the history ["earlier talk"] the system
    content does not end with the base instructions, so it is not the base
    text with some section put before it: the base text comes first and the
    previous conversation after it. *)
Lemma C2_history_is_not_put_before_the_base_text :
  ~ (exists section : string,
       build_system_content (Some "earlier talk") = section ++ SYSTEM_PROMPT).
Proof.
  intros [section H]. apply (f_equal last_ascii) in H.
  rewrite last_ascii_append, SYSTEM_PROMPT_last in H.
  - vm_compute in H. discriminate.
  - intros E. apply (f_equal String.length) in E. vm_compute in E. discriminate.
Qed.

(** C2 (amended): when the caller supplies a non-empty history [h], the
    system prompt is the base instructional text followed by the header
    "Previous conversation:" and then [h], so the base text is a prefix of it;
    with no history, or an empty one, it is exactly the base text.  This
    content is the system prompt of the context of the run, and every request
    sent to the model service carries it, in [generate_response_stream] and
    in [generate_response]. *)
Theorem C2_system_prompt_then_history :
  forall (h : string),
    h <> EmptyString ->
    build_system_content (Some h)
      = SYSTEM_PROMPT ++ previous_conversation_header ++ h
    /\ String.prefix SYSTEM_PROMPT (build_system_content (Some h)) = true
    /\ build_system_content None = SYSTEM_PROMPT
    /\ build_system_content (Some EmptyString) = SYSTEM_PROMPT
    /\ (forall (W : Type) model logging messages_create now_isoformat
               query history tools tool_manager max_iterations (w : World W),
          let run := generate_response_stream W model logging messages_create
                       now_isoformat query history tools tool_manager
                       max_iterations w in
          exists calls,
            port_calls (world (final_store run)) = (port_calls w ++ calls)%list
            /\ Forall (sent_system (build_system_content history)) calls)
    /\ (forall (W : Type) model messages_create
               query history tools tool_manager (w : World W) res w',
          generate_response W model messages_create query history tools
            tool_manager w = (res, w') ->
          exists calls,
            port_calls w' = (port_calls w ++ calls)%list
            /\ Forall (sent_system (build_system_content history)) calls
            /\ exists req rest,
                 calls = ModelCall req :: rest
                 /\ req_system req = build_system_content history).
Proof.
  intros h Hh.
  assert (E : build_system_content (Some h)
              = SYSTEM_PROMPT ++ previous_conversation_header ++ h).
  { unfold build_system_content. rewrite (str_truthy_nonempty h Hh). reflexivity. }
  split; [exact E|]. split; [rewrite E; apply prefix_append|].
  split; [reflexivity|]. split; [reflexivity|]. split.
  - intros W model logging messages_create now_isoformat query history tools
      tool_manager max_iterations w run.
    pose proof (stream_chain model logging messages_create now_isoformat
                  query history tools tool_manager max_iterations w) as C.
    apply (chain_last store_evolves store_evolves_refl store_evolves_trans) in C.
    destruct C as (_ & _ & calls & P & F). exists calls. split; [exact P | exact F].
  - intros W model messages_create query history tools tool_manager w res w' H.
    eapply single_shot_calls. exact H.
Qed.

(** A supplied history: the base text comes first. *)
Lemma C2_system_prompt_then_history_witness :
  build_system_content (Some "earlier talk")
    = SYSTEM_PROMPT ++ previous_conversation_header ++ "earlier talk"
  /\ String.prefix SYSTEM_PROMPT (build_system_content (Some "earlier talk")) = true.
Proof.
  assert (N : "earlier talk" <> EmptyString) by discriminate.
  destruct (C2_system_prompt_then_history "earlier talk" N) as (A & B & _).
  split; [exact A | exact B].
Defined.

(** C7: the counter of tool calls is the length of the log after every
    operation on the context, the messages are only appended to, and the
    system prompt set when the context is created is never changed: for the
    two operations on the context, for every dispatch of a state handler
    (whether it returns or raises) and, along every run of
    [generate_response_stream], for the context as it is at each yielded
    transition and when the generator ends. *)
Theorem C7_context_invariants :
  forall (W : Type) model logging messages_create now_isoformat,
    (forall ctx now name tool_input res,
        context_grows ctx (add_tool_call ctx now name tool_input res)
        /\ (count_matches_history ctx ->
            count_matches_history (add_tool_call ctx now name tool_input res)))
    /\ (forall ctx m,
           context_grows ctx (append_message ctx m)
           /\ (count_matches_history ctx ->
               count_matches_history (append_message ctx m)))
    /\ (forall state tools tool_manager last (st : Store W) res st',
           _dispatch_state W model logging messages_create now_isoformat
             state tools tool_manager last st = (res, st') ->
           context_grows (context st) (context st')
           /\ (count_matches_history (context st) ->
               count_matches_history (context st')))
    /\ (forall query history tools tool_manager max_iterations (w : World W),
           let run := generate_response_stream W model logging messages_create
                        now_isoformat query history tools tool_manager
                        max_iterations w in
           let contexts :=
             (map (fun y => context (yield_store y)) (yielded run)
                ++ [context (final_store run)])%list in
           count_matches_history (initial_context query history)
           /\ system_prompt (initial_context query history)
              = build_system_content history
           /\ chain context_grows (initial_context query history) contexts
           /\ Forall (fun ctx =>
                        count_matches_history ctx
                        /\ system_prompt ctx = build_system_content history)
                     contexts).
Proof.
  intros W model logging messages_create now_isoformat.
  split; [intros; split; [apply context_grows_add_tool_call | apply add_tool_call_count]|].
  split; [intros; split; [apply context_grows_append | apply append_message_count]|].
  split.
  - intros state tools tool_manager last st res st' H.
    apply dispatch_evolves in H. destruct H as (G & I & _). split; assumption.
  - intros query history tools tool_manager max_iterations w run contexts.
    assert (I0 : count_matches_history (initial_context query history)) by reflexivity.
    split; [exact I0|]. split; [reflexivity|].
    pose proof (stream_chain model logging messages_create now_isoformat
                  query history tools tool_manager max_iterations w) as C.
    apply chain_contexts in C; [|exact I0]. simpl in C.
    rewrite map_app, map_map in C. simpl in C. destruct C as [C1 C2].
    split; [exact C1|].
    subst contexts run.
    rewrite Forall_forall in C2 |- *. intros ctx Hin.
    apply in_app_or in Hin. destruct Hin as [Hin|[<-|[]]].
    + apply in_map_iff in Hin. destruct Hin as (y & <- & Hy).
      apply (C2 (yield_store y)). apply in_or_app. left.
      apply in_map_iff. exists y. split; [reflexivity | exact Hy].
    + apply (C2 (final_store _)). apply in_or_app. right. left. reflexivity.
Qed.

(** C5: a response whose stop reason is ["end_turn"] takes the tool-decision
    logic to COMPLETED, in AWAITING_TOOL_DECISION and (once the model service
    has returned it) in AWAITING_FOLLOW_UP, with trigger ["end_turn"]; the
    final text is the text of the first text-bearing block of the response,
    and it is absent exactly when no block bears text: this is a completion
    too, not an error. *)
Theorem C5_end_turn_completes :
  forall (W : Type) model logging
         (messages_create : Request -> W -> (Exn + Response) * W)
         (response : Response),
    stop_reason response = "end_turn" ->
    exists final_text : option string,
      (forall t, final_text = Some t <-> first_text_bearing (content response) t)
      /\ (final_text = None <-> no_text_bearing (content response))
      /\ (forall st : Store W,
            _handle_tool_decision_state W logging response st
            = (inr {| from_state := AWAITING_TOOL_DECISION;
                      to_state := COMPLETED;
                      trigger := "end_turn";
                      data := DataFinal final_text response |}, st))
      /\ (forall tools (st : Store W) e,
            messages_create (request_of model tools st) (env (world st))
              = (inr response, e) ->
            _handle_follow_up_state W model logging messages_create tools st
            = (inr {| from_state := AWAITING_FOLLOW_UP;
                      to_state := COMPLETED;
                      trigger := "end_turn";
                      data := DataFinal final_text response |},
               after_model_call model tools st e)).
Proof.
  intros W model logging messages_create response H.
  exists (extract_text (content response)).
  split; [intros t; apply extract_text_some|].
  split; [apply extract_text_none|]. split.
  - intros st. unfold _handle_tool_decision_state.
    apply classify_end_turn. exact H.
  - intros tools st e E.
    rewrite (follow_up_returns _ _ _ _ _ _ _ E).
    apply classify_end_turn. exact H.
Qed.

(** The final text of a response that thinks before it answers is its first
    text, ["4"]. *)
Lemma C5_end_turn_completes_witness :
  exists final_text : option string,
    final_text = Some "4"
    /\ forall st : Store Scripted.W,
         _handle_tool_decision_state Scripted.W true Scripted.thought_then_answer st
         = (inr {| from_state := AWAITING_TOOL_DECISION;
                   to_state := COMPLETED;
                   trigger := "end_turn";
                   data := DataFinal final_text Scripted.thought_then_answer |}, st).
Proof.
  destruct (C5_end_turn_completes Scripted.W "claude" true Scripted.messages_create
              Scripted.thought_then_answer eq_refl)
    as (final_text & S & _ & D & _).
  exists final_text. split; [|exact D].
  apply S. exists [ThinkingBlock "adding" "sig"], [TextBlock "four"].
  split; reflexivity.
Defined.

(** C6: a response whose stop reason is ["max_tokens"] takes the machine to
    ERROR, in AWAITING_TOOL_DECISION and in AWAITING_FOLLOW_UP, with trigger
    ["max_tokens"], the error ["Token limit reached"] and, as partial text,
    the text of the first text-bearing block (absent when there is none).
    In a run, once that transition has been yielded no handler is dispatched
    again: the generator ends without raising, and its world is the one seen
    at that transition, so no further call is made to either collaborator. *)
Theorem C6_max_tokens_is_terminal_error :
  forall (W : Type) model logging
         (messages_create : Request -> W -> (Exn + Response) * W)
         (now_isoformat : W -> string)
         (response : Response),
    stop_reason response = "max_tokens" ->
    exists partial_text : option string,
      (forall t, partial_text = Some t <-> first_text_bearing (content response) t)
      /\ (partial_text = None <-> no_text_bearing (content response))
      /\ (forall st : Store W,
            _handle_tool_decision_state W logging response st
            = (inr {| from_state := AWAITING_TOOL_DECISION;
                      to_state := ERROR;
                      trigger := "max_tokens";
                      data := DataTokenLimit "Token limit reached" partial_text |},
               st))
      /\ (forall tools (st : Store W) e,
            messages_create (request_of model tools st) (env (world st))
              = (inr response, e) ->
            _handle_follow_up_state W model logging messages_create tools st
            = (inr {| from_state := AWAITING_FOLLOW_UP;
                      to_state := ERROR;
                      trigger := "max_tokens";
                      data := DataTokenLimit "Token limit reached" partial_text |},
               after_model_call model tools st e))
      /\ (forall query history tools tool_manager max_iterations (w : World W)
                 pre y post,
            let run := generate_response_stream W model logging messages_create
                         now_isoformat query history tools tool_manager
                         max_iterations w in
            yielded run = (pre ++ y :: post)%list ->
            trigger (yield_transition y) = "max_tokens" ->
            to_state (yield_transition y) = ERROR
            /\ completion run = Exhausted
            /\ world (final_store run) = world (yield_store y)
            /\ Forall (fun z => world (yield_store z) = world (yield_store y)) post).
Proof.
  intros W model logging messages_create now_isoformat response H.
  exists (extract_text (content response)).
  split; [intros t; apply extract_text_some|].
  split; [apply extract_text_none|]. split; [|split].
  - intros st. unfold _handle_tool_decision_state.
    apply classify_max_tokens. exact H.
  - intros tools st e E.
    rewrite (follow_up_returns _ _ _ _ _ _ _ E).
    apply classify_max_tokens. exact H.
  - intros query history tools tool_manager max_iterations w pre y post run E T.
    pose proof (stream_rows model logging messages_create now_isoformat
                  query history tools tool_manager max_iterations w) as R.
    simpl in R. fold run in R. rewrite E in R.
    apply Forall_app in R. destruct R as [_ R]. inversion R as [|? ? Hy _]; subst.
    destruct Hy as [Hy|Hy]; [|rewrite T in Hy; discriminate].
    pose proof (table_row_max_tokens _ Hy T) as TE.
    split; [exact TE|].
    destruct (stream_after_terminal model logging messages_create now_isoformat
                query history tools tool_manager max_iterations w pre y post E)
      as (C & F & P).
    + rewrite TE. reflexivity.
    + rewrite T. discriminate.
    + fold run in C, F. split; [exact C|]. split; [rewrite F; reflexivity|].
      destruct P as [->|(cs & ->)]; [constructor|].
      constructor; [reflexivity | constructor].
Qed.

(** A truncated first answer: the error carries the text produced so far. *)
Lemma C6_max_tokens_is_terminal_error_witness :
  exists partial_text : option string,
    partial_text = Some "The answer is"
    /\ forall st : Store Scripted.W,
         _handle_tool_decision_state Scripted.W true Scripted.truncated st
         = (inr {| from_state := AWAITING_TOOL_DECISION;
                   to_state := ERROR;
                   trigger := "max_tokens";
                   data := DataTokenLimit "Token limit reached" partial_text |}, st).
Proof.
  destruct (C6_max_tokens_is_terminal_error Scripted.W "claude" true
              Scripted.messages_create Scripted.now_isoformat
              Scripted.truncated eq_refl)
    as (partial_text & S & _ & D & _).
  exists partial_text. split; [|exact D].
  apply S. exists [], []. split; reflexivity.
Defined.

Lemma no_tool_blocks_run {W : Type} (now_isoformat : W -> string)
    (tool_manager : option (ToolManager W)) (blocks : list ContentBlock) :
  tool_use_blocks blocks = [] ->
  forall acc (st : Store W),
    execute_tool_blocks W now_isoformat tool_manager blocks acc st = (inr acc, st).
Proof.
  unfold tool_use_blocks.
  induction blocks as [|b blocks IH]; intros H acc st; [reflexivity|].
  destruct b; simpl in *; try discriminate; apply IH; exact H.
Qed.



(** C10: [generate_response] returns the text of the first block of the
    response it ends on, unguarded.  On the direct path (the first response
    does not ask for tools, or no tool manager was supplied) and on the tool
    path (the response of the second call), it returns a text exactly when
    the content starts with a text block; an empty content raises
    [IndexError] and a first block without text raises [AttributeError]: no
    null answer is returned. *)
Theorem C10_single_shot_unguarded_text :
  forall (W : Type) model
         (messages_create : Request -> W -> (Exn + Response) * W)
         query history tools (tool_manager : option (ToolManager W)) (w : World W)
         (response : Response) (e : W),
    let api_params :=
      make_api_params model
        [ {| role := user; message_content := ContentQuery query |} ]
        (build_system_content history) tools in
    let w1 := {| env := e;
                 port_calls := (port_calls w ++ [ModelCall api_params])%list;
                 stdout := stdout w |} in
    let unguarded (final : Response) (out : (Exn + string) * World W) (w' : World W) :=
      (forall t rest, content final = TextBlock t :: rest -> out = (inr t, w'))
      /\ (content final = [] -> out = (inl IndexError, w'))
      /\ (forall b rest, content final = b :: rest -> has_text b = false ->
          out = (inl AttributeError, w')) in
    messages_create api_params (env w) = (inr response, e) ->
    (stop_reason response <> "tool_use" \/ tool_manager = None ->
     unguarded response
       (generate_response W model messages_create query history tools tool_manager w)
       w1)
    /\ (forall execute_tool results w2 final_response e3,
          stop_reason response = "tool_use" ->
          tool_manager = Some execute_tool ->
          execute_tool_blocks_sync W tool_manager (content response) [] w1
            = (inr results, w2) ->
          let turns :=
            match results with
            | [] => []
            | _ :: _ => [ {| role := user;
                             message_content := ContentToolResults results |} ]
            end in
          let final_params :=
            {| req_model := model;
               req_temperature := 0;
               req_max_tokens := 800;
               req_messages :=
                 ([ {| role := user; message_content := ContentQuery query |};
                    {| role := assistant;
                       message_content := ContentBlocks (content response) |} ]
                    ++ turns)%list;
               req_system := build_system_content history;
               req_tools := None;
               req_tool_choice := None |} in
          messages_create final_params (env w2) = (inr final_response, e3) ->
          unguarded final_response
            (generate_response W model messages_create query history tools
               tool_manager w)
            {| env := e3;
               port_calls := (port_calls w2 ++ [ModelCall final_params])%list;
               stdout := stdout w2 |}).
Proof.
  intros W model messages_create query history tools tool_manager w response e
    api_params w1 unguarded E.
  assert (U : forall (final : Response) (w' : World W),
             unguarded final (first_block_text final w') w').
  { intros final w'. unfold unguarded, first_block_text. repeat split.
    - intros t rest ->. reflexivity.
    - intros ->. reflexivity.
    - intros b rest -> Hb. destruct b; simpl in Hb; try discriminate; reflexivity. }
  split.
  - intros Hdirect.
    assert (G : generate_response W model messages_create query history tools
                  tool_manager w = first_block_text response w1).
    { unfold generate_response. run_monad. fold api_params. rewrite E.
      destruct Hdirect as [N| ->].
      - apply String.eqb_neq in N. rewrite N. reflexivity.
      - rewrite andb_false_r. reflexivity. }
    rewrite G. apply U.
  - intros execute_tool results w2 final_response e3 T -> S turns final_params F.
    assert (G : generate_response W model messages_create query history tools
                  (Some execute_tool) w
                = first_block_text final_response
                    {| env := e3;
                       port_calls := (port_calls w2 ++ [ModelCall final_params])%list;
                       stdout := stdout w2 |}).
    { unfold generate_response. run_monad. fold api_params. rewrite E, T. simpl.
      unfold _handle_tool_execution. run_monad. fold w1. rewrite S.
      subst final_params turns. destruct results; simpl in *; rewrite F; reflexivity. }
    rewrite G. apply U.
Qed.

(** An empty answer raises [IndexError]; a request for a tool, when no tool
    manager was supplied, raises [AttributeError]. *)
Lemma C10_single_shot_unguarded_text_witness :
  fst (Scripted.single_shot "What is 2+2?" None None None
         (Scripted.start [Scripted.empty_answer]))
    = inl IndexError
  /\ fst (Scripted.single_shot "What is MCP?" None (Some ["search"]) None
            (Scripted.start [Scripted.bare_search_request]))
       = inl AttributeError.
Proof.
  split.
  - destruct (C10_single_shot_unguarded_text Scripted.W "claude"
                Scripted.messages_create "What is 2+2?" None None None
                (Scripted.start [Scripted.empty_answer])
                Scripted.empty_answer [] eq_refl) as [D _].
    destruct (D (or_intror eq_refl)) as (_ & E & _).
    unfold Scripted.single_shot. rewrite (E eq_refl). reflexivity.
  - destruct (C10_single_shot_unguarded_text Scripted.W "claude"
                Scripted.messages_create "What is MCP?" None (Some ["search"]) None
                (Scripted.start [Scripted.bare_search_request])
                Scripted.bare_search_request [] eq_refl) as [D _].
    destruct (D (or_intror eq_refl)) as (_ & _ & A).
    unfold Scripted.single_shot. rewrite (A _ _ eq_refl eq_refl). reflexivity.
Defined.

(** ** One round of tool execution *)

Lemma count_from_sorted (n : nat) :
  forall start, StronglySorted Z.lt (count_from start n)
                /\ Forall (fun i => start < i) (count_from start n).
Proof.
  induction n as [|n IH]; intros start; simpl.
  - split; constructor.
  - destruct (IH (start + 1)) as [S F]. split.
    + constructor; [exact S | exact F].
    + constructor; [lia|]. eapply Forall_impl; [|exact F]. simpl. lia.
Qed.

Lemma count_from_length (n : nat) :
  forall start, length (count_from start n) = n.
Proof. induction n as [|n IH]; intros start; simpl; [|rewrite IH]; reflexivity. Qed.

Lemma run_blocks_round {W : Type} (now_isoformat : W -> string)
    (execute_tool : ToolManager W) :
  executor_returns execute_tool ->
  forall blocks acc (st : Store W),
    exists st' results new tool_results,
      execute_tool_blocks W now_isoformat (Some execute_tool) blocks acc st
        = (inr (acc ++ tool_results)%list, st')
      /\ tool_round now_isoformat execute_tool blocks st st' results new tool_results.
Proof.
  intros Hret. induction blocks as [|b blocks IH]; intros acc st.
  - exists st, [], [], []. split; [simpl; rewrite app_nil_r; reflexivity|].
    unfold tool_round. simpl. rewrite !app_nil_r.
    repeat split; try reflexivity; try constructor. lia.
  - destruct b as [t | id name tool_input | t s | d].
    2: {
      destruct (Hret name tool_input (env (world st))) as (res & e & E).
      rewrite (run_blocks_tool now_isoformat _ _ _ _ _ _ _ _ _ E).
      destruct (IH (acc ++ [ {| tool_use_id := id; tool_result_content := res |} ])%list
                  (after_tool_call now_isoformat name tool_input res e st))
        as (st' & results & new & trs & R & T).
      destruct T as (T1 & T2 & T3 & T4 & T5 & T6 & T7 & T8 & T9 & T10 & T11 & T12 & T13).
      simpl in T1, T2, T3, T4, T5, T6, T7.
      exists st', (res :: results),
        ({| index := tool_call_count (context st) + 1;
            tool_name := name; input := tool_input; result := res;
            timestamp := now_isoformat e |} :: new),
        ({| tool_use_id := id; tool_result_content := res |} :: trs).
      split; [rewrite R, <- app_assoc; reflexivity|].
      unfold tool_round. simpl.
      split; [econstructor; eassumption|].
      split; [rewrite T2, <- app_assoc; reflexivity|].
      split; [exact T3|]. split; [exact T4|].
      split; [rewrite T5, <- app_assoc; reflexivity|].
      split; [rewrite T6; lia|].
      split; [rewrite T7; reflexivity|].
      split; [rewrite T8; reflexivity|].
      split; [rewrite T9; reflexivity|].
      split; [rewrite T10; reflexivity|].
      split; [constructor; [eexists; reflexivity | exact T11]|].
      split; [rewrite T12; reflexivity | rewrite T13; reflexivity]. }
    all: destruct (IH acc st) as (st' & results & new & trs & R & T);
      exists st', results, new, trs; split; [exact R|];
      destruct T as (T1 & T); split; [apply tools_run_skip; [reflexivity | exact T1] | exact T].
Qed.

(** The loop over the tool blocks, when it returns with a tool manager. *)
Lemma run_blocks_returned {W : Type} (now_isoformat : W -> string)
    (execute_tool : ToolManager W) :
  forall blocks acc (st : Store W) out st',
    execute_tool_blocks W now_isoformat (Some execute_tool) blocks acc st
      = (inr out, st') ->
    exists results new tool_results,
      out = (acc ++ tool_results)%list
      /\ tool_round now_isoformat execute_tool blocks st st' results new tool_results.
Proof.
  induction blocks as [|b blocks IH]; intros acc st out st' H.
  - injection H as <- <-. exists [], [], []. split; [rewrite app_nil_r; reflexivity|].
    unfold tool_round. simpl. rewrite !app_nil_r.
    repeat split; try reflexivity; try constructor. lia.
  - destruct b as [t | id name tool_input | t s | d].
    2: {
      destruct (execute_tool name (PositionalInput tool_input) (env (world st)))
        as [[x|res] e] eqn:E.
      { simpl in H. unfold _execute_tool_async in H. run_monad.
        rewrite E in H. discriminate. }
      rewrite (run_blocks_tool now_isoformat _ _ _ _ _ _ _ _ _ E) in H.
      destruct (IH _ _ _ _ H) as (results & new & trs & -> & T).
      destruct T as (T1 & T2 & T3 & T4 & T5 & T6 & T7 & T8 & T9 & T10 & T11 & T12 & T13).
      simpl in T1, T2, T3, T4, T5, T6, T7.
      exists (res :: results),
        ({| index := tool_call_count (context st) + 1;
            tool_name := name; input := tool_input; result := res;
            timestamp := now_isoformat e |} :: new),
        ({| tool_use_id := id; tool_result_content := res |} :: trs).
      split; [rewrite <- app_assoc; reflexivity|].
      unfold tool_round. simpl.
      split; [econstructor; eassumption|].
      split; [rewrite T2, <- app_assoc; reflexivity|].
      split; [exact T3|]. split; [exact T4|].
      split; [rewrite T5, <- app_assoc; reflexivity|].
      split; [rewrite T6; lia|].
      split; [rewrite T7; reflexivity|].
      split; [rewrite T8; reflexivity|].
      split; [rewrite T9; reflexivity|].
      split; [rewrite T10; reflexivity|].
      split; [constructor; [eexists; reflexivity | exact T11]|].
      split; [rewrite T12; reflexivity | rewrite T13; reflexivity]. }
    all: simpl in H; destruct (IH _ _ _ _ H) as (results & new & trs & E & T);
      exists results, new, trs; split; [exact E|];
      destruct T as (T1 & T); split;
        [apply tools_run_skip; [reflexivity | exact T1] | exact T].
Qed.

(** Without a tool manager the loop only returns when no block asks for a
    tool. *)
Lemma run_blocks_without_manager {W : Type} (now_isoformat : W -> string) :
  forall blocks acc (st : Store W) out st',
    execute_tool_blocks W now_isoformat None blocks acc st = (inr out, st') ->
    tool_use_blocks blocks = [].
Proof.
  unfold tool_use_blocks.
  induction blocks as [|b blocks IH]; intros acc st out st' H; [reflexivity|].
  destruct b as [t | id name tool_input | t s | d];
    try (simpl in *; eapply IH; exact H).
  simpl in H. unfold _execute_tool_async in H. run_monad. discriminate.
Qed.

(** C4: an EXECUTING_TOOLS step whose prior response holds [N]
    tool-invocation blocks and that returns (it does when a tool manager is
    supplied that returns on every call).  The executor has been called
    exactly [N] times, one call after the other in the order of the blocks
    (each call in the environment left by the one before), the transition
    returned is [tools_executed], and the log of tool calls has exactly [N]
    new entries, numbered from the previous count plus one upwards (strictly
    increasing), each recording the name and the input of its block, the
    result returned and a timestamp read from the clock.  The results are
    appended as one user turn when there are any. *)
Theorem C4_tools_executed_in_order :
  forall (W : Type) model logging
         (messages_create : Request -> W -> (Exn + Response) * W)
         (now_isoformat : W -> string)
         (tool_manager : option (ToolManager W))
         tools (response : Response) (st : Store W),
    let requested := tool_use_blocks (content response) in
    let N := length requested in
    let step :=
      _dispatch_state W model logging messages_create now_isoformat
        EXECUTING_TOOLS tools tool_manager (Some response) st in
    (forall execute_tool,
        tool_manager = Some execute_tool ->
        executor_returns execute_tool ->
        exists tr st', step = (inr tr, st'))
    /\ (forall tr st',
          step = (inr tr, st') ->
          exists results new tool_results,
            tr = {| from_state := EXECUTING_TOOLS;
                    to_state := AWAITING_FOLLOW_UP;
                    trigger := "tools_executed";
                    data := DataToolResults tool_results |}
            /\ port_calls (world st')
               = (port_calls (world st) ++ map tool_call_of requested)%list
            /\ length (map tool_call_of requested) = N
            /\ (forall execute_tool,
                  tool_manager = Some execute_tool ->
                  tools_run execute_tool (content response) (env (world st))
                    results (env (world st')))
            /\ (tool_manager = None -> N = 0%nat /\ world st' = world st)
            /\ tool_call_history (context st')
               = (tool_call_history (context st) ++ new)%list
            /\ length new = N
            /\ map index new = count_from (tool_call_count (context st)) N
            /\ StronglySorted Z.lt (map index new)
            /\ map tool_name new = map block_name requested
            /\ map input new = map block_input requested
            /\ map result new = results
            /\ Forall (fun entry => exists e, timestamp entry = now_isoformat e) new
            /\ tool_call_count (context st')
               = tool_call_count (context st) + Z.of_nat N
            /\ map tool_use_id tool_results = map block_id requested
            /\ map tool_result_content tool_results = results
            /\ messages (context st')
               = (messages (context st)
                    ++ match tool_results with
                       | [] => []
                       | _ :: _ =>
                           [ {| role := user;
                                message_content :=
                                  ContentToolResults tool_results |} ]
                       end)%list).
Proof.
  intros W model logging messages_create now_isoformat tool_manager tools
    response st requested N step.
  split.
  - intros execute_tool -> Hret. subst step. simpl.
    destruct (run_blocks_round now_isoformat execute_tool Hret
                (content response) [] st)
      as (st1 & results & new & trs & R & _).
    unfold _handle_tool_execution_state, bind. rewrite R.
    destruct trs; run_monad; do 2 eexists; reflexivity.
  - intros tr st' H. subst step. simpl in H.
    unfold _handle_tool_execution_state, bind in H.
    destruct (execute_tool_blocks W now_isoformat tool_manager
                (content response) [] st) as [[x|out] st1] eqn:B;
      [discriminate|].
    assert (Round : exists results new,
               port_calls (world st1)
               = (port_calls (world st) ++ map tool_call_of requested)%list
               /\ (forall execute_tool,
                     tool_manager = Some execute_tool ->
                     tools_run execute_tool (content response) (env (world st))
                       results (env (world st1)))
               /\ (tool_manager = None -> N = 0%nat /\ world st1 = world st)
               /\ messages (context st1) = messages (context st)
               /\ tool_call_history (context st1)
                  = (tool_call_history (context st) ++ new)%list
               /\ tool_call_count (context st1)
                  = tool_call_count (context st) + Z.of_nat N
               /\ map index new = count_from (tool_call_count (context st)) N
               /\ map tool_name new = map block_name requested
               /\ map input new = map block_input requested
               /\ map result new = results
               /\ Forall (fun entry => exists e, timestamp entry = now_isoformat e)
                         new
               /\ map tool_use_id out = map block_id requested
               /\ map tool_result_content out = results).
    { destruct tool_manager as [execute_tool|].
      - destruct (run_blocks_returned now_isoformat execute_tool _ _ _ _ _ B)
          as (results & new & trs & -> & T).
        destruct T as (T1 & T2 & T3 & T4 & T5 & T6 & T7 & T8 & T9 & T10 & T11
                         & T12 & T13).
        exists results, new.
        split; [exact T2|].
        split; [intros e0 [= <-]; exact T1|].
        split; [discriminate|].
        repeat split; assumption.
      - pose proof (run_blocks_without_manager now_isoformat _ _ _ _ _ B) as E0.
        rewrite (no_tool_blocks_run now_isoformat None _ E0) in B.
        injection B as <- <-. exists [], [].
        subst N requested. rewrite E0. simpl. rewrite app_nil_r.
        split; [reflexivity|]. split; [discriminate|].
        split; [auto|]. rewrite app_nil_r, Z.add_0_r.
        repeat split; constructor. }
    destruct Round as (results & new & R1 & R2 & R3 & R4 & R5 & R6 & R7 & R8
                         & R9 & R10 & R11 & R12 & R13).
    assert (L : length new = N).
    { rewrite <- (length_map index), R7. apply count_from_length. }
    assert (S : StronglySorted Z.lt (map index new)).
    { rewrite R7. apply count_from_sorted. }
    exists results, new, out.
    destruct out as [|tr0 trs]; run_monad; injection H as <- <-; simpl;
      rewrite length_map, ?app_nil_r;
      (split; [reflexivity|]); (split; [exact R1|]); (split; [reflexivity|]);
      (split; [exact R2|]); (split; [exact R3|]); (split; [exact R5|]);
      (split; [exact L|]); (split; [exact R7|]); (split; [exact S|]);
      (split; [exact R8|]); (split; [exact R9|]); (split; [exact R10|]);
      (split; [exact R11|]); (split; [exact R6|]); (split; [exact R12|]);
      (split; [exact R13|]); rewrite ?R4; reflexivity.
Qed.

(** An executor that knows the search tool only, asked for one search: the
    step returns, after one call that is logged as call 1. *)
Lemma C4_tools_executed_in_order_witness :
  exists (tr : StateTransition) (st' : Store unit),
    _dispatch_state unit "claude" true
      (Faulty.constant Scripted.answer) Faulty.clock
      EXECUTING_TOOLS None (Some Faulty.search_only)
      (Some Scripted.bare_search_request)
      {| context := initial_context "What is MCP?" None; world := Faulty.start |}
    = (inr tr, st')
    /\ port_calls (world st') = [ToolCall "search" [("q", "x")]]
    /\ map index (tool_call_history (context st')) = [1]
    /\ map tool_name (tool_call_history (context st')) = ["search"].
Proof.
  destruct (C4_tools_executed_in_order unit "claude" true
              (Faulty.constant Scripted.answer) Faulty.clock
              (Some Faulty.search_only) None Scripted.bare_search_request
              {| context := initial_context "What is MCP?" None;
                 world := Faulty.start |})
    as (_ & Facts).
  do 2 eexists. split; [reflexivity|].
  destruct (Facts _ _ eq_refl)
    as (results & new & trs & _ & P & _ & _ & _ & H & _ & I & _ & Nm & _).
  split; [exact P|].
  split; [rewrite H; exact I | rewrite H; exact Nm].
Defined.

(** ** A model that always asks for tools *)

Section AlwaysTools.

Context {W : Type}.
Variable model : string.
Variable logging : bool.
Variable messages_create : Request -> W -> (Exn + Response) * W.
Variable now_isoformat : W -> string.
Variable execute_tool : ToolManager W.
Variable tools : option (list ToolDecl).
Variable max_iterations : Z.

Hypothesis model_asks : always_requests_tools messages_create.
Hypothesis executor_ok : executor_returns execute_tool.

Local Abbreviation dispatch :=
  (_dispatch_state W model logging messages_create now_isoformat).

Lemma dispatch_asks cs last (st : Store W) :
  loop_ready cs last ->
  exists tr st',
    dispatch cs tools (Some execute_tool) last st = (inr tr, st')
    /\ is_terminal (to_state tr) = false
    /\ loop_ready (to_state tr) (next_response tr last).
Proof.
  destruct cs; simpl; intros Hready; try contradiction.
  - destruct (model_asks (request_of model tools st) (env (world st)))
      as (r & e & E & T).
    rewrite (initial_returns _ _ _ _ _ _ E).
    do 2 eexists. split; [reflexivity|]. split; [reflexivity|].
    simpl. exists r. split; [reflexivity | exact T].
  - destruct Hready as (r & -> & T). unfold _handle_tool_decision_state.
    rewrite (classify_tool_use logging _ _ st T).
    do 2 eexists. split; [reflexivity|]. split; [reflexivity | exact I].
  - destruct (run_blocks_round now_isoformat execute_tool executor_ok
                (match last with Some r => content r | None => [] end) [] st)
      as (st1 & results & new & trs & R & _).
    unfold _handle_tool_execution_state, bind. rewrite R. simpl.
    destruct trs; run_monad; do 2 eexists;
      (split; [reflexivity|]; split; [reflexivity | exact I]).
  - destruct (model_asks (request_of model tools st) (env (world st)))
      as (r & e & E & T).
    rewrite (follow_up_returns _ _ _ _ _ _ _ E).
    rewrite (classify_tool_use logging _ _ _ T).
    do 2 eexists. split; [reflexivity|]. split; [reflexivity | exact I].
Qed.

(** With such a model the loop is only left by its bound, after exactly
    [max_iterations - iteration] transitions, none of them terminal. *)
Lemma loop_run_asks cs it last st ys ex st' :
  loop_run model logging messages_create now_isoformat tools (Some execute_tool)
    max_iterations cs it last st ys ex st' ->
  loop_ready cs last ->
  it <= max_iterations ->
  (exists cs', ex = LoopDone cs' max_iterations /\ is_terminal cs' = false)
  /\ Z.of_nat (length ys) = max_iterations - it
  /\ Forall (fun y => is_terminal (to_state (yield_transition y)) = false) ys.
Proof.
  induction 1 as [cs it last st C | cs it last st e st' C D
                 | cs it last st tr st' C D T
                 | cs it last st tr st' ys ex st'' C D T R IH];
    intros Hready Hle.
  - assert (N : is_terminal cs = false) by (destruct cs; simpl in *; tauto).
    rewrite N in C. simpl in C. apply Z.ltb_ge in C.
    assert (it = max_iterations) by lia. subst it.
    split; [exists cs; split; [reflexivity | exact N]|].
    split; [simpl; lia | constructor].
  - destruct (dispatch_asks cs last st Hready) as (tr & st1 & D1 & _).
    rewrite D1 in D. discriminate.
  - destruct (dispatch_asks cs last st Hready) as (tr1 & st1 & D1 & T1 & _).
    rewrite D1 in D. injection D as <- _. congruence.
  - destruct (dispatch_asks cs last st Hready) as (tr1 & st1 & D1 & T1 & R1).
    rewrite D1 in D. injection D as <- <-.
    apply andb_true_iff in C. destruct C as [_ C]. apply Z.ltb_lt in C.
    destruct (IH R1 ltac:(lia)) as (E & L & F).
    split; [exact E|]. split; [simpl length; lia|].
    constructor; [exact T1 | exact F].
Qed.

End AlwaysTools.

Section AskingModel.

Context {W : Type}.
Variable model : string.
Variable logging : bool.
Variable messages_create : Request -> W -> (Exn + Response) * W.
Variable now_isoformat : W -> string.
Variable tool_manager : option (ToolManager W).
Variable tools : option (list ToolDecl).
Variable max_iterations : Z.

Hypothesis model_asks : always_requests_tools messages_create.

Local Abbreviation dispatch :=
  (_dispatch_state W model logging messages_create now_isoformat).

(** With such a model a dispatch that returns never ends the run, whatever
    the tool manager is. *)
Lemma dispatch_asks_on cs last (st : Store W) tr st' :
  loop_ready cs last ->
  dispatch cs tools tool_manager last st = (inr tr, st') ->
  is_terminal (to_state tr) = false
  /\ loop_ready (to_state tr) (next_response tr last).
Proof.
  intros Hready D. pose proof (dispatch_row _ _ _ _ _ _ _ _ _ _ _ D) as [F Row].
  destruct cs; simpl in D, Hready; try contradiction.
  - destruct (model_asks (request_of model tools st) (env (world st)))
      as (r & e & E & T).
    rewrite (initial_returns _ _ _ _ _ _ E) in D. injection D as <- _.
    split; [reflexivity|]. simpl. exists r. split; [reflexivity | exact T].
  - destruct Hready as (r & -> & T). unfold _handle_tool_decision_state in D.
    rewrite (classify_tool_use logging _ _ st T) in D. injection D as <- _.
    split; [reflexivity | exact I].
  - destruct Row as [(F1 & _)|[(_ & E & _)|([F1|F1] & _)]]; try congruence.
    rewrite E. split; [reflexivity | exact I].
  - destruct (model_asks (request_of model tools st) (env (world st)))
      as (r & e & E & T).
    rewrite (follow_up_returns _ _ _ _ _ _ _ E) in D.
    rewrite (classify_tool_use logging _ _ _ T) in D. injection D as <- _.
    split; [reflexivity | exact I].
Qed.

(** With such a model, a run of the loop that is left normally has yielded
    exactly the transitions that the bound allows, none of them terminal. *)
Lemma loop_run_asks_on cs it last st ys ex st' :
  loop_run model logging messages_create now_isoformat tools tool_manager
    max_iterations cs it last st ys ex st' ->
  loop_ready cs last ->
  Forall (fun y => is_terminal (to_state (yield_transition y)) = false) ys
  /\ (forall cs' it',
         ex = LoopDone cs' it' ->
         Z.of_nat (length ys) = Z.max 0 (max_iterations - it)).
Proof.
  induction 1 as [cs it last st C | cs it last st e st' C D
                 | cs it last st tr st' C D T
                 | cs it last st tr st' ys ex st'' C D T R IH];
    intros Hready.
  - split; [constructor|]. intros cs' it' _.
    assert (N : is_terminal cs = false) by (destruct cs; simpl in *; tauto).
    rewrite N in C. simpl in C. apply Z.ltb_ge in C. simpl. lia.
  - split; [constructor | discriminate].
  - destruct (dispatch_asks_on cs last st tr st' Hready D) as [T1 _]. congruence.
  - destruct (dispatch_asks_on cs last st tr st' Hready D) as [T1 R1].
    apply andb_true_iff in C. destruct C as [_ C]. apply Z.ltb_lt in C.
    destruct (IH R1) as (F & L).
    split; [constructor; [exact T1 | exact F]|].
    intros cs' it' E. specialize (L cs' it' E). simpl length. lia.
Qed.

End AskingModel.




(** ** The bound and terminal transitions *)

(** When the generator is exhausted, the transition synthesized after the
    loop is yielded exactly when the loop has dispatched [max_iterations]
    transitions or more, whether or not the last of them was terminal: the
    state tested after the loop is the one the last handler was dispatched
    in, which is never terminal. *)
Lemma stream_cap_condition {W : Type} model logging
    (messages_create : Request -> W -> (Exn + Response) * W)
    (now_isoformat : W -> string)
    query history tools tool_manager max_iterations (w : World W) :
  let run := generate_response_stream W model logging messages_create
               now_isoformat query history tools tool_manager max_iterations w in
  completion run = Exhausted ->
  exists dispatched cs,
    Forall table_row dispatched
    /\ terminal_is_last dispatched
    /\ is_terminal cs = false
    /\ transitions run
       = (dispatched
            ++ if Z.of_nat (length dispatched) >=? max_iterations
               then [max_iterations_transition cs max_iterations]
               else [])%list.
Proof.
  simpl.
  destruct (stream_is_loop_run model logging messages_create now_isoformat
              query history tools tool_manager max_iterations w)
    as (ys & ex & st & R & ->).
  pose proof (loop_run_rows _ _ _ _ _ _ _ _ _ _ _ _ _ _ R) as Rows.
  pose proof (loop_run_terminal _ _ _ _ _ _ _ _ _ _ _ _ _ _ R) as Last.
  pose proof (loop_run_done _ _ _ _ _ _ _ _ _ _ _ _ _ _ R eq_refl) as Done.
  destruct ex as [cs it|x|]; simpl; try discriminate.
  destruct (Done cs it eq_refl) as [-> N]. rewrite N, andb_true_r. simpl.
  intros _. exists (map yield_transition ys), cs.
  split; [rewrite Forall_map; exact Rows|]. split.
  - intros pre t post E T.
    apply map_eq_app in E. destruct E as (ys1 & ys2 & -> & <- & E).
    destruct ys2 as [|y ys2]; [discriminate|]. simpl in E. injection E as <- <-.
    destruct (Last ys1 y ys2 eq_refl T) as (-> & _). reflexivity.
  - split; [exact N|]. rewrite length_map. unfold transitions.
    destruct (Z.of_nat (length ys) >=? max_iterations); simpl.
    + rewrite map_app. reflexivity.
    + rewrite app_nil_r. reflexivity.
Qed.

(** C1 fails on the code.  With [max_iterations = 2], no tools, and a model
    that answers ["4"] at once, the run reaches COMPLETED on its second
    dispatched state and the generator then still yields the synthesized
    ERROR transition: a transition follows a terminal one. *)
Theorem C1_completed_then_synthesized_error :
  let run := Scripted.stream "What is 2+2?" None None None 2
               (Scripted.start [Scripted.answer]) in
  completion run = Exhausted
  /\ transitions run
     = [ {| from_state := INITIAL;
            to_state := AWAITING_TOOL_DECISION;
            trigger := "api_call_complete";
            data := DataResponse Scripted.answer |};
         {| from_state := AWAITING_TOOL_DECISION;
            to_state := COMPLETED;
            trigger := "end_turn";
            data := DataFinal (Some "4") Scripted.answer |};
         {| from_state := AWAITING_TOOL_DECISION;
            to_state := ERROR;
            trigger := "max_iterations_exceeded";
            data := DataError "Exceeded 2 iterations without completion" |} ]
  /\ ~ terminal_is_last (transitions run).
Proof.
  split; [reflexivity|]. split; [reflexivity|].
  intros H.
  specialize (H [ {| from_state := INITIAL;
                     to_state := AWAITING_TOOL_DECISION;
                     trigger := "api_call_complete";
                     data := DataResponse Scripted.answer |} ]
                {| from_state := AWAITING_TOOL_DECISION;
                   to_state := COMPLETED;
                   trigger := "end_turn";
                   data := DataFinal (Some "4") Scripted.answer |}
                [ {| from_state := AWAITING_TOOL_DECISION;
                     to_state := ERROR;
                     trigger := "max_iterations_exceeded";
                     data := DataError "Exceeded 2 iterations without completion" |} ]
                eq_refl eq_refl).
  discriminate.
Qed.

(** ** The single-shot path against the state machine *)

Section Subsumption.

Context {W : Type}.
Variable model : string.
Variable logging : bool.
Variable messages_create : Request -> W -> (Exn + Response) * W.
Variable now_isoformat : W -> string.
Variable tools : option (list ToolDecl).
Variable tool_manager : option (ToolManager W).
Variable max_iterations : Z.

Local Abbreviation dispatch :=
  (_dispatch_state W model logging messages_create now_isoformat).
Local Abbreviation run_of :=
  (loop_run model logging messages_create now_isoformat tools tool_manager
     max_iterations).
Local Abbreviation classify := (classify_response W logging).
Local Abbreviation async_blocks := (execute_tool_blocks W now_isoformat).

(** A run of the loop that yields something starts with a dispatch. *)
Lemma loop_run_cons cs it last st y ys ex st' :
  run_of cs it last st (y :: ys) ex st' ->
  dispatch cs tools tool_manager last st = (inr (yield_transition y), yield_store y)
  /\ ((is_terminal (to_state (yield_transition y)) = true
       /\ ys = [] /\ st' = yield_store y)
      \/ (is_terminal (to_state (yield_transition y)) = false
          /\ run_of (to_state (yield_transition y)) (it + 1)
               (next_response (yield_transition y) last) (yield_store y) ys ex st')).
Proof.
  inversion 1; subst; simpl; (split; [assumption|]); [left | right]; auto.
Qed.

Lemma classify_end_turn_inv from r (st : Store W) tr st' :
  classify from r st = (inr tr, st') ->
  trigger tr = "end_turn" ->
  stop_reason r = "end_turn"
  /\ tr = {| from_state := from; to_state := COMPLETED; trigger := "end_turn";
             data := DataFinal (extract_text (content r)) r |}
  /\ st' = st.
Proof.
  intros C T.
  destruct (String.eqb_spec (stop_reason r) "end_turn") as [E|N].
  - rewrite (classify_end_turn logging from r st E) in C.
    injection C as <- <-. auto.
  - exfalso. unfold classify_response in C.
    apply String.eqb_neq in N. rewrite N in C.
    destruct (stop_reason r =? "tool_use")%string.
    + destruct logging; run_monad; injection C as <- _; discriminate.
    + destruct (stop_reason r =? "max_tokens")%string;
        injection C as <- _; discriminate.
Qed.

Lemma classify_tool_use_inv from r (st : Store W) tr st' :
  classify from r st = (inr tr, st') ->
  trigger tr = "tool_use" ->
  stop_reason r = "tool_use"
  /\ tr = {| from_state := from; to_state := EXECUTING_TOOLS; trigger := "tool_use";
             data := DataToolUse r (content r) |}
  /\ st' = after_tool_use logging r st.
Proof.
  intros C T.
  destruct (String.eqb_spec (stop_reason r) "tool_use") as [E|N].
  - rewrite (classify_tool_use logging from r st E) in C.
    injection C as <- <-. auto.
  - exfalso. unfold classify_response in C.
    apply String.eqb_neq in N. rewrite N in C.
    destruct (stop_reason r =? "end_turn")%string;
      [injection C as <- _; discriminate|].
    destruct (stop_reason r =? "max_tokens")%string;
      injection C as <- _; discriminate.
Qed.

(** The loop over the tool blocks leaves the messages and the system prompt
    alone. *)
Lemma async_blocks_messages blocks :
  forall acc (st : Store W) res st',
    async_blocks tool_manager blocks acc st = (res, st') ->
    messages (context st') = messages (context st)
    /\ system_prompt (context st') = system_prompt (context st).
Proof.
  induction blocks as [|b blocks IH]; intros acc st res st' H.
  - injection H as _ <-. auto.
  - destruct b as [t | id name tool_input | t s | d];
      try (simpl in H; eapply IH; exact H).
    destruct tool_manager as [execute_tool|].
    + destruct (execute_tool name (PositionalInput tool_input) (env (world st)))
        as [[x|r] e] eqn:E.
      * simpl in H. unfold _execute_tool_async in H. run_monad. rewrite E in H.
        injection H as _ <-. auto.
      * rewrite (run_blocks_tool now_isoformat _ _ _ _ _ _ _ _ _ E) in H.
        apply IH in H. exact H.
    + simpl in H. unfold _execute_tool_async in H. run_monad.
      injection H as _ <-. auto.
Qed.

(** The loop of the single-shot path only depends on the environment. *)
Lemma sync_blocks_env blocks :
  forall acc (w w' : World W),
    env w = env w' ->
    fst (execute_tool_blocks_sync W tool_manager blocks acc w)
      = fst (execute_tool_blocks_sync W tool_manager blocks acc w')
    /\ env (snd (execute_tool_blocks_sync W tool_manager blocks acc w))
       = env (snd (execute_tool_blocks_sync W tool_manager blocks acc w')).
Proof.
  induction blocks as [|b blocks IH]; intros acc w w' E.
  - simpl. auto.
  - destruct b as [t | id name tool_input | t s | d]; try (simpl; apply IH; exact E).
    simpl. destruct tool_manager as [execute_tool|]; run_monad.
    + rewrite <- E.
      destruct (execute_tool name (KeywordInput tool_input) (env w)) as [[x|r] e];
        simpl; auto.
    + auto.
Qed.

End Subsumption.

Lemma filter_dispatched (l : list string) :
  Forall (fun s => s <> "max_iterations_exceeded") l ->
  filter (fun s => negb (s =? "max_iterations_exceeded")%string) l = l.
Proof.
  induction 1 as [|s l N _ IH]; [reflexivity|].
  simpl. apply String.eqb_neq in N. rewrite N. simpl. rewrite IH. reflexivity.
Qed.

(** What a run yields is what its loop yielded, followed by the synthesized
    transition or by nothing; its dispatched triggers are those of the
    loop. *)
Lemma after_loop_dispatched {W : Type} (max_iterations : Z) (ys : list (Yield W))
    (ex : LoopExit) (st : Store W) :
  Forall (fun y => table_row (yield_transition y)) ys ->
  dispatched_triggers (after_loop max_iterations ys ex st)
    = map trigger (map yield_transition ys)
  /\ final_store (after_loop max_iterations ys ex st) = st
  /\ exists tail,
       yielded (after_loop max_iterations ys ex st) = (ys ++ tail)%list
       /\ Forall (fun y => exists cs,
                    yield_transition y = max_iterations_transition cs max_iterations)
                 tail.
Proof.
  intros Rows.
  assert (Plain : filter (fun s => negb (s =? "max_iterations_exceeded")%string)
                    (map trigger (map yield_transition ys))
                  = map trigger (map yield_transition ys)).
  { apply filter_dispatched. rewrite !Forall_map.
    eapply Forall_impl; [|exact Rows]. intros y. apply table_row_not_synthesized. }
  assert (None_added : dispatched_triggers
                         {| yielded := ys; completion := Exhausted; final_store := st |}
                       = map trigger (map yield_transition ys)
                       /\ exists tail : list (Yield W),
                            ys = (ys ++ tail)%list
                            /\ Forall (fun y => exists cs,
                                         yield_transition y
                                         = max_iterations_transition cs max_iterations)
                                      tail).
  { split; [exact Plain|]. exists []. rewrite app_nil_r. split; [reflexivity | constructor]. }
  unfold dispatched_triggers, transitions in *.
  destruct ex as [cs it|x|]; simpl.
  - destruct ((it >=? max_iterations) && negb (is_terminal cs)); simpl.
    + split.
      * rewrite !map_app, filter_app, Plain. simpl. apply app_nil_r.
      * split; [reflexivity|]. eexists. split; [reflexivity|].
        constructor; [exists cs; reflexivity | constructor].
    + split; [apply None_added|]. split; [reflexivity | apply None_added].
  - split; [apply None_added|]. split; [reflexivity | apply None_added].
  - split; [apply None_added|]. split; [reflexivity | apply None_added].
Qed.

Section SubsumptionSteps.

Context {W : Type}.
Variable model : string.
Variable logging : bool.
Variable messages_create : Request -> W -> (Exn + Response) * W.
Variable now_isoformat : W -> string.
Variable tools : option (list ToolDecl).
Variable tool_manager : option (ToolManager W).
Variable max_iterations : Z.

Local Abbreviation run_of :=
  (loop_run model logging messages_create now_isoformat tools tool_manager
     max_iterations).

(** The first step of a run: the call to the model service. *)
Lemma initial_step it last (st0 : Store W) y ys ex st :
  run_of INITIAL it last st0 (y :: ys) ex st ->
  exists r1 e1,
    messages_create (request_of model tools st0) (env (world st0)) = (inr r1, e1)
    /\ yield_transition y
       = {| from_state := INITIAL; to_state := AWAITING_TOOL_DECISION;
            trigger := "api_call_complete"; data := DataResponse r1 |}
    /\ yield_store y = after_model_call model tools st0 e1
    /\ run_of AWAITING_TOOL_DECISION (it + 1) (Some r1) (yield_store y) ys ex st.
Proof.
  intros R. apply loop_run_cons in R. destruct R as [D R]. simpl in D.
  destruct (messages_create (request_of model tools st0) (env (world st0)))
    as [[x|r1] e1] eqn:E.
  - rewrite (initial_raises _ _ _ _ _ _ E) in D. discriminate.
  - rewrite (initial_returns _ _ _ _ _ _ E) in D. injection D as D1 D2.
    exists r1, e1. rewrite <- D1 in R. simpl in R.
    destruct R as [(T & _)|(_ & R)]; [discriminate|].
    repeat split; auto.
Qed.

(** A decision step that ends the run with [end_turn]. *)
Lemma final_step cs it r (st1 : Store W) y ys ex st :
  cs = AWAITING_TOOL_DECISION \/ cs = AWAITING_FOLLOW_UP ->
  run_of cs it (Some r) st1 (y :: ys) ex st ->
  trigger (yield_transition y) = "end_turn" ->
  exists r' st',
    (cs = AWAITING_TOOL_DECISION /\ r' = r /\ st' = st1
     \/ cs = AWAITING_FOLLOW_UP
        /\ exists e, messages_create (request_of model tools st1) (env (world st1))
                     = (inr r', e)
                     /\ st' = after_model_call model tools st1 e)
    /\ stop_reason r' = "end_turn"
    /\ yield_transition y
       = {| from_state := cs; to_state := COMPLETED; trigger := "end_turn";
            data := DataFinal (extract_text (content r')) r' |}
    /\ ys = [] /\ st = st'.
Proof.
  intros Hcs R T. apply loop_run_cons in R. destruct R as [D R].
  destruct Hcs as [-> | ->]; simpl in D.
  - unfold _handle_tool_decision_state in D.
    destruct (classify_end_turn_inv logging _ _ _ _ _ D T) as (S & Y & Z).
    exists r, st1. split; [left; auto|]. split; [exact S|]. split; [exact Y|].
    rewrite Y in R. simpl in R.
    destruct R as [(_ & -> & ->)|(F & _)]; [auto | discriminate].
  - destruct (messages_create (request_of model tools st1) (env (world st1)))
      as [[x|r'] e] eqn:E.
    + rewrite (follow_up_raises _ _ _ _ _ _ _ E) in D. discriminate.
    + rewrite (follow_up_returns _ _ _ _ _ _ _ E) in D.
      destruct (classify_end_turn_inv logging _ _ _ _ _ D T) as (S & Y & Z).
      exists r', (after_model_call model tools st1 e).
      split; [right; split; [reflexivity|]; exists e; auto|].
      split; [exact S|]. split; [exact Y|].
      rewrite Y in R. simpl in R.
      destruct R as [(_ & -> & ->)|(F & _)]; [auto | discriminate].
Qed.

(** A decision step that asks for tools. *)
Lemma decision_tool_step it r1 (st1 : Store W) y ys ex st :
  run_of AWAITING_TOOL_DECISION it (Some r1) st1 (y :: ys) ex st ->
  trigger (yield_transition y) = "tool_use" ->
  stop_reason r1 = "tool_use"
  /\ yield_transition y
     = {| from_state := AWAITING_TOOL_DECISION; to_state := EXECUTING_TOOLS;
          trigger := "tool_use"; data := DataToolUse r1 (content r1) |}
  /\ yield_store y = after_tool_use logging r1 st1
  /\ run_of EXECUTING_TOOLS (it + 1) (Some r1) (yield_store y) ys ex st.
Proof.
  intros R T. apply loop_run_cons in R. destruct R as [D R]. simpl in D.
  unfold _handle_tool_decision_state in D.
  destruct (classify_tool_use_inv logging _ _ _ _ _ D T) as (S & Y & Z).
  rewrite Y in R. simpl in R.
  destruct R as [(F & _)|(_ & R)]; [discriminate | auto].
Qed.

(** A tool-execution step. *)
Lemma tools_step it r1 (st2 : Store W) y ys ex st :
  run_of EXECUTING_TOOLS it (Some r1) st2 (y :: ys) ex st ->
  exists tool_results st3,
    execute_tool_blocks W now_isoformat tool_manager (content r1) [] st2
      = (inr tool_results, st3)
    /\ yield_transition y
       = {| from_state := EXECUTING_TOOLS; to_state := AWAITING_FOLLOW_UP;
            trigger := "tools_executed"; data := DataToolResults tool_results |}
    /\ yield_store y = after_tool_results tool_results st3
    /\ run_of AWAITING_FOLLOW_UP (it + 1) (Some r1) (yield_store y) ys ex st.
Proof.
  intros R. apply loop_run_cons in R. destruct R as [D R]. simpl in D.
  unfold _handle_tool_execution_state, bind in D.
  destruct (execute_tool_blocks W now_isoformat tool_manager (content r1) [] st2)
    as [[x|tool_results] st3]; [discriminate|].
  exists tool_results, st3. split; [reflexivity|].
  assert (Y : yield_transition y
              = {| from_state := EXECUTING_TOOLS; to_state := AWAITING_FOLLOW_UP;
                   trigger := "tools_executed";
                   data := DataToolResults tool_results |}
              /\ yield_store y = after_tool_results tool_results st3).
  { destruct tool_results; run_monad; injection D as <- <-; split; reflexivity. }
  destruct Y as [Y1 Y2]. rewrite Y1 in R. simpl in R.
  destruct R as [(F & _)|(_ & R)]; [discriminate | auto].
Qed.

End SubsumptionSteps.

(** C8, as it is stated, fails.  When the model answers at once with
    [end_turn] and an empty content, the state machine completes with an
    absent final text, and the single-shot path raises [IndexError]; when the
    answer starts with a block that bears no text, the state machine
    completes with the first text of the answer, and the single-shot path
    raises [AttributeError].  In neither run does the single-shot path return
    the final text of the COMPLETED transition.

    Three more runs with one tool round, all completing with a text answer,
    separate the two paths.  The single-shot path leaves the tool
    declarations out of its second request, so a model service that looks at
    them answers it otherwise.  It passes the input of a tool as keyword
    arguments where the state machine passes one mapping, so an executor
    that takes the mapping only fails there.  And without a tool manager it
    returns the text of the response that asked for tools, where the state
    machine goes on to the follow-up call. *)
Lemma C8_single_shot_raises_where_machine_completes :
  (let run := Scripted.stream "What is 2+2?" None None None 10
                (Scripted.start [Scripted.empty_answer]) in
   let single := Scripted.single_shot "What is 2+2?" None None None
                   (Scripted.start [Scripted.empty_answer]) in
   map trigger (transitions run) = ["api_call_complete"; "end_turn"]
   /\ drive_to_completion run = Some None
   /\ fst single = inl IndexError
   /\ ~ (forall final_text,
           drive_to_completion run = Some final_text ->
           exists text, fst single = inr text /\ final_text = Some text))
  /\ (let run := Scripted.stream "What is 2+2?" None None None 10
                   (Scripted.start [Scripted.thought_then_answer]) in
      let single := Scripted.single_shot "What is 2+2?" None None None
                      (Scripted.start [Scripted.thought_then_answer]) in
      map trigger (transitions run) = ["api_call_complete"; "end_turn"]
      /\ drive_to_completion run = Some (Some "4")
      /\ fst single = inl AttributeError)
  /\ (let w := {| env := 0%nat; port_calls := []; stdout := [] |} in
      let execute_tool : ToolManager nat :=
        fun name _ e => (inr ("result-" ++ name), e) in
      let run := generate_response_stream nat "claude" true Faulty.tool_aware
                   (fun _ => "2025-01-01T00:00:00") "What is MCP?" None
                   (Some ["search"]) (Some execute_tool) 10 w in
      let single := generate_response nat "claude" Faulty.tool_aware
                      "What is MCP?" None (Some ["search"]) (Some execute_tool) w in
      map trigger (transitions run)
        = ["api_call_complete"; "tool_use"; "tools_executed"; "end_turn"]
      /\ drive_to_completion run = Some (Some "Found it.")
      /\ fst single = inr "I have no tools.")
  /\ (let w := Scripted.start [Scripted.bare_search_request; Scripted.answer] in
      let run := Scripted.stream "What is 2+2?" None (Some ["search"])
                   (Some Faulty.positional_only) 10 w in
      let single := Scripted.single_shot "What is 2+2?" None (Some ["search"])
                      (Some Faulty.positional_only) w in
      map trigger (transitions run)
        = ["api_call_complete"; "tool_use"; "tools_executed"; "end_turn"]
      /\ drive_to_completion run = Some (Some "4")
      /\ fst single
         = inl (PortFailure "TypeError: unexpected keyword argument"))
  /\ (let w := Scripted.start [Scripted.toolless_request; Scripted.answer] in
      let run := Scripted.stream "What is 2+2?" None (Some ["search"]) None 10 w in
      let single := Scripted.single_shot "What is 2+2?" None (Some ["search"])
                      None w in
      map trigger (transitions run)
        = ["api_call_complete"; "tool_use"; "tools_executed"; "end_turn"]
      /\ drive_to_completion run = Some (Some "4")
      /\ fst single = inr "I would search.").
Proof.
  split; [|split; [|split; [|split]]].
  - split; [reflexivity|]. split; [reflexivity|]. split; [reflexivity|].
    intros H. destruct (H None eq_refl) as (text & _ & E). discriminate.
  - split; [reflexivity|]. split; reflexivity.
  - split; [reflexivity|]. split; reflexivity.
  - split; [reflexivity|]. split; reflexivity.
  - split; [reflexivity|]. split; reflexivity.
Qed.

(** C8 (amended): take a run of [generate_response_stream] with at most one
    tool round that completes naturally: its dispatched transitions have the
    triggers [api_call_complete, end_turn], or [api_call_complete, tool_use,
    tools_executed, end_turn] with a tool manager supplied (the transition
    synthesized after the loop may follow them).  Let its final response
    start with a text block; let the executor answer the tool calls of the
    run as it would have, had their input been passed as keyword arguments
    (the state machine passes the input as one mapping, the single-shot path
    as keyword arguments); and let the model service answer the follow-up
    request of the run alike with and without its tool declarations (the
    single-shot path leaves them out of its second call).  Then [generate_response], on the same inputs and
    from the same world, returns exactly the final text of the COMPLETED
    transition, and leaves the environment of the collaborators as the state
    machine does. *)
Theorem C8_single_shot_agrees_on_text_answers :
  forall (W : Type) model logging
         (messages_create : Request -> W -> (Exn + Response) * W)
         (now_isoformat : W -> string)
         query history tools (tool_manager : option (ToolManager W))
         max_iterations (w : World W),
    let run := generate_response_stream W model logging messages_create
                 now_isoformat query history tools tool_manager max_iterations w in
    let single := generate_response W model messages_create query history tools
                    tool_manager w in
    dispatched_triggers run = ["api_call_complete"; "end_turn"]
    \/ (dispatched_triggers run
          = ["api_call_complete"; "tool_use"; "tools_executed"; "end_turn"]
        /\ tool_manager <> None) ->
    (forall y r blocks,
        In y (yielded run) ->
        data (yield_transition y) = DataToolUse r blocks ->
        conventions_agree tool_manager blocks (env (world (yield_store y)))) ->
    (forall y,
        In y (yielded run) ->
        trigger (yield_transition y) = "tools_executed" ->
        messages_create (request_of model tools (yield_store y))
          (env (world (yield_store y)))
        = messages_create (without_tools (request_of model tools (yield_store y)))
            (env (world (yield_store y)))) ->
    forall tr final_text final_response t rest,
      In tr (transitions run) ->
      data tr = DataFinal final_text final_response ->
      content final_response = TextBlock t :: rest ->
      drive_to_completion run = Some (Some t)
      /\ fst single = inr t
      /\ env (snd single) = env (world (final_store run)).
Proof.
  intros W model logging messages_create now_isoformat query history tools
    tool_manager max_iterations w run single Htrig Hagree Hloc tr final_text
    final_response t rest Hin Hdata Hcontent.
  destruct (stream_is_loop_run model logging messages_create now_isoformat
              query history tools tool_manager max_iterations w)
    as (ys & ex & st & R & E).
  subst run. unfold drive_to_completion. rewrite E in *. clear E.
  pose proof (loop_run_rows _ _ _ _ _ _ _ _ _ _ _ _ _ _ R) as Rows.
  destruct (after_loop_dispatched max_iterations ys ex st Rows)
    as (ED & EF & tail & EY & Tail).
  rewrite ED in Htrig. rewrite EF. unfold transitions in *.
  rewrite EY in Hin, Hagree, Hloc |- *. clear ED EF EY Rows.
  assert (Hfinal : forall front,
             In tr (front ++ map yield_transition tail)%list -> In tr front).
  { intros front H. apply in_app_or in H. destruct H as [H|H]; [exact H|].
    exfalso. apply in_map_iff in H. destruct H as (y & <- & Hy).
    rewrite Forall_forall in Tail. destruct (Tail y Hy) as (cs & Ey).
    rewrite Ey in Hdata. discriminate. }
  rewrite map_app in Hin. apply Hfinal in Hin. clear Hfinal Tail.
  destruct Htrig as [Htrig|[Htrig Htm]].
  - destruct ys as [|y1 [|y2 [|y3 ys]]]; try discriminate.
    simpl in Htrig. injection Htrig as T1 T2.
    apply initial_step in R. destruct R as (r1 & e1 & M1 & Y1 & S1 & R).
    eapply final_step in R; [|left; reflexivity|exact T2].
    destruct R as (r' & st' & [(_ & -> & ->)|(F & _)] & SR & Y2 & _ & ->);
      [|discriminate].
    simpl in Hin. rewrite Y1, Y2 in Hin.
    destruct Hin as [<-|[<-|[]]]; [discriminate|].
    simpl in Hdata. injection Hdata as _ <-.
    simpl. rewrite Y1, Y2. simpl. rewrite Hcontent. split; [reflexivity|].
    subst single. unfold generate_response. run_monad.
    unfold request_of, initial_store in M1. simpl in M1. rewrite M1, SR. simpl.
    unfold first_block_text. rewrite Hcontent. rewrite S1. split; reflexivity.
  - destruct ys as [|y1 [|y2 [|y3 [|y4 [|y5 ys]]]]]; try discriminate.
    simpl in Htrig. injection Htrig as T1 T2 T3 T4.
    apply initial_step in R. destruct R as (r1 & e1 & M1 & Y1 & S1 & R).
    apply decision_tool_step in R; [|exact T2].
    destruct R as (SR1 & Y2 & S2 & R).
    apply tools_step in R. destruct R as (tool_results & st3 & B & Y3 & S3 & R).
    eapply final_step in R; [|right; reflexivity|exact T4].
    destruct R as (r2 & st' & [(F & _)|(_ & e2 & M2 & ->)] & SR2 & Y4 & _ & ->);
      [discriminate|].
    assert (Agree : conventions_agree tool_manager (content r1)
                      (env (world (yield_store y2)))).
    { apply (Hagree y2 r1).
      - simpl. right. left. reflexivity.
      - rewrite Y2. reflexivity. }
    rewrite (Hloc y3) in M2;
      [|simpl; right; right; left; reflexivity | exact T3].
    clear Hagree Hloc.
    simpl in Hin. rewrite Y1, Y2, Y3, Y4 in Hin.
    destruct Hin as [<-|[<-|[<-|[<-|[]]]]]; try discriminate.
    simpl in Hdata. injection Hdata as _ <-.
    simpl. rewrite Y1, Y2, Y3, Y4. simpl. rewrite Hcontent. split; [reflexivity|].
    destruct tool_manager as [execute_tool|]; [clear Htm | congruence].
    subst single. unfold generate_response. run_monad.
    unfold request_of, initial_store in M1. simpl in M1. rewrite M1, SR1. simpl.
    unfold _handle_tool_execution. run_monad.
    match goal with
    | |- context [execute_tool_blocks_sync W ?tm ?b ?a ?w0] =>
        pose proof (sync_blocks_env tm b a w0 (world (yield_store y2))) as SE;
        destruct (execute_tool_blocks_sync W tm b a w0) as [s0 w2] eqn:SY
    end.
    rewrite (sync_blocks_async now_isoformat (Some execute_tool) (content r1) []
               (yield_store y2) Agree), B in SE. simpl in SE.
    destruct SE as [-> SE].
    { rewrite S2, S1. unfold after_tool_use. destruct logging; reflexivity. }
    assert (Hmsgs : messages (context st3)
                    = [ {| role := user; message_content := ContentQuery query |};
                        {| role := assistant;
                           message_content := ContentBlocks (content r1) |} ]
                    /\ system_prompt (context st3) = build_system_content history).
    { destruct (async_blocks_messages now_isoformat _ _ _ _ _ _ B) as [A1 A2].
      rewrite A1, A2, S2, S1. split; reflexivity. }
    destruct Hmsgs as [Hmsgs Hsys].
    rewrite S3 in M2.
    assert (Hw : env (world (after_tool_results tool_results st3)) = env w2).
    { rewrite SE. destruct tool_results; reflexivity. }
    rewrite Hw in M2.
    unfold without_tools, request_of in M2. simpl in M2.
    assert (Hm : messages (context (after_tool_results tool_results st3))
                 = match tool_results with
                   | [] =>
                       [ {| role := user; message_content := ContentQuery query |};
                         {| role := assistant;
                            message_content := ContentBlocks (content r1) |} ]
                   | _ :: _ =>
                       [ {| role := user; message_content := ContentQuery query |};
                         {| role := assistant;
                            message_content := ContentBlocks (content r1) |};
                         {| role := user;
                            message_content := ContentToolResults tool_results |} ]
                   end).
    { destruct tool_results; simpl; rewrite Hmsgs; reflexivity. }
    assert (Hs : system_prompt (context (after_tool_results tool_results st3))
                 = build_system_content history).
    { destruct tool_results; simpl; exact Hsys. }
    rewrite Hm, Hs in M2. rewrite M2. simpl.
    unfold first_block_text. rewrite Hcontent. simpl.
    split; reflexivity.
Qed.

(** One round with a search and an outline, then the answer ["4"], under a
    bound of four dispatches: the state machine completes on its fourth
    dispatch and yields the synthesized transition after it; both entry
    points give ["4"]. *)
Lemma C8_single_shot_agrees_on_text_answers_witness :
  let run := Scripted.stream "What is 2+2?" None (Some ["search"; "outline"])
               (Some Scripted.execute_tool) 4
               (Scripted.start [Scripted.search_request; Scripted.answer]) in
  let single := Scripted.single_shot "What is 2+2?" None (Some ["search"; "outline"])
                  (Some Scripted.execute_tool)
                  (Scripted.start [Scripted.search_request; Scripted.answer]) in
  map trigger (transitions run)
    = ["api_call_complete"; "tool_use"; "tools_executed"; "end_turn";
       "max_iterations_exceeded"]
  /\ drive_to_completion run = Some (Some "4") /\ fst single = inr "4".
Proof.
  assert (Agree : forall blocks e,
             conventions_agree_from Scripted.execute_tool blocks e).
  { induction blocks as [|b blocks IH]; intros e; [exact I|].
    destruct b; simpl; try apply IH. split; [reflexivity | apply IH]. }
  pose proof (C8_single_shot_agrees_on_text_answers Scripted.W "claude" true
                Scripted.messages_create Scripted.now_isoformat
                "What is 2+2?" None (Some ["search"; "outline"])
                (Some Scripted.execute_tool) 4
                (Scripted.start [Scripted.search_request; Scripted.answer]))
    as Same.
  cbv zeta in Same.
  assert (Htrig : dispatched_triggers
                    (generate_response_stream Scripted.W "claude" true
                       Scripted.messages_create Scripted.now_isoformat
                       "What is 2+2?" None (Some ["search"; "outline"])
                       (Some Scripted.execute_tool) 4
                       (Scripted.start [Scripted.search_request; Scripted.answer]))
                  = ["api_call_complete"; "tool_use"; "tools_executed"; "end_turn"])
    by (vm_compute; reflexivity).
  specialize (Same (or_intror (conj Htrig
                                 (fun E : Some Scripted.execute_tool = None =>
                                    match E with end)))
                (fun y r blocks _ _ => Agree blocks _)
                (fun y _ _ => eq_refl)
                {| from_state := AWAITING_FOLLOW_UP;
                   to_state := COMPLETED;
                   trigger := "end_turn";
                   data := DataFinal (Some "4") Scripted.answer |}
                (Some "4") Scripted.answer "4" []).
  assert (Hin : In {| from_state := AWAITING_FOLLOW_UP;
                      to_state := COMPLETED;
                      trigger := "end_turn";
                      data := DataFinal (Some "4") Scripted.answer |}
                  (transitions
                     (generate_response_stream Scripted.W "claude" true
                        Scripted.messages_create Scripted.now_isoformat
                        "What is 2+2?" None (Some ["search"; "outline"])
                        (Some Scripted.execute_tool) 4
                        (Scripted.start
                           [Scripted.search_request; Scripted.answer])))).
  { vm_compute. right. right. right. left. reflexivity. }
  destruct (Same Hin eq_refl eq_refl) as (D & S & _).
  split; [vm_compute; reflexivity|]. split; [exact D | exact S].
Defined.

(** * Further properties of the code *)

(** ** Accounts *)

Lemma count_from_app (n m : nat) :
  forall start,
    count_from start (n + m)
    = (count_from start n ++ count_from (start + Z.of_nat n) m)%list.
Proof.
  induction n as [|n IH]; intros start.
  - simpl. rewrite Z.add_0_r. reflexivity.
  - change (S n + m)%nat with (S (n + m)). simpl count_from at 1.
    rewrite IH. simpl count_from at 3. simpl app.
    replace (start + 1 + Z.of_nat n) with (start + Z.of_nat (S n)) by lia.
    reflexivity.
Qed.

Lemma model_requests_app (a b : list PortCall) :
  model_requests (a ++ b) = (model_requests a ++ model_requests b)%list.
Proof. unfold model_requests. apply flat_map_app. Qed.

Lemma tool_calls_app (a b : list PortCall) :
  tool_calls (a ++ b) = (tool_calls a ++ tool_calls b)%list.
Proof. unfold tool_calls. apply filter_app. Qed.

Lemma tool_calls_entries (new : list ToolCallRecord) :
  tool_calls (map entry_call new) = map entry_call new.
Proof.
  unfold tool_calls.
  induction new as [|e new IH]; simpl; [reflexivity|]. rewrite IH. reflexivity.
Qed.

Lemma model_requests_entries (new : list ToolCallRecord) :
  model_requests (map entry_call new) = [].
Proof. induction new as [|e new IH]; simpl; [reflexivity | exact IH]. Qed.

Lemma ledger_refl {W : Type} model tools (st : Store W) (closed : bool) :
  ledger model tools st st [] 0 0 closed.
Proof.
  unfold ledger. rewrite app_nil_r. repeat split.
  exists [], [], []. simpl. rewrite !app_nil_r.
  repeat split; auto; try lia; constructor.
Qed.

Lemma ledger_trans {W : Type} model tools (a b c : Store W)
    turns1 turns2 results1 results2 steps1 steps2 closed :
  ledger model tools a b turns1 results1 steps1 true ->
  ledger model tools b c turns2 results2 steps2 closed ->
  ledger model tools a c (turns1 ++ turns2) (results1 + results2)
    (steps1 + steps2) closed.
Proof.
  intros (M1 & S1 & D1 & I1 & new1 & calls1 & extra1
            & H1 & C1 & X1 & P1 & T1 & L1 & K1 & N1 & R1)
         (M2 & S2 & D2 & I2 & new2 & calls2 & extra2
            & H2 & C2 & X2 & P2 & T2 & L2 & K2 & N2 & R2).
  destruct (K1 eq_refl) as [-> K1'].
  unfold ledger.
  split; [rewrite M2, M1, app_assoc; reflexivity|].
  split; [congruence|]. split; [congruence|]. split; [congruence|].
  exists (new1 ++ new2)%list, (calls1 ++ calls2)%list, extra2.
  split; [rewrite H2, H1, app_assoc; reflexivity|].
  split; [rewrite C2, C1, length_app; lia|].
  split; [rewrite map_app, length_app, count_from_app, X1, X2, C1; reflexivity|].
  split; [rewrite P2, P1, app_assoc; reflexivity|].
  split; [rewrite tool_calls_app, T1, T2, map_app, app_nil_r, app_assoc;
          reflexivity|].
  split; [exact L2|].
  split; [intros E; destruct (K2 E) as [-> K2']; split;
          [reflexivity | rewrite length_app; lia]|].
  split; [rewrite model_requests_app, length_app; lia|].
  rewrite model_requests_app. apply Forall_app. split; [exact R1|].
  eapply Forall_impl; [|exact R2]. simpl.
  intros req (B & Y & more & E). split; [exact B|]. split; [congruence|].
  exists (turns1 ++ more)%list. rewrite E, M1, app_assoc. reflexivity.
Qed.


Lemma only_tool_calls (l : list PortCall) :
  Forall (fun c => is_tool_call c = true) l ->
  tool_calls l = l /\ model_requests l = [].
Proof.
  unfold tool_calls. induction 1 as [|c l Hc _ [IH1 IH2]]; simpl; [auto|].
  rewrite Hc, IH1. destruct c; [discriminate|]. simpl. auto.
Qed.

Lemma ledger_more_steps {W : Type} model tools (st st' : Store W)
    turns results steps steps' closed :
  ledger model tools st st' turns results steps closed ->
  (steps <= steps')%nat ->
  ledger model tools st st' turns results steps' closed.
Proof.
  intros (M & S & D & R & new & calls & extra
            & H1 & C1 & X1 & P1 & T1 & L1 & K1 & N1 & R1) Hle.
  split; [exact M|]. split; [exact S|]. split; [exact D|]. split; [exact R|].
  exists new, calls, extra. repeat split; auto; try apply K1; auto. lia.
Qed.

Section LedgerFacts.

Context {W : Type}.
Variable model : string.
Variable logging : bool.
Variable messages_create : Request -> W -> (Exn + Response) * W.
Variable now_isoformat : W -> string.
Variable tools : option (list ToolDecl).
Variable tool_manager : option (ToolManager W).

Local Abbreviation dispatch :=
  (_dispatch_state W model logging messages_create now_isoformat).
Local Abbreviation run_blocks := (execute_tool_blocks W now_isoformat).

(** What the loop over the tool blocks does, whether it returns or raises. *)
Lemma run_blocks_account blocks :
  forall acc (st : Store W) res st',
    run_blocks tool_manager blocks acc st = (res, st') ->
    messages (context st') = messages (context st)
    /\ system_prompt (context st') = system_prompt (context st)
    /\ metadata (context st') = metadata (context st)
    /\ intermediate_responses (context st') = intermediate_responses (context st)
    /\ exists new extra,
         tool_call_history (context st')
           = (tool_call_history (context st) ++ new)%list
         /\ tool_call_count (context st')
            = tool_call_count (context st) + Z.of_nat (length new)
         /\ map index new = count_from (tool_call_count (context st)) (length new)
         /\ port_calls (world st')
            = (port_calls (world st) ++ map entry_call new ++ extra)%list
         /\ (length extra <= 1)%nat
         /\ Forall (fun c => is_tool_call c = true) extra
         /\ match res with
            | inr out =>
                extra = []
                /\ exists tool_results,
                     out = (acc ++ tool_results)%list
                     /\ length tool_results = length new
            | inl _ => True
            end.
Proof.
  induction blocks as [|b blocks IH]; intros acc st res st' H.
  - injection H as <- <-. repeat split.
    exists [], []. simpl. rewrite !app_nil_r. repeat split; auto; try lia.
    exists []. rewrite app_nil_r. split; reflexivity.
  - destruct b as [t | id name tool_input | t s | d];
      try (simpl in H; eapply IH; exact H).
    destruct tool_manager as [execute_tool|].
    + destruct (execute_tool name (PositionalInput tool_input) (env (world st)))
        as [[x|r] e] eqn:E.
      * simpl in H. unfold _execute_tool_async in H. run_monad. rewrite E in H.
        injection H as <- <-. simpl. repeat split.
        exists [], [ToolCall name tool_input]. simpl. rewrite app_nil_r.
        repeat split; auto; try lia.
      * rewrite (run_blocks_tool now_isoformat _ _ _ _ _ _ _ _ _ E) in H.
        apply IH in H.
        destruct H as (M & S & D & R & new & extra & H1 & C1 & X1 & P1 & L1 & F1 & R1).
        simpl in M, S, D, R, H1, C1, X1, P1.
        split; [exact M|]. split; [exact S|]. split; [exact D|]. split; [exact R|].
        exists ({| index := tool_call_count (context st) + 1;
                   tool_name := name; input := tool_input; result := r;
                   timestamp := now_isoformat e |} :: new), extra.
        split; [rewrite H1, <- app_assoc; reflexivity|].
        split; [rewrite C1; simpl length; lia|].
        split; [simpl; rewrite X1; reflexivity|].
        split; [rewrite P1, <- app_assoc; reflexivity|].
        split; [exact L1|]. split; [exact F1|].
        destruct res as [x|out]; [exact I|].
        destruct R1 as (-> & trs & -> & Ltrs). split; [reflexivity|].
        exists ({| tool_use_id := id; tool_result_content := r |} :: trs).
        split; [rewrite <- app_assoc; reflexivity | simpl; rewrite Ltrs; reflexivity].
    + simpl in H. unfold _execute_tool_async in H. run_monad.
      injection H as <- <-. simpl. repeat split.
      exists [], []. simpl. rewrite !app_nil_r. repeat split; auto; lia.
Qed.

(** The account of a call to the model service. *)
Lemma model_call_account (st : Store W) (e : W) (closed : bool) :
  ledger model tools st (after_model_call model tools st e) [] 0 1 closed.
Proof.
  unfold ledger. simpl. rewrite app_nil_r. repeat split.
  exists [], [ModelCall (request_of model tools st)], []. simpl.
  rewrite app_nil_r. repeat split; auto; try lia.
  constructor; [|constructor]. split; [repeat split|].
  split; [reflexivity|]. exists []. rewrite app_nil_r. reflexivity.
Qed.

(** The account of the classification of a response. *)
Lemma classify_account from r (st : Store W) res st' :
  classify_response W logging from r st = (res, st') ->
  ledger model tools st st'
    (match res with inr tr => turns_of tr | inl _ => [] end)
    (match res with inr tr => results_of tr | inl _ => 0%nat end)
    0
    (match res with inr _ => true | inl _ => false end).
Proof.
  intros C.
  destruct (String.eqb_spec (stop_reason r) "tool_use") as [E|N].
  - rewrite (classify_tool_use logging from r st E) in C.
    injection C as <- <-. unfold ledger, after_tool_use. simpl.
    repeat split.
    exists [], [], []. simpl. rewrite !app_nil_r.
    repeat split; auto; try lia; try constructor;
      destruct logging; reflexivity.
  - destruct (classify_cases logging from r st)
      as (tr & s2 & C2 & _ & [->|[E _]]); [|contradiction].
    assert (T : turns_of tr = [] /\ results_of tr = 0%nat).
    { unfold classify_response in C2. apply String.eqb_neq in N.
      rewrite N in C2.
      destruct (stop_reason r =? "end_turn")%string;
        [injection C2 as <- ; split; reflexivity|].
      destruct (stop_reason r =? "max_tokens")%string;
        injection C2 as <-; split; reflexivity. }
    rewrite C2 in C. injection C as <- <-.
    destruct T as [-> ->]. apply ledger_refl.
Qed.

(** The account of the tool-execution handler. *)
Lemma tool_execution_account blocks (st : Store W) res st' :
  _handle_tool_execution_state W now_isoformat blocks tool_manager st = (res, st') ->
  ledger model tools st st'
    (match res with inr tr => turns_of tr | inl _ => [] end)
    (match res with inr tr => results_of tr | inl _ => 0%nat end)
    0
    (match res with inr _ => true | inl _ => false end).
Proof.
  unfold _handle_tool_execution_state, bind.
  destruct (run_blocks tool_manager blocks [] st) as [[x|out] st1] eqn:B;
    destruct (run_blocks_account _ _ _ _ _ B)
      as (M & S & D & R & new & extra & H1 & C1 & X1 & P1 & L1 & F1 & R1);
    destruct (only_tool_calls extra F1) as [TE ME].
  - intros [= <- <-]. unfold ledger. rewrite app_nil_r.
    split; [exact M|]. split; [exact S|]. split; [exact D|]. split; [exact R|].
    exists new, (map entry_call new ++ extra)%list, extra.
    rewrite tool_calls_app, tool_calls_entries, model_requests_app,
      model_requests_entries, TE, ME. simpl.
    repeat split; auto; try discriminate.
  - destruct R1 as (-> & trs & -> & Ltrs). simpl in *.
    assert (Led : forall st2 : Store W,
               context st2
               = match trs with
                 | [] => context st1
                 | _ :: _ =>
                     append_message (context st1)
                       {| role := user;
                          message_content := ContentToolResults trs |}
                 end ->
               world st2 = world st1 ->
               ledger model tools st st2
                 (turns_of {| from_state := EXECUTING_TOOLS;
                              to_state := AWAITING_FOLLOW_UP;
                              trigger := "tools_executed";
                              data := DataToolResults trs |})
                 (length trs) 0 true).
    { intros st2 Ec Ew. unfold ledger, turns_of. simpl. rewrite Ec, Ew.
      split; [destruct trs; simpl; rewrite M, ?app_nil_r; reflexivity|].
      split; [destruct trs; simpl; exact S|].
      split; [destruct trs; simpl; exact D|].
      split; [destruct trs; simpl; exact R|].
      exists new, (map entry_call new), [].
      rewrite tool_calls_entries, model_requests_entries, app_nil_r in *.
      split; [destruct trs; simpl; exact H1|].
      split; [destruct trs; simpl; exact C1|].
      repeat split; auto; try lia. }
    destruct trs as [|tr trs]; run_monad; intros [= <- <-];
      apply Led; reflexivity.
Qed.

(** The account of one dispatch, whether it returns or raises. *)
Lemma dispatch_account state last (st : Store W) res st' :
  dispatch state tools tool_manager last st = (res, st') ->
  ledger model tools st st'
    (match res with inr tr => turns_of tr | inl _ => [] end)
    (match res with inr tr => results_of tr | inl _ => 0%nat end)
    1
    (match res with inr _ => true | inl _ => false end).
Proof.
  destruct state; simpl.
  - destruct (messages_create (request_of model tools st) (env (world st)))
      as [[x|r] e] eqn:E.
    + rewrite (initial_raises _ _ _ _ _ _ E). intros [= <- <-].
      apply model_call_account.
    + rewrite (initial_returns _ _ _ _ _ _ E). intros [= <- <-].
      apply model_call_account.
  - destruct last as [r|].
    + intros C. apply classify_account in C.
      eapply ledger_more_steps; [exact C | lia].
    + intros [= <- <-].
      eapply ledger_more_steps; [apply ledger_refl | lia].
  - intros C. apply tool_execution_account in C.
    eapply ledger_more_steps; [exact C | lia].
  - destruct (messages_create (request_of model tools st) (env (world st)))
      as [[x|r] e] eqn:E.
    + rewrite (follow_up_raises _ _ _ _ _ _ _ E). intros [= <- <-].
      apply model_call_account.
    + rewrite (follow_up_returns _ _ _ _ _ _ _ E). intros C.
      apply classify_account in C.
      change (match res with inr tr => turns_of tr | inl _ => [] end)
        with ([] ++ match res with inr tr => turns_of tr | inl _ => [] end)%list.
      change (match res with inr tr => results_of tr | inl _ => 0%nat end)
        with (0 + match res with inr tr => results_of tr | inl _ => 0%nat end)%nat.
      change 1%nat with (1 + 0)%nat.
      eapply ledger_trans; [apply model_call_account | exact C].
  - intros [= <- <-]. eapply ledger_more_steps; [apply ledger_refl | lia].
  - intros [= <- <-]. eapply ledger_more_steps; [apply ledger_refl | lia].
Qed.

End LedgerFacts.

Section RunAccount.

Context {W : Type}.
Variable model : string.
Variable logging : bool.
Variable messages_create : Request -> W -> (Exn + Response) * W.
Variable now_isoformat : W -> string.

(** The account of a run of the loop. *)
Lemma loop_run_account tools tool_manager max_iterations cs it last
    (st : Store W) ys ex st' :
  loop_run model logging messages_create now_isoformat tools tool_manager
    max_iterations cs it last st ys ex st' ->
  exists steps,
    ledger model tools st st'
      (all_turns (map yield_transition ys))
      (all_results (map yield_transition ys))
      steps (left_normally ex)
    /\ Z.of_nat steps <= Z.max 0 (max_iterations - it).
Proof.
  induction 1 as [cs it last st C | cs it last st e st' C D
                 | cs it last st tr st' C D T
                 | cs it last st tr st' ys ex st'' C D T R IH].
  - exists 0%nat. split; [apply ledger_refl | lia].
  - exists 1%nat. apply andb_true_iff in C. destruct C as [_ C].
    apply Z.ltb_lt in C. split; [|lia].
    apply (dispatch_account model logging messages_create now_isoformat) in D.
    exact D.
  - exists 1%nat. apply andb_true_iff in C. destruct C as [_ C].
    apply Z.ltb_lt in C. split; [|lia].
    apply (dispatch_account model logging messages_create now_isoformat) in D.
    unfold all_turns, all_results. simpl. rewrite app_nil_r, Nat.add_0_r.
    exact D.
  - destruct IH as (steps & L & B).
    exists (1 + steps)%nat. apply andb_true_iff in C. destruct C as [_ C].
    apply Z.ltb_lt in C. split; [|lia].
    apply (dispatch_account model logging messages_create now_isoformat) in D.
    exact (ledger_trans model tools st st' st'' _ _ _ _ _ _ _ D L).
Qed.

(** The account of a run of the generator, from the store it starts in to
    the store it ends in. *)
Lemma stream_account query h tools tool_manager max_iterations (w : World W) :
  let run := generate_response_stream W model logging messages_create
               now_isoformat query h tools tool_manager max_iterations w in
  exists steps,
    ledger model tools (initial_store query h w) (final_store run)
      (all_turns (transitions run)) (all_results (transitions run))
      steps (exhausted (completion run))
    /\ (steps <= Z.to_nat max_iterations)%nat.
Proof.
  simpl.
  destruct (stream_is_loop_run model logging messages_create now_isoformat
              query h tools tool_manager max_iterations w)
    as (ys & ex & st & R & ->).
  pose proof (loop_run_never_out_of_fuel _ _ _ _ _ _ _ _ _ _ _ _ _ _ R) as NF.
  apply loop_run_account in R. destruct R as (steps & L & B).
  exists steps. split; [|lia].
  destruct ex as [cs it|x|]; simpl in *.
  - destruct ((it >=? max_iterations) && negb (is_terminal cs)); simpl;
      [|exact L].
    unfold transitions, all_turns, all_results in *. simpl.
    rewrite map_app, flat_map_app, map_app, list_sum_app. simpl.
    rewrite app_nil_r, Nat.add_0_r. exact L.
  - exact L.
  - congruence.
Qed.

End RunAccount.


Section YieldAccount.

Context {W : Type}.
Variable model : string.
Variable logging : bool.
Variable messages_create : Request -> W -> (Exn + Response) * W.
Variable now_isoformat : W -> string.

(** The account of a run of the loop up to one of its yields. *)
Lemma loop_run_yield_account tools tool_manager max_iterations cs it last
    (st : Store W) ys ex st' :
  loop_run model logging messages_create now_isoformat tools tool_manager
    max_iterations cs it last st ys ex st' ->
  forall pre y post,
    ys = (pre ++ y :: post)%list ->
    exists steps,
      ledger model tools st (yield_store y)
        (all_turns (map yield_transition (pre ++ [y])))
        (all_results (map yield_transition (pre ++ [y])))
        steps true.
Proof.
  induction 1 as [cs it last st C | cs it last st e st' C D
                 | cs it last st tr st' C D T
                 | cs it last st tr st' ys ex st'' C D T R IH];
    intros pre y post E.
  - destruct pre; discriminate.
  - destruct pre; discriminate.
  - destruct pre as [|p pre]; [|destruct pre; discriminate].
    injection E as <- _.
    apply (dispatch_account model logging messages_create now_isoformat) in D.
    exists 1%nat. unfold all_turns, all_results. simpl.
    rewrite app_nil_r, Nat.add_0_r. exact D.
  - apply (dispatch_account model logging messages_create now_isoformat) in D.
    destruct pre as [|p pre].
    + injection E as <- _. exists 1%nat. unfold all_turns, all_results. simpl.
      rewrite app_nil_r, Nat.add_0_r. exact D.
    + injection E as <- E. destruct (IH _ _ _ E) as (steps & L).
      exists (1 + steps)%nat.
      exact (ledger_trans model tools st st' (yield_store y) _ _ _ _ _ _ _ D L).
Qed.

(** The account of a run of the generator up to one of its yields. *)
Lemma stream_yield_account query h tools tool_manager max_iterations
    (w : World W) :
  let run := generate_response_stream W model logging messages_create
               now_isoformat query h tools tool_manager max_iterations w in
  forall pre y post,
    yielded run = (pre ++ y :: post)%list ->
    exists steps,
      ledger model tools (initial_store query h w) (yield_store y)
        (all_turns (map yield_transition (pre ++ [y])))
        (all_results (map yield_transition (pre ++ [y])))
        steps true.
Proof.
  simpl.
  destruct (stream_is_loop_run model logging messages_create now_isoformat
              query h tools tool_manager max_iterations w)
    as (ys & ex & st & R & ->).
  intros pre y post E.
  pose proof (loop_run_yield_account _ _ _ _ _ _ _ _ _ _ R) as Y.
  destruct ex as [cs it|x|]; simpl in E; try (eapply Y; exact E).
  destruct ((it >=? max_iterations) && negb (is_terminal cs)); simpl in E;
    try (eapply Y; exact E).
  symmetry in E. apply split_snoc in E.
  destruct E as [(_ & -> & ->)|(post' & _ & E)]; [|eapply Y; exact E].
  apply loop_run_account in R. destruct R as (steps & L & _).
  exists steps. simpl in *.
  unfold all_turns, all_results in *.
  rewrite map_app, flat_map_app, map_app, list_sum_app. simpl.
  rewrite app_nil_r, Nat.add_0_r. exact L.
Qed.

End YieldAccount.

(** X8: the message history of a run is determined by the transitions it
    yields.  At every yield, and when the generator ends, the messages of
    the context are the user query followed, in order, by one assistant turn
    for each [tool_use] transition yielded so far and one user turn for each
    [tools_executed] transition that carries at least one result; nothing
    else is ever appended, also when a handler raises. *)
Theorem X8_messages_follow_transitions :
  forall (W : Type) model logging
         (messages_create : Request -> W -> (Exn + Response) * W)
         (now_isoformat : W -> string)
         query history tools tool_manager max_iterations (w : World W),
    let run := generate_response_stream W model logging messages_create
                 now_isoformat query history tools tool_manager
                 max_iterations w in
    let asked := {| role := user; message_content := ContentQuery query |} in
    (forall pre y post,
        yielded run = (pre ++ y :: post)%list ->
        messages (context (yield_store y))
        = asked :: all_turns (map yield_transition (pre ++ [y])))
    /\ messages (context (final_store run)) = asked :: all_turns (transitions run).
Proof.
  intros W model logging messages_create now_isoformat query history tools
    tool_manager max_iterations w run asked.
  split.
  - intros pre y post E.
    destruct (stream_yield_account model logging messages_create now_isoformat
                query history tools tool_manager max_iterations w pre y post E)
      as (steps & M & _).
    exact M.
  - destruct (stream_account model logging messages_create now_isoformat
                query history tools tool_manager max_iterations w)
      as (steps & (M & _) & _).
    exact M.
Qed.

(** X9: the tool-call history is a faithful record of the calls made to the
    tool executor.  When a run ends, the calls to the executor in the log
    are, in order, the calls recorded in the history (same names, same
    inputs), followed by at most one more call: the one that raised, if the
    run ended on an exception of the executor.  The entries are numbered
    1, 2, ... without gaps, the counter is their number, and when the
    generator is exhausted their number is the total number of tool results
    carried by the yielded transitions. *)
Theorem X9_history_records_the_tool_calls :
  forall (W : Type) model logging
         (messages_create : Request -> W -> (Exn + Response) * W)
         (now_isoformat : W -> string)
         query history tools tool_manager max_iterations (w : World W),
    let run := generate_response_stream W model logging messages_create
                 now_isoformat query history tools tool_manager
                 max_iterations w in
    let log := tool_call_history (context (final_store run)) in
    exists calls extra,
      port_calls (world (final_store run)) = (port_calls w ++ calls)%list
      /\ tool_calls calls = (map entry_call log ++ extra)%list
      /\ (length extra <= 1)%nat
      /\ (exhausted (completion run) = true ->
          extra = [] /\ length log = all_results (transitions run))
      /\ map index log = count_from 0 (length log)
      /\ tool_call_count (context (final_store run)) = Z.of_nat (length log).
Proof.
  intros W model logging messages_create now_isoformat query history tools
    tool_manager max_iterations w run log.
  destruct (stream_account model logging messages_create now_isoformat
              query history tools tool_manager max_iterations w)
    as (steps & (_ & _ & _ & _ & new & calls & extra
                   & H1 & C1 & X1 & P1 & T1 & L1 & K1 & _) & _).
  simpl in H1, C1, X1, P1. subst log. fold run in H1, C1, P1, K1.
  rewrite H1. exists calls, extra.
  split; [exact P1|]. split; [exact T1|]. split; [exact L1|].
  split; [exact K1|]. split; [exact X1 | rewrite C1; lia].
Qed.

(** X10: a run never writes to the fields of the context that it does not
    own.  At every yield and when the generator ends, [metadata] and
    [intermediate_responses] are still empty, as they were created. *)
Theorem X10_metadata_and_intermediate_responses_untouched :
  forall (W : Type) model logging
         (messages_create : Request -> W -> (Exn + Response) * W)
         (now_isoformat : W -> string)
         query history tools tool_manager max_iterations (w : World W),
    let run := generate_response_stream W model logging messages_create
                 now_isoformat query history tools tool_manager
                 max_iterations w in
    Forall (fun y => metadata (context (yield_store y)) = []
                     /\ intermediate_responses (context (yield_store y)) = [])
           (yielded run)
    /\ metadata (context (final_store run)) = []
    /\ intermediate_responses (context (final_store run)) = [].
Proof.
  intros W model logging messages_create now_isoformat query history tools
    tool_manager max_iterations w run.
  split.
  - apply Forall_forall. intros y Hy. apply in_split in Hy.
    destruct Hy as (pre & post & E).
    destruct (stream_yield_account model logging messages_create now_isoformat
                query history tools tool_manager max_iterations w pre y post E)
      as (steps & _ & _ & D & R & _).
    split; [exact D | exact R].
  - destruct (stream_account model logging messages_create now_isoformat
                query history tools tool_manager max_iterations w)
      as (steps & (_ & _ & D & R & _) & _).
    split; [exact D | exact R].
Qed.

(** X11: the requests that a run sends to the model service.  There are at
    most [max_iterations] of them (none when the bound is not positive);
    each carries the configured model, temperature 0 and a limit of 800
    tokens; each declares the tools, with automatic tool choice, exactly when
    the caller gave a non-empty list of tools; and the messages of each begin
    with the user query. *)
Theorem X11_requests_of_a_run :
  forall (W : Type) model logging
         (messages_create : Request -> W -> (Exn + Response) * W)
         (now_isoformat : W -> string)
         query history tools tool_manager max_iterations (w : World W),
    let run := generate_response_stream W model logging messages_create
                 now_isoformat query history tools tool_manager
                 max_iterations w in
    exists calls,
      port_calls (world (final_store run)) = (port_calls w ++ calls)%list
      /\ (length (model_requests calls) <= Z.to_nat max_iterations)%nat
      /\ Forall (fun req =>
                   base_request model tools req
                   /\ exists more,
                        req_messages req
                        = {| role := user; message_content := ContentQuery query |}
                            :: more)
                (model_requests calls).
Proof.
  intros W model logging messages_create now_isoformat query history tools
    tool_manager max_iterations w run.
  destruct (stream_account model logging messages_create now_isoformat
              query history tools tool_manager max_iterations w)
    as (steps & (_ & _ & _ & _ & new & calls & extra
                   & _ & _ & _ & P1 & _ & _ & _ & N1 & R1) & B).
  exists calls. split; [exact P1|]. split; [lia|].
  eapply Forall_impl; [|exact R1]. simpl.
  intros req (Hb & _ & more & E). split; [exact Hb|]. exists more. exact E.
Qed.

(** ** Stop reasons that are not known *)

Lemma table_row_unknown (tr : StateTransition) :
  table_row tr -> trigger tr = "unknown_stop_reason" -> to_state tr = ERROR.
Proof.
  intros [(_ & _ & T)|[(_ & _ & T)|(_ & _ & [(_ & T)|[(_ & T)|[(_ & T)|(E & _)]]])]] H;
    try exact E; rewrite T in H; discriminate.
Qed.

Lemma classify_unknown {W : Type} (logging : bool) (from : ConversationState)
    (r : Response) (st : Store W) :
  stop_reason r <> "tool_use" ->
  stop_reason r <> "end_turn" ->
  stop_reason r <> "max_tokens" ->
  classify_response W logging from r st
  = (inr {| from_state := from; to_state := ERROR;
            trigger := "unknown_stop_reason";
            data := DataError ("Unexpected stop_reason: " ++ stop_reason r) |}, st).
Proof.
  intros N1 N2 N3. unfold classify_response.
  apply String.eqb_neq in N1, N2, N3. rewrite N1, N2, N3. reflexivity.
Qed.

(** X1: a response whose stop reason is none of ["tool_use"], ["end_turn"]
    and ["max_tokens"] (the comparison is exact: another case or an empty
    string is unknown too) takes both decision handlers to ERROR with
    trigger ["unknown_stop_reason"] and an error that quotes the raw stop
    reason, and leaves the context as it is.  In a run, once that transition
    has been yielded, no handler is dispatched again and no further call is
    made. *)
Theorem X1_unknown_stop_reason_is_error :
  forall (W : Type) model logging
         (messages_create : Request -> W -> (Exn + Response) * W)
         (now_isoformat : W -> string)
         (response : Response),
    stop_reason response <> "tool_use" ->
    stop_reason response <> "end_turn" ->
    stop_reason response <> "max_tokens" ->
    let failed from :=
      {| from_state := from; to_state := ERROR;
         trigger := "unknown_stop_reason";
         data := DataError ("Unexpected stop_reason: " ++ stop_reason response) |} in
    (forall st : Store W,
        _handle_tool_decision_state W logging response st
        = (inr (failed AWAITING_TOOL_DECISION), st))
    /\ (forall tools (st : Store W) e,
           messages_create (request_of model tools st) (env (world st))
             = (inr response, e) ->
           _handle_follow_up_state W model logging messages_create tools st
           = (inr (failed AWAITING_FOLLOW_UP), after_model_call model tools st e))
    /\ (forall query history tools tool_manager max_iterations (w : World W)
               pre y post,
           let run := generate_response_stream W model logging messages_create
                        now_isoformat query history tools tool_manager
                        max_iterations w in
           yielded run = (pre ++ y :: post)%list ->
           trigger (yield_transition y) = "unknown_stop_reason" ->
           to_state (yield_transition y) = ERROR
           /\ completion run = Exhausted
           /\ world (final_store run) = world (yield_store y)).
Proof.
  intros W model logging messages_create now_isoformat response N1 N2 N3 failed.
  split; [|split].
  - intros st. unfold _handle_tool_decision_state.
    apply classify_unknown; assumption.
  - intros tools st e E. rewrite (follow_up_returns _ _ _ _ _ _ _ E).
    apply classify_unknown; assumption.
  - intros query history tools tool_manager max_iterations w pre y post run E T.
    pose proof (stream_rows model logging messages_create now_isoformat
                  query history tools tool_manager max_iterations w) as R.
    simpl in R. fold run in R. rewrite E in R.
    apply Forall_app in R. destruct R as [_ R]. inversion R as [|? ? Hy _]; subst.
    destruct Hy as [Hy|Hy]; [|rewrite T in Hy; discriminate].
    pose proof (table_row_unknown _ Hy T) as TE.
    split; [exact TE|].
    destruct (stream_after_terminal model logging messages_create now_isoformat
                query history tools tool_manager max_iterations w pre y post E)
      as (C & F & _).
    + rewrite TE. reflexivity.
    + rewrite T. discriminate.
    + fold run in C, F. split; [exact C | rewrite F; reflexivity].
Qed.

(** A refusal is reported as an error that names it. *)
Lemma X1_unknown_stop_reason_is_error_witness :
  _handle_tool_decision_state unit true Faulty.refusal
    {| context := initial_context "Tell me a secret" None; world := Faulty.start |}
  = (inr {| from_state := AWAITING_TOOL_DECISION; to_state := ERROR;
            trigger := "unknown_stop_reason";
            data := DataError "Unexpected stop_reason: refusal" |},
     {| context := initial_context "Tell me a secret" None; world := Faulty.start |}).
Proof.
  assert (N1 : stop_reason Faulty.refusal <> "tool_use") by discriminate.
  assert (N2 : stop_reason Faulty.refusal <> "end_turn") by discriminate.
  assert (N3 : stop_reason Faulty.refusal <> "max_tokens") by discriminate.
  exact (proj1 (X1_unknown_stop_reason_is_error unit "claude" true
                  (Faulty.constant Faulty.refusal) Faulty.clock
                  Faulty.refusal N1 N2 N3)
               {| context := initial_context "Tell me a secret" None;
                  world := Faulty.start |}).
Defined.

(** ** The path of a run *)

Lemma path_from_app (a b : list StateTransition) :
  forall s, path_from s (a ++ b) <-> path_from s a /\ path_from (end_state s a) b.
Proof.
  induction a as [|t a IH]; intros s; simpl.
  - unfold end_state. simpl. tauto.
  - rewrite IH. unfold end_state. simpl. tauto.
Qed.

Section PathFacts.

Context {W : Type}.
Variable model : string.
Variable logging : bool.
Variable messages_create : Request -> W -> (Exn + Response) * W.
Variable now_isoformat : W -> string.

Lemma loop_run_path tools tool_manager max_iterations cs it last
    (st : Store W) ys ex st' :
  loop_run model logging messages_create now_isoformat tools tool_manager
    max_iterations cs it last st ys ex st' ->
  path_from cs (map yield_transition ys)
  /\ (forall cs' it',
         ex = LoopDone cs' it' ->
         Forall (fun y => is_terminal (to_state (yield_transition y)) = false) ys ->
         cs' = end_state cs (map yield_transition ys))
  /\ Z.of_nat (length ys) <= Z.max 0 (max_iterations - it).
Proof.
  induction 1 as [cs it last st C | cs it last st e st' C D
                 | cs it last st tr st' C D T
                 | cs it last st tr st' ys ex st'' C D T R IH]; simpl.
  - split; [exact I|]. split; [|lia]. intros cs' it' [= <- _] _. reflexivity.
  - split; [exact I|]. split; [|lia]. discriminate.
  - apply andb_true_iff in C. destruct C as [_ C]. apply Z.ltb_lt in C.
    apply dispatch_row in D. destruct D as [F _].
    split; [split; [exact F | exact I]|]. split; [|lia].
    intros cs' it' _ N. inversion N as [|? ? N1 _]; subst. simpl in N1. congruence.
  - apply andb_true_iff in C. destruct C as [_ C]. apply Z.ltb_lt in C.
    apply dispatch_row in D. destruct D as [F _].
    destruct IH as (P & E & B).
    split; [split; [exact F | exact P]|]. split; [|lia].
    intros cs' it' X N. inversion N as [|? ? _ N2]; subst.
    rewrite (E _ _ eq_refl N2). reflexivity.
Qed.

End PathFacts.

(** X2: the transitions of a run form a path of the state machine.  What a
    run yields is a list of dispatched transitions, each a row of the
    transition table, the first leaving INITIAL and each of the others
    leaving the state that the one before it entered, followed by at most
    the transition synthesized when the bound is reached.  When no
    dispatched transition is terminal, the synthesized one continues the
    path: it leaves the state that the last dispatched one entered. *)
Theorem X2_transitions_form_a_path :
  forall (W : Type) model logging
         (messages_create : Request -> W -> (Exn + Response) * W)
         (now_isoformat : W -> string)
         query history tools tool_manager max_iterations (w : World W),
    let run := generate_response_stream W model logging messages_create
                 now_isoformat query history tools tool_manager
                 max_iterations w in
    exists dispatched tail,
      transitions run = (dispatched ++ tail)%list
      /\ path_from INITIAL dispatched
      /\ Forall table_row dispatched
      /\ (tail = []
          \/ exists cs, tail = [max_iterations_transition cs max_iterations]
                        /\ completion run = Exhausted)
      /\ (Forall (fun t => is_terminal (to_state t) = false) dispatched ->
          path_from INITIAL (transitions run)).
Proof.
  intros W model logging messages_create now_isoformat query history tools
    tool_manager max_iterations w run.
  destruct (stream_is_loop_run model logging messages_create now_isoformat
              query history tools tool_manager max_iterations w)
    as (ys & ex & st & R & E).
  pose proof (loop_run_rows _ _ _ _ _ _ _ _ _ _ _ _ _ _ R) as Rows.
  destruct (loop_run_path _ _ _ _ _ _ _ _ _ _ _ _ _ _ R) as (P & Q & _).
  subst run. rewrite E. unfold transitions.
  assert (Plain : forall c,
             exists dispatched tail,
               map yield_transition ys = (dispatched ++ tail)%list
               /\ path_from INITIAL dispatched
               /\ Forall table_row dispatched
               /\ (tail = []
                   \/ exists cs, tail = [max_iterations_transition cs max_iterations]
                                 /\ c = Exhausted)
               /\ (Forall (fun t => is_terminal (to_state t) = false) dispatched ->
                   path_from INITIAL (map yield_transition ys))).
  { intros c. exists (map yield_transition ys), []. rewrite app_nil_r.
    split; [reflexivity|]. split; [exact P|].
    split; [rewrite Forall_map; exact Rows|]. split; [left; reflexivity | auto]. }
  destruct ex as [cs it|x|]; simpl; try apply Plain.
  destruct ((it >=? max_iterations) && negb (is_terminal cs)); simpl;
    try apply Plain.
  exists (map yield_transition ys),
    [max_iterations_transition cs max_iterations].
  split; [rewrite map_app; reflexivity|]. split; [exact P|].
  split; [rewrite Forall_map; exact Rows|].
  split; [right; exists cs; split; reflexivity|].
  intros N. rewrite map_app. apply path_from_app. split; [exact P|].
  simpl. split; [|exact I]. apply (Q cs it eq_refl).
  rewrite Forall_map in N. exact N.
Qed.

(** ** The bound *)

(** X3: the iteration bound holds whatever the model service and the tools
    do.  Every run ends, exhausted or on an exception; it yields at most
    [max_iterations] dispatched transitions (none when the bound is not
    positive), and at most one transition more, the synthesized one. *)
Theorem X3_run_ends_within_bound :
  forall (W : Type) model logging
         (messages_create : Request -> W -> (Exn + Response) * W)
         (now_isoformat : W -> string)
         query history tools tool_manager max_iterations (w : World W),
    let run := generate_response_stream W model logging messages_create
                 now_isoformat query history tools tool_manager
                 max_iterations w in
    (completion run = Exhausted \/ exists e, completion run = Raised e)
    /\ (length (filter (fun t => negb (trigger t =? "max_iterations_exceeded")%string)
                       (transitions run))
        <= Z.to_nat max_iterations)%nat
    /\ (length (transitions run) <= Z.to_nat max_iterations + 1)%nat.
Proof.
  intros W model logging messages_create now_isoformat query history tools
    tool_manager max_iterations w run.
  split.
  { pose proof (stream_ends model logging messages_create now_isoformat
                  query history tools tool_manager max_iterations w) as N.
    fold run in N. destruct (completion run); [left | right; eexists | congruence];
      reflexivity. }
  destruct (stream_is_loop_run model logging messages_create now_isoformat
              query history tools tool_manager max_iterations w)
    as (ys & ex & st & R & E).
  destruct (loop_run_path _ _ _ _ _ _ _ _ _ _ _ _ _ _ R) as (_ & _ & B).
  assert (L : (length ys <= Z.to_nat max_iterations)%nat) by lia.
  assert (F : forall l : list StateTransition,
             (length (filter (fun t => negb (trigger t =? "max_iterations_exceeded")%string) l)
              <= length l)%nat).
  { induction l as [|t l IH]; simpl; [lia|].
    destruct (negb (trigger t =? "max_iterations_exceeded")%string); simpl; lia. }
  subst run. rewrite E. unfold transitions.
  destruct ex as [cs it|x|]; simpl.
  - destruct ((it >=? max_iterations) && negb (is_terminal cs)); simpl.
    + rewrite map_app, filter_app, !length_app. simpl.
      pose proof (F (map yield_transition ys)) as F1. rewrite length_map in *.
      split; lia.
    + pose proof (F (map yield_transition ys)) as F1. rewrite length_map in *.
      split; lia.
  - pose proof (F (map yield_transition ys)) as F1. rewrite length_map in *.
    split; lia.
  - pose proof (F (map yield_transition ys)) as F1. rewrite length_map in *.
    split; lia.
Qed.

(** X4: with a bound that is not positive, no handler is dispatched and no
    call is made: the run yields only the synthesized transition, from
    INITIAL to ERROR, and leaves the store as it was created. *)
Theorem X4_nonpositive_bound_yields_only_the_error :
  forall (W : Type) model logging
         (messages_create : Request -> W -> (Exn + Response) * W)
         (now_isoformat : W -> string)
         query history tools tool_manager max_iterations (w : World W),
    max_iterations <= 0 ->
    let run := generate_response_stream W model logging messages_create
                 now_isoformat query history tools tool_manager
                 max_iterations w in
    transitions run
    = [ {| from_state := INITIAL; to_state := ERROR;
           trigger := "max_iterations_exceeded";
           data := DataError ("Exceeded " ++ str_of_int max_iterations
                                ++ " iterations without completion") |} ]
    /\ completion run = Exhausted
    /\ final_store run = initial_store query history w.
Proof.
  intros W model logging messages_create now_isoformat query history tools
    tool_manager max_iterations w Hle run.
  subst run. unfold generate_response_stream.
  assert (Z0 : Z.to_nat max_iterations = 0%nat) by lia. rewrite Z0.
  assert (C : (0 <? max_iterations) = false) by (apply Z.ltb_ge; lia).
  assert (G : (0 >=? max_iterations) = true) by (rewrite Z.geb_leb; apply Z.leb_le; lia).
  simpl. rewrite C. simpl. rewrite G. simpl. repeat split.
Qed.

(** The bound 0: one transition, "Exceeded 0 iterations". *)
Lemma X4_nonpositive_bound_yields_only_the_error_witness :
  transitions
    (generate_response_stream unit "claude" true Faulty.unreachable Faulty.clock
       "What is 2+2?" None None None 0 Faulty.start)
  = [ {| from_state := INITIAL; to_state := ERROR;
         trigger := "max_iterations_exceeded";
         data := DataError "Exceeded 0 iterations without completion" |} ].
Proof.
  assert (H : 0 <= 0) by lia.
  exact (proj1 (X4_nonpositive_bound_yields_only_the_error unit "claude" true
                  Faulty.unreachable Faulty.clock "What is 2+2?" None None None
                  0 Faulty.start H)).
Defined.

(** ** Exceptions *)



(** ** Tool execution that fails *)

(** X6: without a tool manager, a content that holds a tool-invocation block
    makes the EXECUTING_TOOLS handler raise [AttributeError] at the first
    such block: no call is made, nothing is recorded, and the store is left
    as it is. *)
Theorem X6_no_tool_manager_raises :
  forall (W : Type) (now_isoformat : W -> string)
         (tool_blocks : list ContentBlock) (st : Store W),
    tool_use_blocks tool_blocks <> [] ->
    _handle_tool_execution_state W now_isoformat tool_blocks None st
    = (inl AttributeError, st).
Proof.
  intros W now_isoformat tool_blocks st H.
  unfold _handle_tool_execution_state, bind.
  assert (E : forall acc,
             execute_tool_blocks W now_isoformat None tool_blocks acc st
             = (inl AttributeError, st)).
  { unfold tool_use_blocks in H.
    induction tool_blocks as [|b blocks IH]; intros acc; [contradiction|].
    destruct b as [t | id name tool_input | t s | d];
      try (simpl in *; apply IH; exact H).
    simpl. unfold _execute_tool_async. run_monad. destruct st. reflexivity. }
  rewrite E. reflexivity.
Qed.

(** A request to search, and nobody to run it. *)
Lemma X6_no_tool_manager_raises_witness :
  let st := {| context := initial_context "What is MCP?" None;
               world := Faulty.start |} in
  _handle_tool_execution_state unit Faulty.clock
    (content Scripted.search_request) None st
  = (inl AttributeError, st).
Proof.
  assert (H : tool_use_blocks (content Scripted.search_request) <> [])
    by discriminate.
  exact (X6_no_tool_manager_raises unit Faulty.clock
           (content Scripted.search_request)
           {| context := initial_context "What is MCP?" None;
              world := Faulty.start |} H).
Defined.

(** X7: when the EXECUTING_TOOLS handler raises, no tool-result turn is
    appended: the messages are those of before.  The calls that returned
    before the failure stay recorded in the history, numbered on from the
    previous count, and the log of calls holds them followed by at most the
    one call that raised. *)
Theorem X7_failed_tool_round_appends_no_turn :
  forall (W : Type) (now_isoformat : W -> string)
         (tool_manager : option (ToolManager W))
         (tool_blocks : list ContentBlock) (st st' : Store W) (e : Exn),
    _handle_tool_execution_state W now_isoformat tool_blocks tool_manager st
      = (inl e, st') ->
    messages (context st') = messages (context st)
    /\ exists new extra,
         tool_call_history (context st')
           = (tool_call_history (context st) ++ new)%list
         /\ tool_call_count (context st')
            = tool_call_count (context st) + Z.of_nat (length new)
         /\ map index new = count_from (tool_call_count (context st)) (length new)
         /\ port_calls (world st')
            = (port_calls (world st) ++ map entry_call new ++ extra)%list
         /\ (length extra <= 1)%nat.
Proof.
  intros W now_isoformat tool_manager tool_blocks st st' e H.
  unfold _handle_tool_execution_state, bind in H.
  destruct (execute_tool_blocks W now_isoformat tool_manager tool_blocks [] st)
    as [[x|out] st1] eqn:B.
  - injection H as _ <-.
    destruct (run_blocks_account now_isoformat tool_manager _ _ _ _ _ B)
      as (M & _ & _ & _ & new & extra & H1 & C1 & X1 & P1 & L1 & _).
    split; [exact M|]. exists new, extra. repeat split; assumption.
  - destruct out; run_monad; discriminate.
Qed.

(** The search returns, the outline tool is unknown: one entry is recorded,
    two calls were made, and no turn is appended. *)
Lemma X7_failed_tool_round_appends_no_turn_witness :
  let st := {| context := initial_context "What is MCP?" None;
               world := Faulty.start |} in
  let st' := snd (_handle_tool_execution_state unit Faulty.clock
                    (content Scripted.search_request)
                    (Some Faulty.search_only) st) in
  messages (context st') = messages (context st)
  /\ map index (tool_call_history (context st')) = [1]
  /\ port_calls (world st')
     = [ToolCall "search" [("q", "x")]; ToolCall "outline" [("course", "MCP")]].
Proof.
  destruct (X7_failed_tool_round_appends_no_turn unit Faulty.clock
              (Some Faulty.search_only) (content Scripted.search_request)
              {| context := initial_context "What is MCP?" None;
                 world := Faulty.start |}
              (snd (_handle_tool_execution_state unit Faulty.clock
                      (content Scripted.search_request)
                      (Some Faulty.search_only)
                      {| context := initial_context "What is MCP?" None;
                         world := Faulty.start |}))
              (PortFailure "unknown tool") eq_refl)
    as (M & _).
  split; [exact M|]. split; reflexivity.
Defined.

(** ** A model that answers at once *)

Section DirectRun.

Context {W : Type}.
Variable model : string.
Variable logging : bool.
Variable messages_create : Request -> W -> (Exn + Response) * W.
Variable now_isoformat : W -> string.
Variable tools : option (list ToolDecl).
Variable tool_manager : option (ToolManager W).
Variable max_iterations : Z.

Local Abbreviation dispatch :=
  (_dispatch_state W model logging messages_create now_isoformat).
Local Abbreviation run_of :=
  (loop_run model logging messages_create now_isoformat tools tool_manager
     max_iterations).

(** One step of the loop, when its condition holds and the dispatch
    returns. *)
Lemma loop_run_step cs it last (st : Store W) ys ex st' tr st1 :
  run_of cs it last st ys ex st' ->
  negb (is_terminal cs) && (it <? max_iterations) = true ->
  dispatch cs tools tool_manager last st = (inr tr, st1) ->
  (is_terminal (to_state tr) = true
   /\ ys = [ {| yield_transition := tr; yield_store := st1 |} ]
   /\ ex = LoopDone cs (it + 1) /\ st' = st1)
  \/ (is_terminal (to_state tr) = false
      /\ exists ys',
           ys = {| yield_transition := tr; yield_store := st1 |} :: ys'
           /\ run_of (to_state tr) (it + 1) (next_response tr last) st1 ys' ex st').
Proof.
  intros R C D.
  inversion R as [? ? ? ? C0 | ? ? ? ? ? ? C0 D0 | ? ? ? ? ? ? C0 D0 T0
                 | ? ? ? ? ? ? ? ? ? C0 D0 T0 R0]; subst.
  - congruence.
  - rewrite D in D0. discriminate.
  - rewrite D in D0. injection D0 as <- <-. left. auto.
  - rewrite D in D0. injection D0 as <- <-. right. split; [exact T0|].
    eexists. split; [reflexivity | exact R0].
Qed.

(** The classification of a response that does not ask for tools ends the
    run and leaves the store alone. *)
Lemma classify_final (from : ConversationState) (r : Response) (st : Store W) :
  stop_reason r <> "tool_use" ->
  exists decided,
    classify_response W logging from r st = (inr decided, st)
    /\ from_state decided = from
    /\ is_terminal (to_state decided) = true
    /\ (stop_reason r = "end_turn" ->
        decided = {| from_state := from; to_state := COMPLETED;
                     trigger := "end_turn";
                     data := DataFinal (extract_text (content r)) r |})
    /\ (stop_reason r = "max_tokens" ->
        decided = {| from_state := from; to_state := ERROR;
                     trigger := "max_tokens";
                     data := DataTokenLimit "Token limit reached"
                               (extract_text (content r)) |}).
Proof.
  intros N.
  destruct (String.eqb_spec (stop_reason r) "end_turn") as [E|N2].
  { rewrite (classify_end_turn logging from r st E). eexists.
    split; [reflexivity|]. split; [reflexivity|]. split; [reflexivity|].
    split; [reflexivity|]. rewrite E. discriminate. }
  destruct (String.eqb_spec (stop_reason r) "max_tokens") as [E|N3].
  { rewrite (classify_max_tokens logging from r st E). eexists.
    split; [reflexivity|]. split; [reflexivity|]. split; [reflexivity|].
    split; [contradiction | reflexivity]. }
  rewrite (classify_unknown logging from r st N N2 N3). eexists.
  split; [reflexivity|]. split; [reflexivity|]. split; [reflexivity|].
  split; contradiction.
Qed.

(** The run of a model whose first response does not ask for tools. *)
Lemma stream_direct_run query h (w : World W) (r : Response) (e : W) :
  messages_create (request_of model tools (initial_store query h w)) (env w)
    = (inr r, e) ->
  stop_reason r <> "tool_use" ->
  2 <= max_iterations ->
  let st1 := after_model_call model tools (initial_store query h w) e in
  exists decided,
    classify_response W logging AWAITING_TOOL_DECISION r st1 = (inr decided, st1)
    /\ generate_response_stream W model logging messages_create now_isoformat
         query h tools tool_manager max_iterations w
       = after_loop max_iterations
           [ {| yield_transition :=
                  {| from_state := INITIAL; to_state := AWAITING_TOOL_DECISION;
                     trigger := "api_call_complete"; data := DataResponse r |};
                yield_store := st1 |};
             {| yield_transition := decided; yield_store := st1 |} ]
           (LoopDone AWAITING_TOOL_DECISION 2) st1.
Proof.
  intros M N Hmi st1.
  destruct (classify_final AWAITING_TOOL_DECISION r st1 N)
    as (decided & C & _ & T & _).
  exists decided. split; [exact C|].
  destruct (stream_is_loop_run model logging messages_create now_isoformat
              query h tools tool_manager max_iterations w)
    as (ys & ex & st & R & ->).
  eapply loop_run_step in R;
    [ | simpl; apply Z.ltb_lt; lia
      | simpl; apply (initial_returns model messages_create tools _ r e); exact M ].
  destruct R as [(T1 & _)|(_ & ys' & -> & R)]; [discriminate|].
  eapply loop_run_step in R;
    [ | simpl; apply Z.ltb_lt; lia | simpl; exact C ].
  destruct R as [(_ & -> & -> & ->)|(T2 & _)]; [reflexivity | congruence].
Qed.

End DirectRun.

(** X12: a run in which the first response does not ask for tools.  With a
    bound of at least 2, the run makes exactly one call to the model service
    and none to the tool executor; it yields the [api_call_complete]
    transition and then one terminal transition out of
    AWAITING_TOOL_DECISION, which for an [end_turn] response is COMPLETED
    with the first text of the response as final text; the tool-call counter
    stays 0 and the messages are the query alone.  When the bound is exactly
    2, the synthesized transition is yielded after the terminal one. *)
Theorem X12_answer_without_tools :
  forall (W : Type) model logging
         (messages_create : Request -> W -> (Exn + Response) * W)
         (now_isoformat : W -> string)
         query history tools tool_manager max_iterations (w : World W)
         (r : Response) (e : W),
    messages_create (request_of model tools (initial_store query history w)) (env w)
      = (inr r, e) ->
    stop_reason r <> "tool_use" ->
    2 <= max_iterations ->
    let run := generate_response_stream W model logging messages_create
                 now_isoformat query history tools tool_manager
                 max_iterations w in
    exists decided,
      transitions run
      = ({| from_state := INITIAL; to_state := AWAITING_TOOL_DECISION;
            trigger := "api_call_complete"; data := DataResponse r |}
           :: decided
           :: if 2 >=? max_iterations
              then [max_iterations_transition AWAITING_TOOL_DECISION max_iterations]
              else [])
      /\ from_state decided = AWAITING_TOOL_DECISION
      /\ is_terminal (to_state decided) = true
      /\ (stop_reason r = "end_turn" ->
          to_state decided = COMPLETED
          /\ data decided = DataFinal (extract_text (content r)) r)
      /\ completion run = Exhausted
      /\ port_calls (world (final_store run))
         = (port_calls w
              ++ [ModelCall (request_of model tools
                               (initial_store query history w))])%list
      /\ tool_call_count (context (final_store run)) = 0
      /\ tool_call_history (context (final_store run)) = []
      /\ messages (context (final_store run))
         = [ {| role := user; message_content := ContentQuery query |} ].
Proof.
  intros W model logging messages_create now_isoformat query history tools
    tool_manager max_iterations w r e M N Hmi run.
  destruct (stream_direct_run model logging messages_create now_isoformat
              tools tool_manager max_iterations query history w r e M N Hmi)
    as (decided & C & E).
  destruct (classify_final logging AWAITING_TOOL_DECISION r
              (after_model_call model tools (initial_store query history w) e) N)
    as (decided' & C' & F & T & ET & _).
  rewrite C in C'. injection C' as <-.
  exists decided. subst run. rewrite E. unfold transitions. simpl.
  destruct (2 >=? max_iterations); simpl;
    (split; [reflexivity|]; split; [exact F|]; split; [exact T|];
     split; [intros S; rewrite (ET S); split; reflexivity|];
     repeat split).
Qed.

(** The scenario of the question "What is 2+2?": two transitions, the
    second COMPLETED. *)
Lemma X12_answer_without_tools_witness :
  exists decided,
    transitions (Scripted.stream "What is 2+2?" None None None 10
                   (Scripted.start [Scripted.answer]))
    = [ {| from_state := INITIAL; to_state := AWAITING_TOOL_DECISION;
           trigger := "api_call_complete"; data := DataResponse Scripted.answer |};
        decided ]
    /\ to_state decided = COMPLETED
    /\ data decided = DataFinal (Some "4") Scripted.answer.
Proof.
  assert (N : stop_reason Scripted.answer <> "tool_use") by discriminate.
  assert (H : 2 <= 10) by lia.
  destruct (X12_answer_without_tools Scripted.W "claude" true
              Scripted.messages_create Scripted.now_isoformat
              "What is 2+2?" None None None 10
              (Scripted.start [Scripted.answer]) Scripted.answer [] eq_refl N H)
    as (decided & T & _ & _ & D & _).
  exists decided. split; [exact T|]. exact (D eq_refl).
Defined.

(** X13: an empty list of tools is no tools.  With [tools=[]] both entry
    points behave exactly as with [tools=None]: the same transitions, the
    same calls (no request declares tools), the same result. *)
Theorem X13_empty_tool_list_is_no_tools :
  forall (W : Type) model logging
         (messages_create : Request -> W -> (Exn + Response) * W)
         (now_isoformat : W -> string)
         query history tool_manager max_iterations (w : World W),
    generate_response_stream W model logging messages_create now_isoformat
      query history (Some []) tool_manager max_iterations w
    = generate_response_stream W model logging messages_create now_isoformat
        query history None tool_manager max_iterations w
    /\ generate_response W model messages_create query history (Some [])
         tool_manager w
       = generate_response W model messages_create query history None
           tool_manager w.
Proof.
  intros W model logging messages_create now_isoformat query history
    tool_manager max_iterations w.
  split; [|reflexivity].
  assert (D : forall state last (st : Store W),
             _dispatch_state W model logging messages_create now_isoformat
               state (Some []) tool_manager last st
             = _dispatch_state W model logging messages_create now_isoformat
                 state None tool_manager last st).
  { intros state last st. destruct state; reflexivity. }
  assert (L : forall fuel cs it last (st : Store W),
             stream_loop W model logging messages_create now_isoformat fuel
               (Some []) tool_manager max_iterations cs it last st
             = stream_loop W model logging messages_create now_isoformat fuel
                 None tool_manager max_iterations cs it last st).
  { induction fuel as [|fuel IH]; intros cs it last st; [reflexivity|].
    simpl. rewrite D.
    destruct (negb (is_terminal cs) && (it <? max_iterations)); [|reflexivity].
    destruct (_dispatch_state W model logging messages_create now_isoformat
                cs None tool_manager last st) as [[x|tr] st1]; [reflexivity|].
    destruct (is_terminal (to_state tr)); [reflexivity|].
    rewrite IH. reflexivity. }
  unfold generate_response_stream. rewrite L. reflexivity.
Qed.

(** X15: a truncated answer is an error for the state machine and a normal
    answer for the single-shot path.  When the first response has stop
    reason ["max_tokens"] and starts with a text block, [generate_response]
    returns that text as if the answer were complete, while
    [generate_response_stream] (bound at least 2) yields the ERROR
    transition that carries it as partial text, and no COMPLETED
    transition. *)
Theorem X15_truncated_answer_is_returned_by_the_single_shot_path :
  forall (W : Type) model logging
         (messages_create : Request -> W -> (Exn + Response) * W)
         (now_isoformat : W -> string)
         query history tools tool_manager max_iterations (w : World W)
         (r : Response) (e : W) (t : string) (rest : list ContentBlock),
    messages_create (request_of model tools (initial_store query history w)) (env w)
      = (inr r, e) ->
    stop_reason r = "max_tokens" ->
    content r = TextBlock t :: rest ->
    2 <= max_iterations ->
    let run := generate_response_stream W model logging messages_create
                 now_isoformat query history tools tool_manager
                 max_iterations w in
    fst (generate_response W model messages_create query history tools
           tool_manager w) = inr t
    /\ drive_to_completion run = None
    /\ In {| from_state := AWAITING_TOOL_DECISION; to_state := ERROR;
             trigger := "max_tokens";
             data := DataTokenLimit "Token limit reached" (Some t) |}
          (transitions run).
Proof.
  intros W model logging messages_create now_isoformat query history tools
    tool_manager max_iterations w r e t rest M S Ct Hmi run.
  assert (N : stop_reason r <> "tool_use") by (rewrite S; discriminate).
  split.
  - unfold generate_response. run_monad.
    unfold request_of, initial_store in M. simpl in M. rewrite M, S. simpl.
    unfold first_block_text. rewrite Ct. reflexivity.
  - destruct (stream_direct_run model logging messages_create now_isoformat
                tools tool_manager max_iterations query history w r e M N Hmi)
      as (decided & C & E).
    rewrite (classify_max_tokens logging _ r _ S) in C. injection C as <-.
    subst run. unfold drive_to_completion. rewrite E. unfold transitions.
    simpl. rewrite Ct. simpl.
    destruct (2 >=? max_iterations); simpl; split; auto.
Qed.

(** A truncated first answer: the single-shot path returns the fragment. *)
Lemma X15_truncated_answer_is_returned_by_the_single_shot_path_witness :
  fst (Scripted.single_shot "What is 2+2?" None None None
         (Scripted.start [Scripted.truncated]))
    = inr "The answer is"
  /\ drive_to_completion
       (Scripted.stream "What is 2+2?" None None None 10
          (Scripted.start [Scripted.truncated])) = None.
Proof.
  assert (H : 2 <= 10) by lia.
  destruct (X15_truncated_answer_is_returned_by_the_single_shot_path
              Scripted.W "claude" true Scripted.messages_create
              Scripted.now_isoformat "What is 2+2?" None None None 10
              (Scripted.start [Scripted.truncated]) Scripted.truncated []
              "The answer is" [] eq_refl eq_refl eq_refl H)
    as (A & B & _).
  split; [exact A | exact B].
Defined.

(** ** The calls of the single-shot path *)

(** X14: [generate_response] never iterates.  Whatever the responses, it
    sends the first request (the query alone, with the tools of the caller),
    then makes the tool calls of the first response, and then at most one
    more request, which declares no tools and whose messages are the query,
    the assistant turn and at most one turn of tool results; nothing is
    called after it, so a second request for tools is not executed.  Without
    a tool manager it makes the first call only. *)
Theorem X14_single_shot_calls_the_model_at_most_twice :
  forall (W : Type) model
         (messages_create : Request -> W -> (Exn + Response) * W)
         query history tools (tool_manager : option (ToolManager W))
         (w : World W) res w',
    generate_response W model messages_create query history tools tool_manager w
      = (res, w') ->
    let asked := {| role := user; message_content := ContentQuery query |} in
    let first := make_api_params model [asked] (build_system_content history)
                   tools in
    exists tool_part tail,
      port_calls w'
      = (port_calls w ++ ModelCall first :: tool_part ++ tail)%list
      /\ Forall (fun c => is_tool_call c = true) tool_part
      /\ (tail = []
          \/ exists second turn more,
               tail = [ModelCall second]
               /\ base_request model None second
               /\ req_system second = build_system_content history
               /\ req_messages second = asked :: turn :: more
               /\ role turn = assistant
               /\ (length more <= 1)%nat)
      /\ (tool_manager = None -> tool_part = [] /\ tail = []).
Proof.
  intros W model messages_create query history tools tool_manager w res w' H
    asked first.
  unfold generate_response in H. run_monad. fold asked in H. fold first in H.
  destruct (messages_create first (env w)) as [[x|r] e] eqn:E.
  { injection H as _ <-. exists [], []. simpl.
    split; [reflexivity|]. split; [constructor|]. split; [left; reflexivity | auto]. }
  destruct ((stop_reason r =? "tool_use")%string
            && match tool_manager with Some _ => true | None => false end) eqn:G.
  - apply andb_true_iff in G. destruct G as [_ G].
    destruct tool_manager as [execute_tool|]; [clear G | discriminate].
    unfold _handle_tool_execution in H. run_monad.
    match type of H with
    | context [execute_tool_blocks_sync W ?tm ?b ?a ?w0] =>
        destruct (execute_tool_blocks_sync W tm b a w0) as [[x|results] w1] eqn:S
    end;
      apply sync_blocks_calls in S; destruct S as (calls & P & F); simpl in P.
    + injection H as _ <-. exists calls, []. rewrite app_nil_r.
      split; [rewrite P, <- app_assoc; reflexivity|].
      split; [exact F|]. split; [left; reflexivity | discriminate].
    + match type of H with
      | context [messages_create ?rq (env w1)] =>
          set (second := rq) in *;
          destruct (messages_create second (env w1)) as [[x|r2] e2]
      end.
      * injection H as _ <-. exists calls, [ModelCall second]. simpl.
        split; [rewrite P, <- !app_assoc; reflexivity|].
        split; [exact F|]. split; [|discriminate].
        right. subst second.
        destruct results as [|tr trs]; do 3 eexists;
          (split; [reflexivity|]; split; [repeat split|];
           split; [reflexivity|]; split; [reflexivity|];
           split; [reflexivity | simpl; lia]).
      * assert (Pw : port_calls w'
                     = (port_calls w1 ++ [ModelCall second])%list).
        { unfold first_block_text in H. run_monad.
          destruct (content r2) as [|[] ?]; injection H as _ <-; reflexivity. }
        exists calls, [ModelCall second].
        split; [rewrite Pw, P, <- !app_assoc; reflexivity|].
        split; [exact F|]. split; [|discriminate].
        right. subst second.
        destruct results as [|tr trs]; do 3 eexists;
          (split; [reflexivity|]; split; [repeat split|];
           split; [reflexivity|]; split; [reflexivity|];
           split; [reflexivity | simpl; lia]).
  - unfold first_block_text in H. run_monad.
    assert (Pw : port_calls w' = (port_calls w ++ [ModelCall first])%list).
    { destruct (content r) as [|[] ?]; injection H as _ <-; reflexivity. }
    exists [], []. simpl. split; [exact Pw|].
    split; [constructor|]. split; [left; reflexivity | auto].
Qed.

(** One round of two tools: the first request, the two tool calls, and the
    second request, which declares no tools. *)
Lemma X14_single_shot_calls_the_model_at_most_twice_witness :
  exists tool_part tail,
    port_calls
      (snd (Scripted.single_shot "What is MCP?" None (Some ["search"; "outline"])
              (Some Scripted.execute_tool)
              (Scripted.start [Scripted.search_request; Scripted.search_request])))
    = (ModelCall
         (make_api_params "claude"
            [ {| role := user; message_content := ContentQuery "What is MCP?" |} ]
            (build_system_content None) (Some ["search"; "outline"]))
         :: tool_part ++ tail)%list
    /\ Forall (fun c => is_tool_call c = true) tool_part.
Proof.
  destruct (X14_single_shot_calls_the_model_at_most_twice Scripted.W "claude"
              Scripted.messages_create "What is MCP?" None
              (Some ["search"; "outline"]) (Some Scripted.execute_tool)
              (Scripted.start [Scripted.search_request; Scripted.search_request])
              (fst (Scripted.single_shot "What is MCP?" None
                      (Some ["search"; "outline"]) (Some Scripted.execute_tool)
                      (Scripted.start [Scripted.search_request;
                                       Scripted.search_request])))
              (snd (Scripted.single_shot "What is MCP?" None
                      (Some ["search"; "outline"]) (Some Scripted.execute_tool)
                      (Scripted.start [Scripted.search_request;
                                       Scripted.search_request])))
              eq_refl)
    as (tool_part & tail & P & F & _).
  exists tool_part, tail. split; [exact P | exact F].
Defined.

(** ** The budget of tool rounds *)

Lemma state_at_next (tr : StateTransition) (k : nat) :
  table_row tr ->
  from_state tr = state_at k ->
  is_terminal (to_state tr) = false ->
  to_state tr = state_at (S k).
Proof.
  intros Row F T.
  destruct k as [|[|n]].
  - simpl in *.
    destruct Row as [(_ & E & _)|[(F1 & _)|([F1|F1] & _)]]; congruence.
  - simpl in *.
    destruct Row as [(F1 & _)|[(F1 & _)|(_ & _ & [(E & _)|[(E & _)|[(E & _)|(E & _)]]])]];
      try congruence; rewrite E in T; discriminate.
  - change (state_at (S (S n)))
      with (if Nat.even n then EXECUTING_TOOLS else AWAITING_FOLLOW_UP) in F.
    change (state_at (S (S (S n))))
      with (if Nat.even (S n) then EXECUTING_TOOLS else AWAITING_FOLLOW_UP).
    rewrite Nat.even_succ, <- Nat.negb_even.
    destruct (Nat.even n); simpl.
    + destruct Row as [(F1 & _)|[(_ & E & _)|([F1|F1] & _)]]; congruence.
    + destruct Row as [(F1 & _)|[(F1 & _)|(_ & _ & [(E & _)|[(E & _)|[(E & _)|(E & _)]]])]];
        try congruence; rewrite E in T; discriminate.
Qed.

Lemma executed_iff_from_executing (tr : StateTransition) :
  table_row tr ->
  (trigger tr =? "tools_executed")%string
  = ConversationState_eqb (from_state tr) EXECUTING_TOOLS.
Proof.
  intros [(F & _ & T)|[(F & _ & T)|([F|F] & _ & [(_ & T)|[(_ & T)|[(_ & T)|(_ & T)]]])]];
    rewrite F, T; reflexivity.
Qed.

(** Along transitions that sit at the steps [k], [k + 1], ..., with
    [k >= 1], at most every second one executes tools. *)
Lemma tool_rounds_alternate (ts : list StateTransition) :
  forall k,
    (1 <= k)%nat ->
    Forall table_row ts ->
    (forall i t, nth_error ts i = Some t -> from_state t = state_at (k + i)) ->
    (2 * tool_rounds ts
     <= length ts
        + if ConversationState_eqb (state_at k) EXECUTING_TOOLS then 1 else 0)%nat.
Proof.
  unfold tool_rounds.
  induction ts as [|t ts IH]; intros k Hk Rows Pos; [simpl; lia|].
  inversion Rows as [|? ? Row Rows']; subst.
  assert (F : from_state t = state_at k).
  { rewrite (Pos 0%nat t eq_refl). rewrite Nat.add_0_r. reflexivity. }
  assert (Pos' : forall i t0, nth_error ts i = Some t0 ->
                              from_state t0 = state_at (S k + i)).
  { intros i t0 H. rewrite (Pos (S i) t0 H). f_equal. lia. }
  specialize (IH (S k) ltac:(lia) Rows' Pos').
  simpl filter. rewrite (executed_iff_from_executing t Row), F.
  destruct k as [|[|n]]; [lia | simpl in *; lia |].
  change (state_at (S (S (S n))))
    with (if Nat.even (S n) then EXECUTING_TOOLS else AWAITING_FOLLOW_UP) in IH.
  change (state_at (S (S n)))
    with (if Nat.even n then EXECUTING_TOOLS else AWAITING_FOLLOW_UP).
  rewrite Nat.even_succ, <- Nat.negb_even in IH.
  destruct (Nat.even n); simpl in *; lia.
Qed.

Section BudgetFacts.

Context {W : Type}.
Variable model : string.
Variable logging : bool.
Variable messages_create : Request -> W -> (Exn + Response) * W.
Variable now_isoformat : W -> string.

(** The state dispatched at each step of a run of the loop. *)
Lemma loop_run_positions tools tool_manager max_iterations cs it last
    (st : Store W) ys ex st' :
  loop_run model logging messages_create now_isoformat tools tool_manager
    max_iterations cs it last st ys ex st' ->
  forall k,
    cs = state_at k ->
    forall i y,
      nth_error ys i = Some y ->
      from_state (yield_transition y) = state_at (k + i).
Proof.
  induction 1 as [cs it last st C | cs it last st e st' C D
                 | cs it last st tr st' C D T
                 | cs it last st tr st' ys ex st'' C D T R IH];
    intros k Hk i y Hy.
  - destruct i; discriminate.
  - destruct i; discriminate.
  - apply dispatch_row in D. destruct D as [F _].
    destruct i as [|i]; [|destruct i; discriminate].
    injection Hy as <-. simpl. rewrite Nat.add_0_r. congruence.
  - apply dispatch_row in D. destruct D as [F Row].
    destruct i as [|i].
    + injection Hy as <-. simpl. rewrite Nat.add_0_r. congruence.
    + simpl in Hy. replace (k + S i)%nat with (S k + i)%nat by lia.
      apply IH; [|exact Hy].
      apply state_at_next; [exact Row | congruence | exact T].
Qed.

End BudgetFacts.

(** X16: the steps of a run and its budget of tool rounds.  The dispatched
    transition number [i] (from 0) of a run leaves the state of step [i]:
    INITIAL, AWAITING_TOOL_DECISION, then EXECUTING_TOOLS and
    AWAITING_FOLLOW_UP in turn.  A round of tools therefore takes two units
    of the bound, after the first two: a run executes at most
    [(max_iterations - 1) / 2] rounds of tools (four with the default bound
    of 10). *)
Theorem X16_steps_and_budget_of_tool_rounds :
  forall (W : Type) model logging
         (messages_create : Request -> W -> (Exn + Response) * W)
         (now_isoformat : W -> string)
         query history tools tool_manager max_iterations (w : World W),
    let run := generate_response_stream W model logging messages_create
                 now_isoformat query history tools tool_manager
                 max_iterations w in
    (forall i t,
        nth_error (transitions run) i = Some t ->
        trigger t <> "max_iterations_exceeded" ->
        from_state t = state_at i)
    /\ (2 * tool_rounds (transitions run) <= Z.to_nat max_iterations - 1)%nat.
Proof.
  intros W model logging messages_create now_isoformat query history tools
    tool_manager max_iterations w run.
  destruct (stream_is_loop_run model logging messages_create now_isoformat
              query history tools tool_manager max_iterations w)
    as (ys & ex & st & R & E).
  pose proof (loop_run_rows _ _ _ _ _ _ _ _ _ _ _ _ _ _ R) as Rows.
  pose proof (loop_run_positions _ _ _ _ _ _ _ _ _ _ _ _ _ _ R 0%nat eq_refl) as Pos.
  destruct (loop_run_path _ _ _ _ _ _ _ _ _ _ _ _ _ _ R) as (_ & _ & B).
  assert (PosT : forall i t,
             nth_error (map yield_transition ys) i = Some t ->
             from_state t = state_at i).
  { intros i t H. rewrite nth_error_map in H.
    destruct (nth_error ys i) as [y|] eqn:Y; [|discriminate].
    injection H as <-. exact (Pos i y Y). }
  assert (RowsT : Forall table_row (map yield_transition ys))
    by (rewrite Forall_map; exact Rows).
  assert (Rounds : (2 * tool_rounds (map yield_transition ys)
                    <= Z.to_nat max_iterations - 1)%nat).
  { destruct (map yield_transition ys) as [|t0 ts] eqn:M; [simpl; lia|].
    assert (L : (length (t0 :: ts) <= Z.to_nat max_iterations)%nat).
    { rewrite <- M, length_map. lia. }
    inversion RowsT as [|? ? Row0 Rows']; subst.
    pose proof (tool_rounds_alternate ts 1%nat ltac:(lia) Rows'
                  (fun i t H => PosT (S i) t H)) as A.
    assert (F0 : from_state t0 = INITIAL) by (exact (PosT 0%nat t0 eq_refl)).
    unfold tool_rounds in *. simpl filter.
    rewrite (executed_iff_from_executing t0 Row0), F0. simpl in *. lia. }
  assert (Synth : forall cs,
             tool_rounds (map yield_transition ys
                            ++ [max_iterations_transition cs max_iterations])
             = tool_rounds (map yield_transition ys)).
  { intros cs. unfold tool_rounds. rewrite filter_app, length_app. simpl. lia. }
  assert (Plain : (forall i t,
                     nth_error (map yield_transition ys) i = Some t ->
                     trigger t <> "max_iterations_exceeded" ->
                     from_state t = state_at i)
                  /\ (2 * tool_rounds (map yield_transition ys)
                      <= Z.to_nat max_iterations - 1)%nat).
  { split; [intros i t H _; exact (PosT i t H) | exact Rounds]. }
  subst run. rewrite E. unfold transitions.
  destruct ex as [cs it|x|]; cbn [after_loop yielded]; try exact Plain.
  destruct ((it >=? max_iterations) && negb (is_terminal cs));
    cbn [yielded]; try exact Plain.
  rewrite map_app. cbn [map yield_transition].
  split; [|rewrite Synth; exact Rounds].
  intros i t H N.
  destruct (Nat.lt_ge_cases i (length (map yield_transition ys))) as [Lt|Ge].
  - rewrite nth_error_app1 in H by exact Lt. exact (PosT i t H).
  - rewrite nth_error_app2 in H by exact Ge.
    destruct (i - length (map yield_transition ys))%nat as [|j];
      [|destruct j; discriminate].
    injection H as <-. simpl in N. congruence.
Qed.
